(** * Query orchestration of the Bedrock knowledge-base chatbot

    A shallow embedding of [src/prompt/engine.py] (query classifier and
    query enhancer) and of [BedrockKnowledgeBase.query] in
    [src/kb/bedrock.py] (identifier resolution, request construction,
    retry over alternative model identifiers, response normalisation and
    error wrapping), followed by the properties established about them.

    A Python [str] is modelled by a [string] whose characters are the code
    points below 256; the string primitives below follow Python on that
    range. The text that the input checks of [src/api/utils.py] receive
    from a request is modelled by the list of its code points, of any
    size. *)

From Stdlib Require Import String Ascii List Bool Arith Lia ZArith QArith.
From Stdlib Require Import DecimalString.
Import ListNotations.

Local Close Scope Q_scope.
Local Open Scope nat_scope.
Local Open Scope list_scope.
Local Open Scope string_scope.

(** ** Python string primitives *)

Module PyStr.

(** [str.isspace] on one character: TAB..CR, FS..US, space, NEL, NBSP. *)
Definition is_space (c : ascii) : bool :=
  let n := nat_of_ascii c in
  (((9 <=? n) && (n <=? 13)) || ((28 <=? n) && (n <=? 32))
   || (n =? 133) || (n =? 160))%nat.

(** [str.lower] on one character: A..Z and the upper-case letters of the
    Latin-1 block (all of 192..222 but the multiplication sign 215). *)
Definition lower_char (c : ascii) : ascii :=
  let n := nat_of_ascii c in
  if (((65 <=? n) && (n <=? 90))
      || ((192 <=? n) && (n <=? 222) && negb (n =? 215)))%nat
  then ascii_of_nat (n + 32) else c.

(** [s.lower()] *)
Fixpoint lower (s : string) : string :=
  match s with
  | EmptyString => EmptyString
  | String c s' => String (lower_char c) (lower s')
  end.

(** [s.lstrip()] *)
Fixpoint lstrip (s : string) : string :=
  match s with
  | EmptyString => EmptyString
  | String c s' => if is_space c then lstrip s' else s
  end.

(** [s.rstrip()] *)
Fixpoint rstrip (s : string) : string :=
  match s with
  | EmptyString => EmptyString
  | String c s' =>
      match rstrip s' with
      | EmptyString => if is_space c then EmptyString else String c EmptyString
      | r => String c r
      end
  end.

(** [s.strip()] *)
Definition strip (s : string) : string := rstrip (lstrip s).

(** [s.startswith(p)] *)
Fixpoint startswith (p s : string) : bool :=
  match p, s with
  | EmptyString, _ => true
  | String _ _, EmptyString => false
  | String a p', String b s' => Ascii.eqb a b && startswith p' s'
  end.

(** [needle in s] *)
Fixpoint contains (needle s : string) : bool :=
  startswith needle s
  || match s with
     | EmptyString => false
     | String _ s' => contains needle s'
     end.

(** [any(word in s for word in words)] *)
Definition any_in (words : list string) (s : string) : bool :=
  existsb (fun word => contains word s) words.

(** [s[:n]] *)
Fixpoint take (n : nat) (s : string) : string :=
  match n, s with
  | O, _ => EmptyString
  | S _, EmptyString => EmptyString
  | S n', String c s' => String c (take n' s')
  end.

(** [s.split(sep)[0]] for a one-character separator: the text before the
    first occurrence of [sep], all of [s] when there is none. *)
Fixpoint split_head (sep : ascii) (s : string) : string :=
  match s with
  | EmptyString => EmptyString
  | String c s' =>
      if Ascii.eqb c sep then EmptyString else String c (split_head sep s')
  end.

(** [s.split(sep)[-1]] for a one-character separator: the text after the
    last occurrence of [sep], all of [s] when there is none. *)
Fixpoint split_last (sep : ascii) (s : string) : string :=
  match s with
  | EmptyString => EmptyString
  | String c s' =>
      if contains (String sep EmptyString) s' then split_last sep s'
      else if Ascii.eqb c sep then s' else s
  end.

(** [sep.join(parts)] *)
Definition join (sep : string) (parts : list string) : string :=
  String.concat sep parts.

(** [l[-n:]] for [n > 0] *)
Definition last_n {A : Type} (n : nat) (l : list A) : list A :=
  skipn (List.length l - n) l.

(** [l.append(x)] *)
Definition append {A : Type} (l : list A) (x : A) : list A :=
  (l ++ [x])%list.

(** [str(n)] for a non-negative integer *)
Definition str_of_nat (n : nat) : string :=
  NilZero.string_of_uint (Nat.to_uint n).

(** Truthiness of a [str]. *)
Definition truthy (s : string) : bool :=
  match s with EmptyString => false | _ => true end.

(** Truthiness of an [Optional[str]]. *)
Definition otruthy (o : option string) : bool :=
  match o with Some s => truthy s | None => false end.

(** [a or b] on two [Optional[str]] values. *)
Definition por (a b : option string) : option string :=
  if otruthy a then a else b.

Definition LF : string := String (ascii_of_nat 10) EmptyString.

End PyStr.

(** ** [src/prompt/engine.py] *)

Module PromptEngine.
Import PyStr.

Definition technical_keywords : list string :=
  ["how"; "implement"; "configure"; "setup"; "technical"; "specification"].

Definition summary_keywords : list string :=
  ["summarize"; "summary"; "overview"; "brief"].

Definition comparison_keywords : list string :=
  ["compare"; "difference"; "versus"; "vs"; "better"].

(** [PromptEngine.detect_query_type] *)
Definition detect_query_type (question : string) : string :=
  let question_lower := lower question in
  if any_in technical_keywords question_lower then "technical"
  else if any_in summary_keywords question_lower then "summary"
  else if any_in comparison_keywords question_lower then "comparison"
  else "general".

(** One entry of [conversation_history]: a dict read with
    [item.get('question', '')] and [item.get('answer', '')], so either key
    may be missing. *)
Record Exchange : Type := mkExchange {
  ex_question : option string;
  ex_answer : option string
}.

Definition get_default (o : option string) (d : string) : string :=
  match o with Some s => s | None => d end.

(** The body of the [for item in ...] loop: two [append]s onto
    [recent_context]. *)
Definition enhance_step (recent_context : list string) (item : Exchange)
  : list string :=
  append
    (append recent_context
       ("Previous question: " ++ get_default (ex_question item) ""))
    ("Previous answer: " ++ take 200 (get_default (ex_answer item) "")
       ++ "...").

(** [PromptEngine.enhance_query] *)
Definition enhance_query (question : string)
    (conversation_history : list Exchange) : string :=
  match conversation_history with
  | [] => question
  | _ :: _ =>
      let recent_context :=
        fold_left enhance_step (last_n 3 conversation_history) [] in
      match recent_context with
      | _ :: _ =>
          let enhanced :=
            "Context from previous conversation:" ++ LF
              ++ join LF recent_context in
          enhanced ++ (LF ++ LF ++ "Current question: " ++ question)
      | [] => question
      end
  end.

End PromptEngine.

(** ** [src/kb/bedrock.py]: data *)

Module Bedrock.
Import PyStr.

(** The immutable configuration read in [__init__]; [config.get] yields
    [None] for a missing key, and [prompt_engine] may be [None]. *)
Record Config : Type := mkConfig {
  region : string;
  kb_id : option string;
  model_id : option string;
  has_prompt_engine : bool
}.

(** [params['retrieveAndGenerateConfiguration']['knowledgeBaseConfiguration']] *)
Record KnowledgeBaseConfiguration : Type := mkKBC {
  knowledgeBaseId : string;
  modelArn : string;
  numberOfResults : Z;
  orchestrationPromptTemplate : string;
  generationPromptTemplate : string
}.

(** [params['retrieveAndGenerateConfiguration']] *)
Record RetrieveAndGenerateConfiguration : Type := mkRAG {
  rag_type : string;
  knowledgeBaseConfiguration : KnowledgeBaseConfiguration
}.

(** The [params] dict passed to [retrieve_and_generate]. The ['input'] key
    is set by the dict literal; the two other keys are added afterwards and
    are optional at the type. *)
Record Params : Type := mkParams {
  input_text : string;
  retrieveAndGenerateConfiguration : option RetrieveAndGenerateConfiguration;
  sessionId : option string
}.

(** One entry of [citation['retrievedReferences']], every key optional.
    The score is a float that is only copied; a rational stands for it. *)
Record RetrievedReference : Type := mkRef {
  ref_content_text : option string;
  ref_content_type : option string;
  ref_s3_uri : option string;
  ref_score : option Q
}.

(** The provider's answer: [output.text], the citations (each one its list
    of retrieved references) and [sessionId], every key optional. *)
Record Response : Type := mkResponse {
  output_text : option string;
  citations : list (list RetrievedReference);
  resp_sessionId : option string
}.

(** [e.response['Error']] of a botocore [ClientError], with [str(e)]. *)
Record ClientErrorData : Type := mkClientError {
  ce_code : option string;
  ce_message : option string;
  ce_str : string
}.

(** The exceptions of the model: [ValueError(msg)], botocore's
    [ClientError], a plain [Exception(msg)], and any other exception class
    the provider client raises (known by its [str]). All are subclasses of
    [Exception]; only the second one is a [ClientError]. *)
Inductive exn : Type :=
| ValueError (msg : string)
| ClientError (e : ClientErrorData)
| PyException (msg : string)
| OtherError (msg : string).

(** [str(e)] *)
Definition exn_str (e : exn) : string :=
  match e with
  | ValueError msg => msg
  | ClientError ce => ce_str ce
  | PyException msg => msg
  | OtherError msg => msg
  end.

Inductive Outcome : Type :=
| Responds (r : Response)
| Fails (e : exn).

(** The provider client [self.bedrock_agent.retrieve_and_generate]: what the
    [n]-th call of one [query()] does with the request it receives. *)
Definition Provider : Type := nat -> Params -> Outcome.

Record Source : Type := mkSource {
  content : string;
  s3_uri : string;
  s3_key : string;
  score : Q;
  source_type : string
}.

Record Metadata : Type := mkMetadata {
  md_model : string;
  md_kb_id : string;
  sources_count : nat
}.

(** The dict returned by [query]. The two wall-clock readings
    ([response_time_ms], [metadata.timestamp]) are not modelled. *)
Record QueryResult : Type := mkQueryResult {
  answer : string;
  sources : list Source;
  session_id : option string;
  query_type : string;
  enhanced_question : option string;
  metadata : Metadata
}.

(** ** An exception monad over the log of provider calls *)

Inductive result (A : Type) : Type :=
| Return (a : A)
| Raise (e : exn).
Arguments Return {A} a.
Arguments Raise {A} e.

(** A computation reads the provider and extends the list of requests sent
    to it so far. *)
Definition M (A : Type) : Type :=
  Provider -> list Params -> result A * list Params.

Definition ret {A : Type} (a : A) : M A :=
  fun _ calls => (Return a, calls).

Definition raise {A : Type} (e : exn) : M A :=
  fun _ calls => (Raise e, calls).

Definition bind {A B : Type} (m : M A) (k : A -> M B) : M B :=
  fun provider calls =>
    match m provider calls with
    | (Return a, calls') => k a provider calls'
    | (Raise e, calls') => (Raise e, calls')
    end.

(** [try: m  except ...: handler(e)] *)
Definition try_except {A : Type} (m : M A) (handler : exn -> M A) : M A :=
  fun provider calls =>
    match m provider calls with
    | (Return a, calls') => (Return a, calls')
    | (Raise e, calls') => handler e provider calls'
    end.

(** [self.bedrock_agent.retrieve_and_generate], called on the unpacked
    [params]; every call is logged, whatever its outcome. *)
Definition retrieve_and_generate (params : Params) : M Response :=
  fun provider calls =>
    match provider (List.length calls) params with
    | Responds r => (Return r, append calls params)
    | Fails e => (Raise e, append calls params)
    end.

Notation "x <- m ;; k" := (bind m (fun x => k))
  (at level 61, m at next level, right associativity).

(** ** [BedrockKnowledgeBase.query] *)

(** The pattern [^[0-9a-zA-Z._:-]+$] under [re.match]: one or more
    characters of the class, then the end of the text or one final line
    feed (which [$] accepts). *)
Definition session_char (c : ascii) : bool :=
  let n := nat_of_ascii c in
  (((48 <=? n) && (n <=? 57)) || ((97 <=? n) && (n <=? 122))
   || ((65 <=? n) && (n <=? 90))
   || (n =? 46) || (n =? 95) || (n =? 58) || (n =? 45))%nat.

Fixpoint session_rest (s : string) : bool :=
  match s with
  | EmptyString => true
  | String c EmptyString => session_char c || (nat_of_ascii c =? 10)%nat
  | String c s' => session_char c && session_rest s'
  end.

Definition session_id_matches (s : string) : bool :=
  match s with
  | EmptyString => false
  | String c s' => session_char c && session_rest s'
  end.

Definition orchestration_template : string :=
"Review the following retrieved documents and prepare a comprehensive context to help answer the user's question. Organize the information logically and include all relevant details.

Retrieved Documents:
$search_results$

User Question:
$query$

Conversation History:
$conversation_history$

Output Format Instructions:
$output_format_instructions$

Organized Context:".

Definition generation_template : string :=
"Use the following pieces of context to answer the question at the end. If you don't know the answer, just say that you don't know, don't try to make up an answer.

Context:
$search_results$

Question: $query$

Answer:".

(** [build_retrieve_config(model_arn_value)], with [self.kb_id] *)
Definition build_retrieve_config (kb : string) (model_arn_value : string)
  : RetrieveAndGenerateConfiguration :=
  {| rag_type := "KNOWLEDGE_BASE";
     knowledgeBaseConfiguration :=
       {| knowledgeBaseId := strip kb;
          modelArn := strip model_arn_value;
          numberOfResults := 5%Z;
          orchestrationPromptTemplate := orchestration_template;
          generationPromptTemplate := generation_template |} |}.

(** [f"arn:aws:bedrock:{self.region}::foundation-model/{model}"] *)
Definition foundation_model_arn (rgn model : string) : string :=
  "arn:aws:bedrock:" ++ rgn ++ "::foundation-model/" ++ model.

(** [get_model_arn()], with [self.region] and [self.model_id] *)
Definition get_model_arn (rgn model : string) : string :=
  if startswith "arn:aws:bedrock:" model then
    if contains ":inference-profile/" model then model
    else model
  else
    let model_arn := foundation_model_arn rgn model in
    model_arn.

(** [x in l] on a list of strings *)
Definition in_list (x : string) (l : list string) : bool :=
  existsb (String.eqb x) l.

Definition alt_model : string := "anthropic.claude-3-5-sonnet-20240620-v1:0".

(** The list [model_arn_attempts] built in the [ClientError] handler
    (Try 1, Try 2, Try 3). *)
Definition model_arn_attempts (rgn model current_model_arn : string)
  : list string :=
  let attempts0 : list string := [] in
  let foundation_arn := foundation_model_arn rgn model in
  let attempts1 :=
    if negb (foundation_arn =? current_model_arn)
    then append attempts0 foundation_arn else attempts0 in
  let attempts2 :=
    if contains "claude-3-5-sonnet" (lower model) then
      if negb (alt_model =? model) then
        let alt_foundation_arn := foundation_model_arn rgn alt_model in
        if negb (alt_foundation_arn =? current_model_arn)
           && negb (in_list alt_foundation_arn attempts1)
        then append attempts1 alt_foundation_arn else attempts1
      else attempts1
    else attempts1 in
  let attempts3 :=
    if contains ":" model then
      let base_model_id := split_head ":" model in
      let base_foundation_arn := foundation_model_arn rgn base_model_id in
      if negb (base_foundation_arn =? current_model_arn)
         && negb (in_list base_foundation_arn attempts2)
      then append attempts2 base_foundation_arn else attempts2
    else attempts2 in
  attempts3.

(** The in-place assignment to [...['modelArn']] inside [params]. *)
Definition set_model_arn (params : Params)
    (cfg : RetrieveAndGenerateConfiguration) (arn : string) : Params :=
  let kbc := knowledgeBaseConfiguration cfg in
  {| input_text := input_text params;
     retrieveAndGenerateConfiguration :=
       Some {| rag_type := rag_type cfg;
               knowledgeBaseConfiguration :=
                 {| knowledgeBaseId := knowledgeBaseId kbc;
                    modelArn := arn;
                    numberOfResults := numberOfResults kbc;
                    orchestrationPromptTemplate :=
                      orchestrationPromptTemplate kbc;
                    generationPromptTemplate :=
                      generationPromptTemplate kbc |} |};
     sessionId := sessionId params |}.

(** The loop [for i, alt_model_arn in enumerate(model_arn_attempts)]: each
    turn overwrites the model identifier in [params] and calls the
    provider; a response ends the loop, any exception moves on to the next
    identifier. The result is the response of the successful turn, if there
    is one ([retry_success]). *)
Fixpoint retry_loop (params : Params)
    (cfg : RetrieveAndGenerateConfiguration) (attempts : list string)
  : M (option Response) :=
  match attempts with
  | [] => ret None
  | alt_model_arn :: rest =>
      let params' := set_model_arn params cfg alt_model_arn in
      try_except
        (response <- retrieve_and_generate params' ;; ret (Some response))
        (fun _ => retry_loop params' cfg rest)
  end.

Definition aws_error (error_code error_message : string) : string :=
  "AWS Error (" ++ error_code ++ "): " ++ error_message.

(** The test [is_model_error] on the provider's message. *)
Definition is_model_error (error_message : string) : bool :=
  contains "invalid" (lower error_message)
  || contains "model" (lower error_message)
  || contains "identifier" (lower error_message).

(** The handlers of the inner [try] around the first provider call:
    [except ClientError] (lines 258-337) and [except Exception], which
    re-raises. An exception raised by a handler leaves the inner [try]. *)
Definition provider_call_handler (rgn model : string) (params : Params)
    (e : exn) : M Response :=
  match e with
  | ClientError ce =>
      let error_code := PromptEngine.get_default (ce_code ce) "Unknown" in
      let error_message :=
        PromptEngine.get_default (ce_message ce) (ce_str ce) in
      match (error_code =? "ValidationException"),
            retrieveAndGenerateConfiguration params with
      | true, Some cfg =>
          if is_model_error error_message then
            let current_model_arn :=
              modelArn (knowledgeBaseConfiguration cfg) in
            let attempts := model_arn_attempts rgn model current_model_arn in
            retried <- retry_loop params cfg attempts ;;
            match retried with
            | Some response => ret response
            | None =>
                raise (PyException
                         (aws_error error_code error_message
                            ++ ". Tried "
                            ++ str_of_nat (List.length attempts)
                            ++ " alternative model formats, all failed."))
            end
          else raise (PyException (aws_error error_code error_message))
      | _, _ => raise (PyException (aws_error error_code error_message))
      end
  | _ => raise e
  end.

Definition auth_codes : list string :=
  ["UnrecognizedClientException"; "InvalidClientTokenId";
   "SignatureDoesNotMatch"].

Definition helpful_msg (error_code error_message : string) : string :=
  "AWS Authentication Error (" ++ error_code ++ "): " ++ error_message ++ LF
  ++ "Please configure AWS credentials using one of the following methods:"
  ++ LF
  ++ "  1. AWS credentials file: ~/.aws/credentials" ++ LF
  ++ "  2. Environment variables: AWS_ACCESS_KEY_ID and AWS_SECRET_ACCESS_KEY"
  ++ LF
  ++ "  3. IAM role (if running on EC2/ECS/Lambda)" ++ LF
  ++ "  4. AWS SSO: aws sso login" ++ LF
  ++ "  5. AWS CLI: aws configure".

(** The handlers of the outer [try] (lines 386-407): [except ClientError],
    with the credential hint, and [except Exception]. *)
Definition query_handler {A : Type} (e : exn) : M A :=
  match e with
  | ClientError ce =>
      let error_code := PromptEngine.get_default (ce_code ce) "Unknown" in
      let error_message :=
        PromptEngine.get_default (ce_message ce) (ce_str ce) in
      if in_list error_code auth_codes
      then raise (PyException (helpful_msg error_code error_message))
      else raise (PyException (aws_error error_code error_message))
  | _ =>
      raise (PyException ("Failed to query knowledge base: " ++ exn_str e))
  end.

(** One [source_info] dict. The raw ['location'] dict is represented by
    its [s3Location.uri]. *)
Definition source_info (ref : RetrievedReference) : Source :=
  {| content := PromptEngine.get_default (ref_content_text ref) "";
     s3_uri := PromptEngine.get_default (ref_s3_uri ref) "";
     s3_key :=
       if otruthy (ref_s3_uri ref)
       then split_last "/" (PromptEngine.get_default (ref_s3_uri ref) "")
       else "";
     score := match ref_score ref with Some q => q | None => 0%Q end;
     source_type := PromptEngine.get_default (ref_content_type ref) "text" |}.

(** The two nested loops over the citations and their references. *)
Definition format_sources (cits : list (list RetrievedReference))
  : list Source :=
  fold_left
    (fun srcs retrieved_references =>
       fold_left (fun srcs' ref => append srcs' (source_info ref))
                 retrieved_references srcs)
    cits [].

(** [params['retrieveAndGenerateConfiguration'] = cfg] *)
Definition with_config (params : Params)
    (cfg : RetrieveAndGenerateConfiguration) : Params :=
  {| input_text := input_text params;
     retrieveAndGenerateConfiguration := Some cfg;
     sessionId := sessionId params |}.

(** [params['sessionId'] = sid] *)
Definition with_session (params : Params) (sid : string) : Params :=
  {| input_text := input_text params;
     retrieveAndGenerateConfiguration :=
       retrieveAndGenerateConfiguration params;
     sessionId := Some sid |}.

(** Lines 110-121: the question sent to the provider. *)
Definition enhanced_question_of (self : Config) (question : string)
    (conversation_history : list PromptEngine.Exchange)
    (use_advanced_prompts : bool) : string :=
  if use_advanced_prompts && has_prompt_engine self
     && negb (Nat.eqb (List.length conversation_history) 0)
  then
    let enhanced := PromptEngine.enhance_query question conversation_history in
    let enhanced := if negb (truthy enhanced) then question else enhanced in
    let enhanced := strip enhanced in
    if negb (truthy enhanced) then question else enhanced
  else question.

(** Lines 123-126: the query type, detected when none is given. *)
Definition query_type_of (self : Config) (question : string)
    (qtype : option string) (use_advanced_prompts : bool) : option string :=
  if negb (otruthy qtype) && use_advanced_prompts && has_prompt_engine self
  then Some (PromptEngine.detect_query_type question)
  else qtype.

(** Lines 128-133: a session id that does not match the pattern is
    dropped. *)
Definition checked_session_id (sid : option string) : option string :=
  match sid with
  | Some s =>
      if truthy s then
        if negb (session_id_matches s) then None else sid
      else sid
  | None => None
  end.

(** Lines 200-217: the request of the first provider call. *)
Definition build_params (self : Config) (kb model enhanced : string)
    (sid : option string) : Params :=
  let params :=
    {| input_text := enhanced;
       retrieveAndGenerateConfiguration := None;
       sessionId := None |} in
  let model_arn := get_model_arn (region self) model in
  let params := with_config params (build_retrieve_config kb model_arn) in
  match sid with
  | Some s => if truthy s then with_session params s else params
  | None => params
  end.

(** Lines 342-384: the result built from the provider's response. The
    retry loop only ever overwrites the model identifier inside [params],
    so [params.get('sessionId')] is read from the request as first built. *)
Definition normalize (kb model question enhanced : string)
    (qtype : option string) (params : Params) (response : Response)
  : QueryResult :=
  let ans := PromptEngine.get_default (output_text response) "No answer found" in
  let srcs := format_sources (citations response) in
  let response_session_id := por (resp_sessionId response) (sessionId params) in
  {| answer := ans;
     sources := srcs;
     session_id := response_session_id;
     query_type := PromptEngine.get_default (por qtype (Some "general")) "general";
     enhanced_question :=
       if negb (enhanced =? question) then Some enhanced else None;
     metadata :=
       {| md_model := model;
          md_kb_id := kb;
          sources_count := List.length srcs |} |}.

(** The body of the outer [try] (lines 94-384), once [self.kb_id] and
    [self.model_id] are known to be strings. *)
Definition query_checked (self : Config) (kb model question : string)
    (sid : option string)
    (conversation_history : list PromptEngine.Exchange)
    (qtype : option string) (use_advanced_prompts : bool) : M QueryResult :=
  let enhanced :=
    enhanced_question_of self question conversation_history
      use_advanced_prompts in
  let qtype := query_type_of self question qtype use_advanced_prompts in
  let sid := checked_session_id sid in
  let params := build_params self kb model enhanced sid in
  match retrieveAndGenerateConfiguration params with
  | None =>
      raise (ValueError "Missing required 'retrieveAndGenerateConfiguration'")
  | Some _ =>
      response <-
        try_except (retrieve_and_generate params)
                   (provider_call_handler (region self) model params) ;;
      ret (normalize kb model question enhanced qtype params response)
  end.

(** A configuration value passes when the test
    [not v or not isinstance(v, str) or not v.strip()] is false. *)
Definition usable (v : string) : bool := truthy v && truthy (strip v).

(** The body of the outer [try], from the input validation on. *)
Definition query_body (self : Config) (question : string)
    (sid : option string)
    (conversation_history : list PromptEngine.Exchange)
    (qtype : option string) (use_advanced_prompts : bool) : M QueryResult :=
  if negb (truthy question)
  then raise (ValueError "Question must be a non-empty string")
  else
    let question := strip question in
    if negb (truthy question)
    then raise (ValueError "Question cannot be empty or whitespace only")
    else
      match kb_id self with
      | Some kb =>
          if usable kb then
            match model_id self with
            | Some model =>
                if usable model then
                  query_checked self kb model question sid
                    conversation_history qtype use_advanced_prompts
                else raise (ValueError "Model ID is not configured or invalid")
            | None => raise (ValueError "Model ID is not configured or invalid")
            end
          else
            raise (ValueError "Knowledge Base ID is not configured or invalid")
      | None =>
          raise (ValueError "Knowledge Base ID is not configured or invalid")
      end.

(** [BedrockKnowledgeBase.query] *)
Definition query (self : Config) (question : string)
    (sid : option string)
    (conversation_history : list PromptEngine.Exchange)
    (qtype : option string) (use_advanced_prompts : bool) : M QueryResult :=
  if negb (otruthy (kb_id self))
  then raise (ValueError "Knowledge Base ID not configured")
  else
    try_except
      (query_body self question sid conversation_history qtype
         use_advanced_prompts)
      query_handler.

(** One call of [query] against a provider: its outcome and the requests
    the provider received, in order. *)
Definition run_query (provider : Provider) (self : Config)
    (question : string) (sid : option string)
    (conversation_history : list PromptEngine.Exchange)
    (qtype : option string) (use_advanced_prompts : bool)
  : result QueryResult * list Params :=
  query self question sid conversation_history qtype use_advanced_prompts
    provider [].

End Bedrock.

(** ** Vocabulary of the statements *)

Module Spec.
Import PyStr PromptEngine Bedrock.

(** [w] occurs in [q] up to letter case: a run of consecutive characters
    of [q] lower-cases to [w]. Nothing is asked of what surrounds it. *)
Definition occurs_nocase (w q : string) : Prop :=
  exists a u b, q = a ++ u ++ b /\ lower u = w.

(** Some keyword of [words] occurs in [q] up to letter case. *)
Definition matches (words : list string) (q : string) : Prop :=
  exists w, In w words /\ occurs_nocase w q.

(** [s] ends with [t]. *)
Definition ends_with (s t : string) : Prop := exists pre, s = pre ++ t.

(** The two lines rendered for one exchange. *)
Definition rendered (item : Exchange) : list string :=
  ["Previous question: " ++ get_default (ex_question item) "";
   "Previous answer: " ++ take 200 (get_default (ex_answer item) "") ++ "..."].

(** Identifier resolution as the specification words it: an identifier
    that is a provider resource name with the inference-profile marker is
    kept, every other one is turned into a foundation-model name. *)
Definition resolution_as_specified (rgn model : string) : Prop :=
  (startswith "arn:aws:bedrock:" model = true
   /\ contains ":inference-profile/" model = true ->
   get_model_arn rgn model = model)
  /\ (~ (startswith "arn:aws:bedrock:" model = true
         /\ contains ":inference-profile/" model = true) ->
      get_model_arn rgn model = foundation_model_arn rgn model).

(** The checks of [query] that precede the provider call all pass: the
    knowledge-base id and the model id are configured and not blank, the
    question is not blank. *)
Definition reaches_provider (self : Config) (question kb model : string)
  : Prop :=
  kb_id self = Some kb /\ usable kb = true
  /\ model_id self = Some model /\ usable model = true
  /\ truthy question = true /\ truthy (strip question) = true.

(** The contract of the retrieve-and-generate call on the provider's side:
    every response carries a session id, and it is not empty. *)
Definition assigns_session (provider : Provider) : Prop :=
  forall n req resp,
    provider n req = Responds resp ->
    exists s, resp_sessionId resp = Some s /\ s <> "".

(** The session id attached to the requests of one [query]. *)
Definition sent_session_id (sid : option string) : option string :=
  match checked_session_id sid with
  | Some s => if truthy s then Some s else None
  | None => None
  end.

(** The request of the first provider call of one [query]. *)
Definition first_request (self : Config) (kb model question : string)
    (sid : option string) (history : list Exchange) (adv : bool) : Params :=
  build_params self kb model
    (enhanced_question_of self (strip question) history adv)
    (checked_session_id sid).

(** The configuration block of the first request. *)
Definition first_config (self : Config) (kb model : string)
  : RetrieveAndGenerateConfiguration :=
  build_retrieve_config kb (get_model_arn (region self) model).

(** The alternative identifiers of one [query], were its first call
    rejected. *)
Definition alternatives (self : Config) (model : string) : list string :=
  model_arn_attempts (region self) model
    (strip (get_model_arn (region self) model)).

(** The model identifier a request carries. *)
Definition model_arn_of (req : Params) : option string :=
  option_map (fun cfg => modelArn (knowledgeBaseConfiguration cfg))
             (retrieveAndGenerateConfiguration req).

(** [resp] is the provider's response to [req], the last of [calls]. *)
Definition answered_by (provider : Provider) (calls : list Params)
    (req : Params) (resp : Response) : Prop :=
  exists earlier,
    calls = (earlier ++ [req])%list
    /\ provider (List.length earlier) req = Responds resp.

(** The retrieval and generation block of a request is fully populated for
    the knowledge base [kb] with the model identifier [arn]. *)
Definition populated (req : Params) (kb arn : string) : Prop :=
  strip kb <> "" /\ arn <> ""
  /\ retrieveAndGenerateConfiguration req =
       Some {| rag_type := "KNOWLEDGE_BASE";
               knowledgeBaseConfiguration :=
                 {| knowledgeBaseId := strip kb;
                    modelArn := arn;
                    numberOfResults := 5%Z;
                    orchestrationPromptTemplate := orchestration_template;
                    generationPromptTemplate := generation_template |} |}.

End Spec.

(** ** Concrete configurations, providers and histories *)

Module Scenario.
Import PyStr PromptEngine Bedrock.

Definition sonnet_config : Config :=
  {| region := "us-east-1";
     kb_id := Some "R6TD9J5RHA";
     model_id := Some "anthropic.claude-3-5-sonnet-20241022-v2:0";
     has_prompt_engine := true |}.

(** The provider's rejection of a model identifier. *)
Definition invalid_model : exn :=
  ClientError
    {| ce_code := Some "ValidationException";
       ce_message := Some "model identifier invalid";
       ce_str := "An error occurred (ValidationException) when calling the RetrieveAndGenerate operation: model identifier invalid" |}.

(** The provider's rejection of the caller's credentials. *)
Definition bad_credentials : exn :=
  ClientError
    {| ce_code := Some "UnrecognizedClientException";
       ce_message :=
         Some "The security token included in the request is invalid.";
       ce_str := "An error occurred (UnrecognizedClientException) when calling the RetrieveAndGenerate operation: The security token included in the request is invalid." |}.

Definition answer_x : Response :=
  {| output_text := Some "X is a thing.";
     citations :=
       [[{| ref_content_text := Some "X is a thing, documented here.";
            ref_content_type := None;
            ref_s3_uri := Some "s3://bucket/documents/x.pdf";
            ref_score := Some (87 # 100)%Q |}]];
     resp_sessionId := Some "sess-1" |}.

(** A provider that rejects the credentials on every call. *)
Definition rejecting_credentials : Provider :=
  fun _ _ => Fails bad_credentials.

(** A provider that rejects the model identifier of the first call and
    answers every later one. *)
Definition accepting_second : Provider :=
  fun n _ => match n with O => Fails invalid_model | S _ => Responds answer_x end.

(** A provider that rejects every model identifier. *)
Definition rejecting_models : Provider :=
  fun _ _ => Fails invalid_model.

Definition sonnet_arn : string :=
  "arn:aws:bedrock:us-east-1::foundation-model/anthropic.claude-3-5-sonnet-20241022-v2:0".

Definition sibling_arn : string :=
  "arn:aws:bedrock:us-east-1::foundation-model/anthropic.claude-3-5-sonnet-20240620-v1:0".

Definition unversioned_arn : string :=
  "arn:aws:bedrock:us-east-1::foundation-model/anthropic.claude-3-5-sonnet-20241022-v2".

(** A configured model id that is the resource name of an inference
    profile. *)
Definition profile_arn : string :=
  "arn:aws:bedrock:us-east-1:123456789012:inference-profile/us.anthropic.claude-3-5-sonnet-20241022-v2:0".

Definition profile_config : Config :=
  {| region := "us-east-1";
     kb_id := Some "R6TD9J5RHA";
     model_id := Some profile_arn;
     has_prompt_engine := true |}.

(** The request [query] sends for the question [What is X?] under
    [sonnet_config] with the model identifier [arn] and the session
    [sid]. *)
Definition request_x (arn : string) (sid : option string) : Params :=
  {| input_text := "What is X?";
     retrieveAndGenerateConfiguration :=
       Some {| rag_type := "KNOWLEDGE_BASE";
               knowledgeBaseConfiguration :=
                 {| knowledgeBaseId := "R6TD9J5RHA";
                    modelArn := arn;
                    numberOfResults := 5%Z;
                    orchestrationPromptTemplate := orchestration_template;
                    generationPromptTemplate := generation_template |} |};
     sessionId := sid |}.

Definition long_answer : string :=
  "0123456789012345678901234567890123456789012345678901234567890123456789012345678901234567890123456789012345678901234567890123456789012345678901234567890123456789012345678901234567890123456789012345678901234567890123456789cut".

Definition five_exchanges : list Exchange :=
  [ {| ex_question := Some "q1"; ex_answer := Some "a1" |};
    {| ex_question := Some "q2"; ex_answer := Some "a2" |};
    {| ex_question := Some "q3"; ex_answer := Some "a3" |};
    {| ex_question := Some "q4"; ex_answer := None |};
    {| ex_question := Some "q5"; ex_answer := Some long_answer |} ].

End Scenario.

(** ** Vocabulary for the error paths of [query] *)

Module QueryVocabulary.
Import PyStr PromptEngine Bedrock.

(** The error code and message that the handlers read off a
    [ClientError]. *)
Definition error_code_of (ce : ClientErrorData) : string :=
  get_default (ce_code ce) "Unknown".

Definition error_message_of (ce : ClientErrorData) : string :=
  get_default (ce_message ce) (ce_str ce).

(** The failures of the first provider call that start the retry loop: a
    [ClientError] with the code [ValidationException] whose message points
    at the model identifier. *)
Definition starts_retry (e : exn) : bool :=
  match e with
  | ClientError ce =>
      (error_code_of ce =? "ValidationException")
      && is_model_error (error_message_of ce)
  | _ => false
  end.

(** The text under which a failure of the provider call is reported. *)
Definition reported (e : exn) : string :=
  match e with
  | ClientError ce => aws_error (error_code_of ce) (error_message_of ce)
  | _ => exn_str e
  end.

(** Every character of [s] satisfies [p]. *)
Fixpoint all_chars (p : ascii -> bool) (s : string) : bool :=
  match s with
  | EmptyString => true
  | String c s' => p c && all_chars p s'
  end.

End QueryVocabulary.

(** ** Text of any code points *)

Module PyText.

(** A Python [str] as the sequence of its code points. The text that
    [src/api/utils.py] sanitises and validates comes from a JSON body and
    is not limited to the code points below 256. *)
Definition Text : Type := list N.

(** The code points of a [string]. *)
Definition of_string (s : string) : Text :=
  map N_of_ascii (list_ascii_of_string s).

(** Truthiness of a [str]. *)
Definition truthy (s : Text) : bool :=
  match s with [] => false | _ :: _ => true end.

(** The code points on which [str.isspace] holds; [\s] matches the same
    ones. *)
Definition space_chars : list N :=
  [9; 10; 11; 12; 13; 28; 29; 30; 31; 32; 133; 160; 5760; 8192; 8193; 8194;
   8195; 8196; 8197; 8198; 8199; 8200; 8201; 8202; 8232; 8233; 8239; 8287;
   12288]%N.

Definition is_space (c : N) : bool := existsb (N.eqb c) space_chars.

(** [s.lstrip()] *)
Fixpoint lstrip (s : Text) : Text :=
  match s with
  | [] => []
  | c :: s' => if is_space c then lstrip s' else s
  end.

(** [s.rstrip()] *)
Fixpoint rstrip (s : Text) : Text :=
  match s with
  | [] => []
  | c :: s' =>
      match rstrip s' with
      | [] => if is_space c then [] else [c]
      | d :: r => c :: d :: r
      end
  end.

(** [s.strip()] *)
Definition strip (s : Text) : Text := rstrip (lstrip s).

(** [s[:stop]]: a negative [stop] counts from the end of [s]. *)
Definition slice_to (stop : Z) (s : Text) : Text :=
  let stop :=
    if (stop <? 0)%Z then (Z.of_nat (List.length s) + stop)%Z else stop in
  firstn (Z.to_nat stop) s.

(** The code points matched by [\w] in a [str] pattern, as ranges with
    both ends included: those on which [str.isalnum] holds, and the
    underscore (Unicode 14.0, the character database of CPython 3.11). *)
Definition word_ranges : list (N * N) :=
  [(48, 57); (65, 90); (95, 95); (97, 122); (170, 170); (178, 179);
   (181, 181); (185, 186); (188, 190); (192, 214); (216, 246); (248, 705);
   (710, 721); (736, 740); (748, 748); (750, 750); (880, 884); (886, 887);
   (890, 893); (895, 895); (902, 902); (904, 906); (908, 908); (910, 929);
   (931, 1013); (1015, 1153); (1162, 1327); (1329, 1366); (1369, 1369);
   (1376, 1416); (1488, 1514); (1519, 1522); (1568, 1610); (1632, 1641);
   (1646, 1647); (1649, 1747); (1749, 1749); (1765, 1766); (1774, 1788);
   (1791, 1791); (1808, 1808); (1810, 1839); (1869, 1957); (1969, 1969);
   (1984, 2026); (2036, 2037); (2042, 2042); (2048, 2069); (2074, 2074);
   (2084, 2084); (2088, 2088); (2112, 2136); (2144, 2154); (2160, 2183);
   (2185, 2190); (2208, 2249); (2308, 2361); (2365, 2365); (2384, 2384);
   (2392, 2401); (2406, 2415); (2417, 2432); (2437, 2444); (2447, 2448);
   (2451, 2472); (2474, 2480); (2482, 2482); (2486, 2489); (2493, 2493);
   (2510, 2510); (2524, 2525); (2527, 2529); (2534, 2545); (2548, 2553);
   (2556, 2556); (2565, 2570); (2575, 2576); (2579, 2600); (2602, 2608);
   (2610, 2611); (2613, 2614); (2616, 2617); (2649, 2652); (2654, 2654);
   (2662, 2671); (2674, 2676); (2693, 2701); (2703, 2705); (2707, 2728);
   (2730, 2736); (2738, 2739); (2741, 2745); (2749, 2749); (2768, 2768);
   (2784, 2785); (2790, 2799); (2809, 2809); (2821, 2828); (2831, 2832);
   (2835, 2856); (2858, 2864); (2866, 2867); (2869, 2873); (2877, 2877);
   (2908, 2909); (2911, 2913); (2918, 2927); (2929, 2935); (2947, 2947);
   (2949, 2954); (2958, 2960); (2962, 2965); (2969, 2970); (2972, 2972);
   (2974, 2975); (2979, 2980); (2984, 2986); (2990, 3001); (3024, 3024);
   (3046, 3058); (3077, 3084); (3086, 3088); (3090, 3112); (3114, 3129);
   (3133, 3133); (3160, 3162); (3165, 3165); (3168, 3169); (3174, 3183);
   (3192, 3198); (3200, 3200); (3205, 3212); (3214, 3216); (3218, 3240);
   (3242, 3251); (3253, 3257); (3261, 3261); (3293, 3294); (3296, 3297);
   (3302, 3311); (3313, 3314); (3332, 3340); (3342, 3344); (3346, 3386);
   (3389, 3389); (3406, 3406); (3412, 3414); (3416, 3425); (3430, 3448);
   (3450, 3455); (3461, 3478); (3482, 3505); (3507, 3515); (3517, 3517);
   (3520, 3526); (3558, 3567); (3585, 3632); (3634, 3635); (3648, 3654);
   (3664, 3673); (3713, 3714); (3716, 3716); (3718, 3722); (3724, 3747);
   (3749, 3749); (3751, 3760); (3762, 3763); (3773, 3773); (3776, 3780);
   (3782, 3782); (3792, 3801); (3804, 3807); (3840, 3840); (3872, 3891);
   (3904, 3911); (3913, 3948); (3976, 3980); (4096, 4138); (4159, 4169);
   (4176, 4181); (4186, 4189); (4193, 4193); (4197, 4198); (4206, 4208);
   (4213, 4225); (4238, 4238); (4240, 4249); (4256, 4293); (4295, 4295);
   (4301, 4301); (4304, 4346); (4348, 4680); (4682, 4685); (4688, 4694);
   (4696, 4696); (4698, 4701); (4704, 4744); (4746, 4749); (4752, 4784);
   (4786, 4789); (4792, 4798); (4800, 4800); (4802, 4805); (4808, 4822);
   (4824, 4880); (4882, 4885); (4888, 4954); (4969, 4988); (4992, 5007);
   (5024, 5109); (5112, 5117); (5121, 5740); (5743, 5759); (5761, 5786);
   (5792, 5866); (5870, 5880); (5888, 5905); (5919, 5937); (5952, 5969);
   (5984, 5996); (5998, 6000); (6016, 6067); (6103, 6103); (6108, 6108);
   (6112, 6121); (6128, 6137); (6160, 6169); (6176, 6264); (6272, 6276);
   (6279, 6312); (6314, 6314); (6320, 6389); (6400, 6430); (6470, 6509);
   (6512, 6516); (6528, 6571); (6576, 6601); (6608, 6618); (6656, 6678);
   (6688, 6740); (6784, 6793); (6800, 6809); (6823, 6823); (6917, 6963);
   (6981, 6988); (6992, 7001); (7043, 7072); (7086, 7141); (7168, 7203);
   (7232, 7241); (7245, 7293); (7296, 7304); (7312, 7354); (7357, 7359);
   (7401, 7404); (7406, 7411); (7413, 7414); (7418, 7418); (7424, 7615);
   (7680, 7957); (7960, 7965); (7968, 8005); (8008, 8013); (8016, 8023);
   (8025, 8025); (8027, 8027); (8029, 8029); (8031, 8061); (8064, 8116);
   (8118, 8124); (8126, 8126); (8130, 8132); (8134, 8140); (8144, 8147);
   (8150, 8155); (8160, 8172); (8178, 8180); (8182, 8188); (8304, 8305);
   (8308, 8313); (8319, 8329); (8336, 8348); (8450, 8450); (8455, 8455);
   (8458, 8467); (8469, 8469); (8473, 8477); (8484, 8484); (8486, 8486);
   (8488, 8488); (8490, 8493); (8495, 8505); (8508, 8511); (8517, 8521);
   (8526, 8526); (8528, 8585); (9312, 9371); (9450, 9471); (10102, 10131);
   (11264, 11492); (11499, 11502); (11506, 11507); (11517, 11517);
   (11520, 11557); (11559, 11559); (11565, 11565); (11568, 11623);
   (11631, 11631); (11648, 11670); (11680, 11686); (11688, 11694);
   (11696, 11702); (11704, 11710); (11712, 11718); (11720, 11726);
   (11728, 11734); (11736, 11742); (11823, 11823); (12293, 12295);
   (12321, 12329); (12337, 12341); (12344, 12348); (12353, 12438);
   (12445, 12447); (12449, 12538); (12540, 12543); (12549, 12591);
   (12593, 12686); (12690, 12693); (12704, 12735); (12784, 12799);
   (12832, 12841); (12872, 12879); (12881, 12895); (12928, 12937);
   (12977, 12991); (13312, 19903); (19968, 42124); (42192, 42237);
   (42240, 42508); (42512, 42539); (42560, 42606); (42623, 42653);
   (42656, 42735); (42775, 42783); (42786, 42888); (42891, 42954);
   (42960, 42961); (42963, 42963); (42965, 42969); (42994, 43009);
   (43011, 43013); (43015, 43018); (43020, 43042); (43056, 43061);
   (43072, 43123); (43138, 43187); (43216, 43225); (43250, 43255);
   (43259, 43259); (43261, 43262); (43264, 43301); (43312, 43334);
   (43360, 43388); (43396, 43442); (43471, 43481); (43488, 43492);
   (43494, 43518); (43520, 43560); (43584, 43586); (43588, 43595);
   (43600, 43609); (43616, 43638); (43642, 43642); (43646, 43695);
   (43697, 43697); (43701, 43702); (43705, 43709); (43712, 43712);
   (43714, 43714); (43739, 43741); (43744, 43754); (43762, 43764);
   (43777, 43782); (43785, 43790); (43793, 43798); (43808, 43814);
   (43816, 43822); (43824, 43866); (43868, 43881); (43888, 44002);
   (44016, 44025); (44032, 55203); (55216, 55238); (55243, 55291);
   (63744, 64109); (64112, 64217); (64256, 64262); (64275, 64279);
   (64285, 64285); (64287, 64296); (64298, 64310); (64312, 64316);
   (64318, 64318); (64320, 64321); (64323, 64324); (64326, 64433);
   (64467, 64829); (64848, 64911); (64914, 64967); (65008, 65019);
   (65136, 65140); (65142, 65276); (65296, 65305); (65313, 65338);
   (65345, 65370); (65382, 65470); (65474, 65479); (65482, 65487);
   (65490, 65495); (65498, 65500); (65536, 65547); (65549, 65574);
   (65576, 65594); (65596, 65597); (65599, 65613); (65616, 65629);
   (65664, 65786); (65799, 65843); (65856, 65912); (65930, 65931);
   (66176, 66204); (66208, 66256); (66273, 66299); (66304, 66339);
   (66349, 66378); (66384, 66421); (66432, 66461); (66464, 66499);
   (66504, 66511); (66513, 66517); (66560, 66717); (66720, 66729);
   (66736, 66771); (66776, 66811); (66816, 66855); (66864, 66915);
   (66928, 66938); (66940, 66954); (66956, 66962); (66964, 66965);
   (66967, 66977); (66979, 66993); (66995, 67001); (67003, 67004);
   (67072, 67382); (67392, 67413); (67424, 67431); (67456, 67461);
   (67463, 67504); (67506, 67514); (67584, 67589); (67592, 67592);
   (67594, 67637); (67639, 67640); (67644, 67644); (67647, 67669);
   (67672, 67702); (67705, 67742); (67751, 67759); (67808, 67826);
   (67828, 67829); (67835, 67867); (67872, 67897); (67968, 68023);
   (68028, 68047); (68050, 68096); (68112, 68115); (68117, 68119);
   (68121, 68149); (68160, 68168); (68192, 68222); (68224, 68255);
   (68288, 68295); (68297, 68324); (68331, 68335); (68352, 68405);
   (68416, 68437); (68440, 68466); (68472, 68497); (68521, 68527);
   (68608, 68680); (68736, 68786); (68800, 68850); (68858, 68899);
   (68912, 68921); (69216, 69246); (69248, 69289); (69296, 69297);
   (69376, 69415); (69424, 69445); (69457, 69460); (69488, 69505);
   (69552, 69579); (69600, 69622); (69635, 69687); (69714, 69743);
   (69745, 69746); (69749, 69749); (69763, 69807); (69840, 69864);
   (69872, 69881); (69891, 69926); (69942, 69951); (69956, 69956);
   (69959, 69959); (69968, 70002); (70006, 70006); (70019, 70066);
   (70081, 70084); (70096, 70106); (70108, 70108); (70113, 70132);
   (70144, 70161); (70163, 70187); (70272, 70278); (70280, 70280);
   (70282, 70285); (70287, 70301); (70303, 70312); (70320, 70366);
   (70384, 70393); (70405, 70412); (70415, 70416); (70419, 70440);
   (70442, 70448); (70450, 70451); (70453, 70457); (70461, 70461);
   (70480, 70480); (70493, 70497); (70656, 70708); (70727, 70730);
   (70736, 70745); (70751, 70753); (70784, 70831); (70852, 70853);
   (70855, 70855); (70864, 70873); (71040, 71086); (71128, 71131);
   (71168, 71215); (71236, 71236); (71248, 71257); (71296, 71338);
   (71352, 71352); (71360, 71369); (71424, 71450); (71472, 71483);
   (71488, 71494); (71680, 71723); (71840, 71922); (71935, 71942);
   (71945, 71945); (71948, 71955); (71957, 71958); (71960, 71983);
   (71999, 71999); (72001, 72001); (72016, 72025); (72096, 72103);
   (72106, 72144); (72161, 72161); (72163, 72163); (72192, 72192);
   (72203, 72242); (72250, 72250); (72272, 72272); (72284, 72329);
   (72349, 72349); (72368, 72440); (72704, 72712); (72714, 72750);
   (72768, 72768); (72784, 72812); (72818, 72847); (72960, 72966);
   (72968, 72969); (72971, 73008); (73030, 73030); (73040, 73049);
   (73056, 73061); (73063, 73064); (73066, 73097); (73112, 73112);
   (73120, 73129); (73440, 73458); (73648, 73648); (73664, 73684);
   (73728, 74649); (74752, 74862); (74880, 75075); (77712, 77808);
   (77824, 78894); (82944, 83526); (92160, 92728); (92736, 92766);
   (92768, 92777); (92784, 92862); (92864, 92873); (92880, 92909);
   (92928, 92975); (92992, 92995); (93008, 93017); (93019, 93025);
   (93027, 93047); (93053, 93071); (93760, 93846); (93952, 94026);
   (94032, 94032); (94099, 94111); (94176, 94177); (94179, 94179);
   (94208, 100343); (100352, 101589); (101632, 101640); (110576, 110579);
   (110581, 110587); (110589, 110590); (110592, 110882); (110928, 110930);
   (110948, 110951); (110960, 111355); (113664, 113770); (113776, 113788);
   (113792, 113800); (113808, 113817); (119520, 119539); (119648, 119672);
   (119808, 119892); (119894, 119964); (119966, 119967); (119970, 119970);
   (119973, 119974); (119977, 119980); (119982, 119993); (119995, 119995);
   (119997, 120003); (120005, 120069); (120071, 120074); (120077, 120084);
   (120086, 120092); (120094, 120121); (120123, 120126); (120128, 120132);
   (120134, 120134); (120138, 120144); (120146, 120485); (120488, 120512);
   (120514, 120538); (120540, 120570); (120572, 120596); (120598, 120628);
   (120630, 120654); (120656, 120686); (120688, 120712); (120714, 120744);
   (120746, 120770); (120772, 120779); (120782, 120831); (122624, 122654);
   (123136, 123180); (123191, 123197); (123200, 123209); (123214, 123214);
   (123536, 123565); (123584, 123627); (123632, 123641); (124896, 124902);
   (124904, 124907); (124909, 124910); (124912, 124926); (124928, 125124);
   (125127, 125135); (125184, 125251); (125259, 125259); (125264, 125273);
   (126065, 126123); (126125, 126127); (126129, 126132); (126209, 126253);
   (126255, 126269); (126464, 126467); (126469, 126495); (126497, 126498);
   (126500, 126500); (126503, 126503); (126505, 126514); (126516, 126519);
   (126521, 126521); (126523, 126523); (126530, 126530); (126535, 126535);
   (126537, 126537); (126539, 126539); (126541, 126543); (126545, 126546);
   (126548, 126548); (126551, 126551); (126553, 126553); (126555, 126555);
   (126557, 126557); (126559, 126559); (126561, 126562); (126564, 126564);
   (126567, 126570); (126572, 126578); (126580, 126583); (126585, 126588);
   (126590, 126590); (126592, 126601); (126603, 126619); (126625, 126627);
   (126629, 126633); (126635, 126651); (127232, 127244); (130032, 130041);
   (131072, 173791); (173824, 177976); (177984, 178205); (178208, 183969);
   (183984, 191456); (194560, 195101); (196608, 201546)]%N.

Definition is_word (c : N) : bool :=
  existsb (fun r => (fst r <=? c)%N && (c <=? snd r)%N) word_ranges.

(** The ASCII character [p], as a literal of a pattern compiled with
    [re.IGNORECASE], matches the code point [c]: [c] is [p], or [p] is a
    letter and [c] is [p] in the other case, or [c] is one of the three
    code points beyond ASCII whose case mapping leads to an ASCII letter:
    the long s (383) for [s], the dotted capital I (304) and the dotless
    small i (305) for [i], the Kelvin sign (8490) for [k]. *)
Definition ignorecase_eq (p : ascii) (c : N) : bool :=
  let n := N_of_ascii p in
  let n := if ((65 <=? n) && (n <=? 90))%N then (n + 32)%N else n in
  ((c =? n)
   || (((97 <=? n) && (n <=? 122)) && (c =? n - 32))
   || ((n =? 115) && (c =? 383))
   || ((n =? 105) && ((c =? 304) || (c =? 305)))
   || ((n =? 107) && (c =? 8490)))%N.

#[global] Arguments is_space : simpl never.
#[global] Arguments is_word : simpl never.
#[global] Arguments ignorecase_eq : simpl never.

End PyText.

(** ** [src/api/utils.py] *)

Module ApiUtils.
Import PyStr.

(** [text.replace('\x00', '')] *)
Definition remove_nul (text : PyText.Text) : PyText.Text :=
  filter (fun c => negb (c =? 0)%N) text.

(** [sanitize_input(text, max_length)]; [max_length] is any integer, 5000
    when the caller leaves it out. *)
Definition sanitize_input (text : PyText.Text) (max_length : Z)
  : PyText.Text :=
  if negb (PyText.truthy text) then []
  else
    let text := remove_nul text in
    let text :=
      if (max_length <? Z.of_nat (List.length text))%Z
      then PyText.slice_to max_length text else text in
    PyText.strip text.

(** The rest of [s] after its longest prefix of code points in [p]. *)
Fixpoint skip_while (p : N -> bool) (s : PyText.Text) : PyText.Text :=
  match s with
  | [] => []
  | c :: s' => if p c then skip_while p s' else s
  end.

(** A match of [on\w+\s*=] under [re.IGNORECASE] that starts at the first
    code point of [s]: the letters [o] and [n], one word character, then
    the longest run of word characters and the longest run of white space
    (the code point after such a run can be matched by neither, so no
    shorter run leads to a match), then [=]. *)
Definition on_handler_here (s : PyText.Text) : bool :=
  match s with
  | o :: n :: w :: rest =>
      PyText.ignorecase_eq "o" o && PyText.ignorecase_eq "n" n
      && PyText.is_word w
      && match skip_while PyText.is_space
                 (skip_while PyText.is_word rest) with
         | c :: _ => PyText.ignorecase_eq "=" c
         | [] => false
         end
  | _ => false
  end.

(** [re.search(r'on\w+\s*=', s, re.IGNORECASE)] finds a match. *)
Fixpoint search_on_handler (s : PyText.Text) : bool :=
  on_handler_here s
  || match s with
     | [] => false
     | _ :: s' => search_on_handler s'
     end.

(** A match of the literal [pattern] under [re.IGNORECASE] that starts at
    the first code point of [s]. *)
Fixpoint match_literal (pattern : string) (s : PyText.Text) : bool :=
  match pattern, s with
  | EmptyString, _ => true
  | String _ _, [] => false
  | String p pattern', c :: s' =>
      PyText.ignorecase_eq p c && match_literal pattern' s'
  end.

(** [re.search(pattern, s, re.IGNORECASE)] finds a match, for a pattern
    that is a literal ASCII text. *)
Fixpoint search_literal (pattern : string) (s : PyText.Text) : bool :=
  match_literal pattern s
  || match s with
     | [] => false
     | _ :: s' => search_literal pattern s'
     end.

(** The list [suspicious_patterns], each pattern as its search. *)
Definition suspicious_patterns : list (PyText.Text -> bool) :=
  [search_literal "<script"; search_literal "javascript:"; search_on_handler].

(** [validate_question(question)] *)
Definition validate_question (question : PyText.Text) : bool * string :=
  if negb (PyText.truthy question)
     || negb (PyText.truthy (PyText.strip question))
  then (false, "Question cannot be empty")
  else
    let question := PyText.strip question in
    if Nat.ltb 5000 (List.length question)
    then (false, "Question is too long (max 5000 characters)")
    else if Nat.ltb (List.length question) 3
    then (false, "Question is too short (min 3 characters)")
    else if existsb (fun pattern => pattern question) suspicious_patterns
    then (false, "Question contains invalid content")
    else (true, "").

Definition default_allowed_extensions : list string :=
  ["pdf"; "txt"; "doc"; "docx"; "md"; "html"; "csv"].

(** [allowed_file(filename, allowed_extensions)]; the set of extensions is
    a list read by membership only. *)
Definition allowed_file (filename : string)
    (allowed_extensions : option (list string)) : bool :=
  let allowed :=
    match allowed_extensions with
    | None => default_allowed_extensions
    | Some exts => exts
    end in
  if negb (truthy filename) || negb (contains "." filename) then false
  else
    let ext := lower (split_last "." filename) in
    Bedrock.in_list ext allowed.

End ApiUtils.

(** ** Vocabulary for the input checks *)

Module ApiVocabulary.
Import PyText ApiUtils.

(** [c] is not the NUL character. *)
Definition not_nul (c : N) : bool := negb (c =? 0)%N.

(** [s] has no white space at either end. *)
Definition trimmed (s : Text) : Prop := strip s = s.

(** The text [u] is the literal [pattern] up to the letter case of
    [re.IGNORECASE], code point by code point. *)
Definition matches_ignorecase (pattern : string) (u : Text) : Prop :=
  Forall2 (fun p c => ignorecase_eq p c = true)
          (list_ascii_of_string pattern) u.

(** [pattern] occurs in [s] up to that letter case. *)
Definition occurs_ignorecase (pattern : string) (s : Text) : Prop :=
  exists a u b, s = (a ++ u ++ b)%list /\ matches_ignorecase pattern u.

(** [s] holds an event-handler-like run: the letters [o] and [n] up to
    letter case, at least one word character, any white space, and [=]. *)
Definition has_on_handler (s : Text) : Prop :=
  exists a o n w sp b,
    s = (a ++ o :: n :: w ++ sp ++ 61%N :: b)%list
    /\ ignorecase_eq "o" o = true /\ ignorecase_eq "n" n = true
    /\ w <> [] /\ forallb is_word w = true
    /\ forallb is_space sp = true.

End ApiVocabulary.

(** ** [src/kb/bedrock.py]: the other operations *)

Module KnowledgeBaseOps.
Import PyStr Bedrock QueryVocabulary.

(** The two-line credential message of [upload_to_s3] and
    [start_ingestion_job]. *)
Definition short_hint (error_code error_message : string) : string :=
  "AWS Authentication Error (" ++ error_code ++ "): " ++ error_message ++ LF
  ++ "Please configure AWS credentials. See error details in logs.".

(** [upload_to_s3(file_path, s3_key)], by the outcome of
    [self.s3.upload_file]. Only a [ClientError] is handled. *)
Definition upload_to_s3 (uploaded : result unit) : result bool :=
  match uploaded with
  | Return _ => Return true
  | Raise (ClientError ce) =>
      let error_code := error_code_of ce in
      let error_message := error_message_of ce in
      if in_list error_code auth_codes
      then Raise (PyException (short_hint error_code error_message))
      else Raise (PyException ("Failed to upload to S3: " ++ error_message))
  | Raise e => Raise e
  end.

(** The ['ingestionJob'] dict of a response, represented by the one key
    the callers read. *)
Record IngestionJob : Type := mkIngestionJob {
  ingestionJobId : option string
}.

(** [start_ingestion_job(data_source_id)], by the outcome of the client
    call; the response may lack the ['ingestionJob'] key, and the empty
    dict is returned then. *)
Definition start_ingestion_job (started : result (option IngestionJob))
  : result IngestionJob :=
  match started with
  | Return response =>
      Return (match response with
              | Some job => job
              | None => {| ingestionJobId := None |}
              end)
  | Raise (ClientError ce) =>
      let error_code := error_code_of ce in
      let error_message := error_message_of ce in
      if in_list error_code auth_codes
      then Raise (PyException (short_hint error_code error_message))
      else Raise (PyException
                    ("Failed to start ingestion job: " ++ error_message))
  | Raise e => Raise e
  end.

(** One entry of a page's ['Contents'], both keys optional. *)
Record S3Object : Type := mkS3Object {
  obj_key : option string;
  obj_size : option Z
}.

(** What iterating the paginator of [list_objects_v2] gives: the pages
    received, each with its ['Contents'] if it has any, and the exception
    that ended the iteration, if one did. *)
Record Listing : Type := mkListing {
  pages : list (option (list S3Object));
  failure : option exn
}.

Record Document : Type := mkDocument {
  doc_name : string;
  doc_size : Z
}.

(** [s[n:]] *)
Fixpoint drop (n : nat) (s : string) : string :=
  match n, s with
  | O, _ => s
  | S _, EmptyString => EmptyString
  | S n', String _ s' => drop n' s'
  end.

(** [s.replace(old, new, 1)] *)
Fixpoint replace_first (old new s : string) : string :=
  if startswith old s then new ++ drop (String.length old) s
  else match s with
       | EmptyString => EmptyString
       | String c s' => String c (replace_first old new s')
       end.

(** The name under which [list_documents] reports an object. *)
Definition document_of (obj : S3Object) : Document :=
  let s3_key := PromptEngine.get_default (obj_key obj) "" in
  let name :=
    if startswith "documents/" s3_key
    then replace_first "documents/" "" s3_key
    else split_last "/" s3_key in
  {| doc_name := name;
     doc_size := match obj_size obj with Some n => n | None => 0%Z end |}.

(** [page.get('Contents', [])] *)
Definition contents (page : option (list S3Object)) : list S3Object :=
  match page with Some objs => objs | None => [] end.

(** The two nested loops of [list_documents] over the pages received. *)
Definition collect_documents (pgs : list (option (list S3Object)))
  : list Document :=
  fold_left
    (fun documents page =>
       fold_left (fun documents' obj => append documents' (document_of obj))
                 (contents page) documents)
    pgs [].

(** [list_documents()] *)
Definition list_documents (listing : Listing) : result (list Document) :=
  match failure listing with
  | None => Return (collect_documents (pages listing))
  | Some (ClientError ce) =>
      Raise (PyException
               ("Failed to list documents: " ++ error_message_of ce))
  | Some e => Raise (PyException ("Failed to list documents: " ++ exn_str e))
  end.

(** [health_check()], by the outcome of [get_knowledge_base]. *)
Definition health_check (described : result unit) : bool :=
  match described with
  | Return _ => true
  | Raise _ => false
  end.

(** The ['knowledgeBase'] dict of a response, every key optional; the
    creation time is represented by its [isoformat()] text. *)
Record KnowledgeBaseDetails : Type := mkDetails {
  kd_status : option string;
  kd_name : option string;
  kd_description : option string;
  kd_storage_type : option string;
  kd_created_at : option string
}.

Record Status : Type := mkStatus {
  st_knowledge_base_id : option string;
  st_status : string;
  st_name : string;
  st_description : string;
  st_data_sources : nat;
  st_s3_documents : nat;
  st_storage_type : string;
  st_created_at : option string
}.

(** The loop [s3_count += len(page.get('Contents', []))]. *)
Definition count_objects (pgs : list (option (list S3Object))) : nat :=
  fold_left (fun s3_count page => s3_count + List.length (contents page))
            pgs 0.

(** [get_status()], by the outcomes of [get_knowledge_base], of
    [list_data_sources] (the ['dataSourceSummaries'] of its response, when
    present) and of the S3 listing. An exception of the two latter is
    passed over; the objects counted before it stay counted. *)
Definition get_status (self : Config)
    (kb_response : result (option KnowledgeBaseDetails))
    (ds_response : result (option (list string)))
    (listing : Listing) : result Status :=
  match kb_response with
  | Return response =>
      let kb_details :=
        match response with
        | Some details => details
        | None => {| kd_status := None; kd_name := None;
                     kd_description := None; kd_storage_type := None;
                     kd_created_at := None |}
        end in
      let data_sources :=
        match ds_response with
        | Return (Some summaries) => summaries
        | Return None => []
        | Raise _ => []
        end in
      let s3_count := count_objects (pages listing) in
      Return
        {| st_knowledge_base_id := kb_id self;
           st_status := PromptEngine.get_default (kd_status kb_details) "UNKNOWN";
           st_name := PromptEngine.get_default (kd_name kb_details) "";
           st_description :=
             PromptEngine.get_default (kd_description kb_details) "";
           st_data_sources := List.length data_sources;
           st_s3_documents := s3_count;
           st_storage_type :=
             PromptEngine.get_default (kd_storage_type kb_details) "";
           st_created_at := kd_created_at kb_details |}
  | Raise (ClientError ce) =>
      let error_code := error_code_of ce in
      let error_message := error_message_of ce in
      if in_list error_code auth_codes
      then Raise (PyException (helpful_msg error_code error_message))
      else Raise (PyException ("Failed to get KB status: " ++ error_message))
  | Raise e => Raise e
  end.

End KnowledgeBaseOps.

(** ** [src/prompt/engine.py]: the prompt builder *)

Module PromptBuilder.
Import PyStr PromptEngine.

(** A template of [_load_prompt_templates]: literal text and the two named
    fields [{context}] and [{question}]. *)
Inductive piece : Type :=
| Lit (text : string)
| FieldContext
| FieldQuestion.

(** [template.format(context=context_text, question=question)] *)
Fixpoint format (template : list piece) (context_text question : string)
  : string :=
  match template with
  | [] => ""
  | Lit text :: rest => text ++ format rest context_text question
  | FieldContext :: rest => context_text ++ format rest context_text question
  | FieldQuestion :: rest => question ++ format rest context_text question
  end.

Definition general_template : list piece :=
  [Lit ("Context:" ++ LF); FieldContext;
   Lit (LF ++ LF ++ "Question: "); FieldQuestion;
   Lit (LF ++ LF
        ++ "Please provide a comprehensive answer based on the context above.")].

Definition technical_template : list piece :=
  [Lit ("Technical Context:" ++ LF); FieldContext;
   Lit (LF ++ LF ++ "Technical Question: "); FieldQuestion;
   Lit (LF ++ LF
        ++ "Provide a detailed technical explanation based on the context, including any relevant specifications, procedures, or technical details.")].

Definition summary_template : list piece :=
  [Lit ("Context:" ++ LF); FieldContext;
   Lit (LF ++ LF ++ "Question: "); FieldQuestion;
   Lit (LF ++ LF ++ "Provide a concise summary based on the context above.")].

Definition comparison_template : list piece :=
  [Lit ("Context:" ++ LF); FieldContext;
   Lit (LF ++ LF ++ "Question: "); FieldQuestion;
   Lit (LF ++ LF
        ++ "Compare and contrast the relevant information from the context to answer the question.")].

(** The dict [self.prompt_templates]. *)
Definition prompt_templates : list (string * list piece) :=
  [("general", general_template); ("technical", technical_template);
   ("summary", summary_template); ("comparison", comparison_template)].

(** [d.get(key, default)] on a dict with string keys *)
Fixpoint dict_get {V : Type} (d : list (string * V)) (key : string)
    (default : V) : V :=
  match d with
  | [] => default
  | (k, v) :: rest => if String.eqb k key then v else dict_get rest key default
  end.

(** One item of the retrieved context: [item.get('content', '')] and the
    [uri] under [item['location']['s3Location']], when the location is
    present and has one. *)
Record ContextItem : Type := mkContextItem {
  ci_content : option string;
  ci_uri : option string
}.

(** One turn of the loop of [_format_context], for the item numbered
    [i]. *)
Definition context_item (i : nat) (item : ContextItem) : string :=
  let context_item := "[Source " ++ str_of_nat i ++ "]" in
  let context_item :=
    if otruthy (ci_uri item)
    then context_item ++ " (from " ++ get_default (ci_uri item) "" ++ ")"
    else context_item in
  context_item ++ LF ++ get_default (ci_content item) "" ++ LF.

(** The loop [for i, item in enumerate(context, 1)], from the number [i]
    on. *)
Fixpoint format_context_from (i : nat) (context : list ContextItem)
    (formatted : list string) : list string :=
  match context with
  | [] => formatted
  | item :: rest =>
      format_context_from (S i) rest (append formatted (context_item i item))
  end.

(** [_format_context(context)] *)
Definition format_context (context : list ContextItem) : string :=
  match context with
  | [] => "No context available."
  | _ :: _ =>
      join (LF ++ "---" ++ LF) (format_context_from 1 context [])
  end.

(** One few-shot example, every key optional. *)
Record FewShot : Type := mkFewShot {
  fs_question : option string;
  fs_context : option string;
  fs_answer : option string
}.

(** The loop of [_format_examples], from the number [i] on. *)
Fixpoint format_examples_from (i : nat) (examples : list FewShot)
    (formatted : list string) : list string :=
  match examples with
  | [] => formatted
  | example :: rest =>
      let formatted :=
        append formatted ("Example " ++ str_of_nat i ++ ":") in
      let formatted :=
        append formatted ("Q: " ++ get_default (fs_question example) "") in
      let formatted :=
        append formatted ("Context: " ++ get_default (fs_context example) "") in
      let formatted :=
        append formatted ("A: " ++ get_default (fs_answer example) "") in
      let formatted := append formatted "" in
      format_examples_from (S i) rest formatted
  end.

(** [_format_examples(examples)] *)
Definition format_examples (examples : list FewShot) : string :=
  join LF (format_examples_from 1 examples []).

(** The state of a [PromptEngine] that [build_prompt] reads. *)
Record Engine : Type := mkEngine {
  system_prompt : string;
  few_shot_examples : list FewShot
}.

(** [build_prompt(question, context, query_type, include_system_prompt,
    include_examples)] *)
Definition build_prompt (self : Engine) (question : string)
    (context : list ContextItem) (query_type : string)
    (include_system_prompt include_examples : bool) : string :=
  let context_text := format_context context in
  let template := dict_get prompt_templates query_type general_template in
  let prompt_parts : list string := [] in
  let prompt_parts :=
    if include_system_prompt
    then append prompt_parts
           ("System Instructions:" ++ LF ++ system_prompt self ++ LF)
    else prompt_parts in
  let prompt_parts :=
    if include_examples
       && negb (Nat.eqb (List.length (few_shot_examples self)) 0)
    then
      let examples_text :=
        format_examples (firstn 2 (few_shot_examples self)) in
      append prompt_parts ("Examples:" ++ LF ++ examples_text ++ LF)
    else prompt_parts in
  let main_prompt := format template context_text question in
  let prompt_parts := append prompt_parts main_prompt in
  join (LF ++ LF) prompt_parts.

End PromptBuilder.

(** ** [src/api/chatbot.py]: the history handed to [query] *)

Module Chatbot.
Import PyStr PromptEngine.

(** A row of the search history, with the two columns the route reads. *)
Record HistoryRow : Type := mkHistoryRow {
  row_question : string;
  row_answer : string
}.

(** Lines 78-81 of [ask_question]: the exchanges built from the last five
    rows of the session history. *)
Definition conversation_history (history : list HistoryRow)
  : list Exchange :=
  map (fun h => {| ex_question := Some (row_question h);
                   ex_answer := Some (row_answer h) |})
      (last_n 5 history).

End Chatbot.

(** ** [src/config/manager.py]: validation of the configuration *)

Module ConfigManager.
Import PyStr.

(** A Python float, as far as comparisons see it: a finite value (a
    rational stands for it), an infinity, or not-a-number. *)
Inductive PyFloat : Type :=
| Finite (q : Q)
| PosInf
| NegInf
| NaN.

(** [x < n] for a float [x] and an integer [n] *)
Definition float_lt (x : PyFloat) (n : Z) : bool :=
  match x with
  | Finite q => negb (Qle_bool (inject_Z n) q)
  | NegInf => true
  | PosInf | NaN => false
  end.

(** [x > n] for a float [x] and an integer [n] *)
Definition float_gt (x : PyFloat) (n : Z) : bool :=
  match x with
  | Finite q => negb (Qle_bool q (inject_Z n))
  | PosInf => true
  | NegInf | NaN => false
  end.

(** The values of [self.config] that [validate] reads; a key may be
    missing. *)
Record Settings : Type := mkSettings {
  KNOWLEDGE_BASE_ID : option string;
  S3_BUCKET_NAME : option string;
  AWS_REGION : option string;
  MAX_TOKENS : option Z;
  TEMPERATURE : option PyFloat
}.

(** [str(n)] for an integer *)
Definition str_of_Z (n : Z) : string :=
  if (n <? 0)%Z then "-" ++ str_of_nat (Z.to_nat (- n))
  else str_of_nat (Z.to_nat n).

(** The pattern [^[a-z0-9-]+$] under [re.match]: one or more characters
    of the class, then the end of the text or one final line feed. *)
Definition region_char (c : ascii) : bool :=
  let n := nat_of_ascii c in
  (((97 <=? n) && (n <=? 122)) || ((48 <=? n) && (n <=? 57))
   || (n =? 45))%nat.

Fixpoint region_rest (s : string) : bool :=
  match s with
  | EmptyString => true
  | String c EmptyString => region_char c || (nat_of_ascii c =? 10)%nat
  | String c s' => region_char c && region_rest s'
  end.

Definition region_matches (s : string) : bool :=
  match s with
  | EmptyString => false
  | String c s' => region_char c && region_rest s'
  end.

(** The list comprehension [missing]. *)
Definition missing_keys (c : Settings) : list string :=
  ((if otruthy (KNOWLEDGE_BASE_ID c) then [] else ["KNOWLEDGE_BASE_ID"])
   ++ (if otruthy (S3_BUCKET_NAME c) then [] else ["S3_BUCKET_NAME"]))%list.

(** [ConfigManager.validate()]; the text that an f-string gives for a
    float is taken from [float_str]. *)
Definition validate (float_str : PyFloat -> string) (c : Settings)
  : Bedrock.result bool :=
  let missing := missing_keys c in
  match missing with
  | _ :: _ =>
      Bedrock.Raise
        (Bedrock.ValueError
           ("Missing required configuration: " ++ join ", " missing))
  | [] =>
      let rgn := PromptEngine.get_default (AWS_REGION c) "" in
      if truthy rgn && negb (region_matches rgn)
      then Bedrock.Raise
             (Bedrock.ValueError ("Invalid AWS region format: " ++ rgn))
      else
        let max_tokens :=
          match MAX_TOKENS c with Some n => n | None => 1000%Z end in
        if (max_tokens <? 1)%Z || (100000 <? max_tokens)%Z
        then Bedrock.Raise
               (Bedrock.ValueError
                  ("MAX_TOKENS must be between 1 and 100000, got: "
                     ++ str_of_Z max_tokens))
        else
          let temperature :=
            match TEMPERATURE c with
            | Some t => t
            | None => Finite (7 # 10)%Q
            end in
          if float_lt temperature 0 || float_gt temperature 2
          then Bedrock.Raise
                 (Bedrock.ValueError
                    ("TEMPERATURE must be between 0 and 2, got: "
                       ++ float_str temperature))
          else Bedrock.Return true
  end.

(** The temperatures that pass: the finite ones from 0 to 2, and
    not-a-number, which no comparison refuses. *)
Definition temperature_passes (t : PyFloat) : Prop :=
  match t with
  | Finite q => (0 <= q)%Q /\ (q <= 2)%Q
  | NaN => True
  | PosInf | NegInf => False
  end.

End ConfigManager.

(** * Properties *)

(** ** Facts about the string primitives *)

Module PyStrFacts.
Import PyStr.

Lemma str_app_assoc (a b c : string) : (a ++ b) ++ c = a ++ (b ++ c).
Proof.
  induction a as [|x a IH]; simpl; [reflexivity | now rewrite IH].
Qed.

Lemma startswith_app (p t : string) : startswith p (p ++ t) = true.
Proof.
  induction p as [|x p IH]; simpl; [reflexivity|].
  now rewrite Ascii.eqb_refl, IH.
Qed.

Lemma startswith_inv (p s : string) :
  startswith p s = true -> exists t, s = p ++ t.
Proof.
  revert s; induction p as [|x p IH]; intros s H.
  - now exists s.
  - destruct s as [|y s]; simpl in H; [discriminate|].
    apply andb_true_iff in H as [Hxy Hp].
    apply Ascii.eqb_eq in Hxy; subst y.
    destruct (IH _ Hp) as [t ->]. now exists t.
Qed.

Lemma contains_cons (n : string) (c : ascii) (s : string) :
  contains n s = true -> contains n (String c s) = true.
Proof.
  intros H. simpl. rewrite H. apply orb_true_r.
Qed.

Lemma contains_app (a n b : string) : contains n (a ++ n ++ b) = true.
Proof.
  induction a as [|x a IH].
  - simpl. destruct (n ++ b) eqn:E.
    + simpl. rewrite <- E at 1. now rewrite startswith_app.
    + change (startswith n (String a s) || contains n s = true).
      rewrite <- E at 1. now rewrite startswith_app.
  - apply contains_cons, IH.
Qed.

Lemma contains_inv (n s : string) :
  contains n s = true -> exists a b, s = a ++ n ++ b.
Proof.
  induction s as [|c s IH]; simpl; intros H.
  - rewrite orb_false_r in H.
    destruct (startswith_inv _ _ H) as [t Ht]. now exists "", t.
  - apply orb_true_iff in H as [H|H].
    + destruct (startswith_inv _ _ H) as [t Ht]. now exists "", t.
    + destruct (IH H) as (a & b & ->). now exists (String c a), b.
Qed.

(** [needle in s] holds exactly when [needle] occurs in [s] as a run of
    consecutive characters, whatever surrounds it. *)
Lemma contains_iff (n s : string) :
  contains n s = true <-> exists a b, s = a ++ n ++ b.
Proof.
  split; [apply contains_inv | intros (a & b & ->); apply contains_app].
Qed.

Lemma lower_app (a b : string) : lower (a ++ b) = lower a ++ lower b.
Proof.
  induction a as [|x a IH]; simpl; [reflexivity | now rewrite IH].
Qed.

Lemma lower_split (q x y : string) :
  lower q = x ++ y ->
  exists a b, q = a ++ b /\ lower a = x /\ lower b = y.
Proof.
  revert q; induction x as [|c x IH]; intros q H.
  - now exists "", q.
  - destruct q as [|d q]; simpl in H; [discriminate|].
    injection H as Hc Hq.
    destruct (IH _ Hq) as (a & b & -> & Ha & Hb).
    exists (String d a), b. simpl. now rewrite Hc, Ha.
Qed.

Lemma any_in_iff (words : list string) (s : string) :
  any_in words s = true <->
  exists w, In w words /\ exists a b, s = a ++ w ++ b.
Proof.
  unfold any_in. rewrite existsb_exists.
  split; intros (w & Hin & H); exists w; split; trivial;
    now apply contains_iff.
Qed.

Lemma truthy_iff (s : string) : truthy s = true <-> s <> "".
Proof.
  destruct s; simpl; split; intros H; congruence.
Qed.

Lemma rstrip_cons_nonspace (c : ascii) (s : string) :
  is_space c = false -> exists r, rstrip (String c s) = String c r.
Proof.
  intros Hc. simpl. destruct (rstrip s).
  - rewrite Hc. now exists "".
  - now eexists.
Qed.

Lemma strip_cons_nonspace (c : ascii) (s : string) :
  is_space c = false -> exists r, strip (String c s) = String c r.
Proof.
  intros Hc. unfold strip. simpl lstrip. rewrite Hc.
  now apply rstrip_cons_nonspace.
Qed.

Lemma length_take (n : nat) (s : string) : String.length (take n s) <= n.
Proof.
  revert s; induction n as [|n IH]; intros [|c s]; simpl; try lia.
  specialize (IH s). lia.
Qed.

Lemma take_prefix (n : nat) (s : string) : exists t, s = take n s ++ t.
Proof.
  revert s; induction n as [|n IH]; intros s.
  - now exists s.
  - destruct s as [|c s]; [now exists ""|].
    destruct (IH s) as [t Ht]. exists t. simpl. now rewrite <- Ht.
Qed.

Lemma contains_char_cons (sep c : ascii) (s : string) :
  contains (String sep "") (String c s) = false ->
  Ascii.eqb c sep = false /\ contains (String sep "") s = false.
Proof.
  cbn [contains startswith]. intros H.
  apply orb_false_iff in H as [H1 H2]. split; [|exact H2].
  rewrite Ascii.eqb_sym. destruct (Ascii.eqb sep c); [|reflexivity].
  now destruct s.
Qed.

(** [s.split(sep)[0]] is the text before the first [sep]. *)
Lemma split_head_app (sep : ascii) (b suffix : string) :
  contains (String sep "") b = false ->
  split_head sep (b ++ String sep suffix) = b.
Proof.
  induction b as [|c b IH]; intros H.
  - simpl. now rewrite Ascii.eqb_refl.
  - apply contains_char_cons in H as [Hc Hb].
    simpl. rewrite Hc. now rewrite IH.
Qed.

Lemma str_length_app (a b : string) :
  String.length (a ++ b) = String.length a + String.length b.
Proof.
  induction a as [|x a IH]; simpl; [reflexivity | now rewrite IH].
Qed.

Lemma rstrip_snoc (s : string) (c : ascii) :
  is_space c = false -> rstrip (s ++ String c "") = s ++ String c "".
Proof.
  intros Hc. induction s as [|x s IH]; simpl.
  - now rewrite Hc.
  - rewrite IH. now destruct s.
Qed.

(** [strip] leaves a text alone that neither starts nor ends with white
    space. *)
Lemma strip_id (c d : ascii) (s t : string) :
  is_space c = false -> is_space d = false ->
  String c s = t ++ String d "" -> strip (String c s) = String c s.
Proof.
  intros Hc Hd H. unfold strip. simpl lstrip. rewrite Hc.
  rewrite H. now apply rstrip_snoc.
Qed.

Lemma firstn_succ_nth {A : Type} (k : nat) (l : list A) (d : A) :
  k < List.length l ->
  firstn (S k) l = (firstn k l ++ [nth k l d])%list.
Proof.
  revert l; induction k as [|k IH]; intros [|x l] H; simpl in H; try lia.
  - reflexivity.
  - cbn [firstn nth app]. rewrite <- IH by lia. reflexivity.
Qed.

Lemma in_firstn {A : Type} (n : nat) (l : list A) (x : A) :
  In x (firstn n l) -> In x l.
Proof.
  intros H. rewrite <- (firstn_skipn n l). apply in_or_app. now left.
Qed.

Lemma length_last_n {A : Type} (n : nat) (l : list A) :
  List.length (last_n n l) <= n.
Proof.
  unfold last_n. rewrite length_skipn. lia.
Qed.

Lemma last_n_suffix {A : Type} (n : nat) (l : list A) :
  l = (firstn (List.length l - n) l ++ last_n n l)%list.
Proof.
  unfold last_n. now rewrite firstn_skipn.
Qed.

End PyStrFacts.

(** ** The query classifier and the query enhancer *)

Module PromptEngineSpec.
Import PyStr PromptEngine PyStrFacts Spec.

Lemma any_in_lower_iff (words : list string) (q : string) :
  any_in words (lower q) = true <-> matches words q.
Proof.
  rewrite any_in_iff. unfold matches, occurs_nocase.
  split; intros (w & Hin & H); exists w; split; trivial.
  - destruct H as (a' & b' & H).
    destruct (lower_split _ _ _ H) as (a & r & -> & _ & Hr).
    destruct (lower_split _ _ _ Hr) as (u & b & -> & Hu & _).
    now exists a, u, b.
  - destruct H as (a & u & b & -> & Hu).
    exists (lower a), (lower b). now rewrite !lower_app, Hu.
Qed.

Lemma any_in_lower_false (words : list string) (q : string) :
  any_in words (lower q) = false <-> ~ matches words q.
Proof.
  rewrite <- any_in_lower_iff. destruct (any_in words (lower q)); split;
    congruence.
Qed.

Local Ltac classify_case :=
  repeat match goal with
         | |- _ /\ _ => split
         | |- _ <-> _ => split
         end;
  intros; simpl; try discriminate; try tauto; auto 6.

Lemma detect_query_type_cases (q : string) :
  In (detect_query_type q) ["general"; "technical"; "summary"; "comparison"]
  /\ (detect_query_type q = "technical" <-> matches technical_keywords q)
  /\ (detect_query_type q = "summary" <->
      ~ matches technical_keywords q /\ matches summary_keywords q)
  /\ (detect_query_type q = "comparison" <->
      ~ matches technical_keywords q /\ ~ matches summary_keywords q
      /\ matches comparison_keywords q)
  /\ (detect_query_type q = "general" <->
      ~ matches technical_keywords q /\ ~ matches summary_keywords q
      /\ ~ matches comparison_keywords q).
Proof.
  unfold detect_query_type.
  destruct (any_in technical_keywords (lower q)) eqn:T;
    [ apply any_in_lower_iff in T | apply any_in_lower_false in T ].
  { classify_case. }
  destruct (any_in summary_keywords (lower q)) eqn:S;
    [ apply any_in_lower_iff in S | apply any_in_lower_false in S ].
  { classify_case. }
  destruct (any_in comparison_keywords (lower q)) eqn:C;
    [ apply any_in_lower_iff in C | apply any_in_lower_false in C ].
  { classify_case. }
  classify_case.
Qed.

(** C6. [detect_query_type] is a function of the question alone whose
    value is always one of the four type names, decided by occurrence of a
    keyword up to letter case with the precedence technical, summary,
    comparison and the default general; a question that matches a technical
    keyword is technical whatever else it matches. *)
Theorem detect_query_type_classifier (q : string) :
  In (detect_query_type q) ["general"; "technical"; "summary"; "comparison"]
  /\ (detect_query_type q = "technical" <-> matches technical_keywords q)
  /\ (detect_query_type q = "summary" <->
      ~ matches technical_keywords q /\ matches summary_keywords q)
  /\ (detect_query_type q = "comparison" <->
      ~ matches technical_keywords q /\ ~ matches summary_keywords q
      /\ matches comparison_keywords q)
  /\ (detect_query_type q = "general" <->
      ~ matches technical_keywords q /\ ~ matches summary_keywords q
      /\ ~ matches comparison_keywords q)
  /\ (matches technical_keywords q ->
      matches summary_keywords q \/ matches comparison_keywords q ->
      detect_query_type q = "technical")
  /\ (forall q' : string, lower q' = lower q ->
      detect_query_type q' = detect_query_type q).
Proof.
  destruct (detect_query_type_cases q) as (H4 & Ht & Hs & Hc & Hg).
  repeat (split; [assumption|]). split.
  - intros Hm _. now apply Ht.
  - intros q' H. unfold detect_query_type. now rewrite H.
Qed.

(** The precedence law of C6 at the question [How do I summarize this?]:
    it matches a technical and a summary keyword and is technical. *)
Lemma detect_query_type_classifier_witness :
  matches technical_keywords "How do I summarize this?"
  /\ matches summary_keywords "How do I summarize this?"
  /\ detect_query_type "How do I summarize this?" = "technical".
Proof.
  assert (Ht : matches technical_keywords "How do I summarize this?").
  { exists "how". split; [simpl; auto|]. now exists "", "How", " do I summarize this?". }
  assert (Hs : matches summary_keywords "How do I summarize this?").
  { exists "summarize". split; [simpl; auto|].
    now exists "How do I ", "summarize", " this?". }
  split; [exact Ht|]. split; [exact Hs|].
  destruct (detect_query_type_classifier "How do I summarize this?")
    as (_ & _ & _ & _ & _ & Hprec & _).
  apply Hprec; [exact Ht | left; exact Hs].
Defined.

(** C10. Keywords are matched as raw runs of characters, not as words:
    a question whose lower-cased text has [how] anywhere, also inside a
    longer word, is technical; one that has [vs] anywhere is a comparison
    unless a technical or a summary keyword occurs as well. *)
Theorem detect_query_type_raw_substring (q a b : string) :
  (lower q = a ++ "how" ++ b -> detect_query_type q = "technical")
  /\ (lower q = a ++ "vs" ++ b ->
      any_in technical_keywords (lower q) = false ->
      any_in summary_keywords (lower q) = false ->
      detect_query_type q = "comparison").
Proof.
  unfold detect_query_type. split.
  - intros H.
    assert (T : any_in technical_keywords (lower q) = true).
    { apply any_in_iff. exists "how". split; [simpl; auto|]. now exists a, b. }
    now rewrite T.
  - intros H T S. rewrite T, S.
    assert (C : any_in comparison_keywords (lower q) = true).
    { apply any_in_iff. exists "vs". split; [simpl; auto 6|]. now exists a, b. }
    now rewrite C.
Qed.

(** C10 at [Show me the results] ([how] inside [show]) and at
    [The devs are late] ([vs] inside [devs]). *)
Lemma detect_query_type_raw_substring_witness :
  detect_query_type "Show me the results" = "technical"
  /\ detect_query_type "The devs are late" = "comparison".
Proof.
  split.
  - apply (detect_query_type_raw_substring
             "Show me the results" "s" " me the results"). reflexivity.
  - apply (detect_query_type_raw_substring
             "The devs are late" "the de" " are late"); reflexivity.
Defined.

Lemma fold_enhance_step (items : list Exchange) (acc : list string) :
  fold_left enhance_step items acc = (acc ++ flat_map rendered items)%list.
Proof.
  revert acc; induction items as [|item items IH]; intros acc; simpl.
  - now rewrite List.app_nil_r.
  - rewrite IH. unfold enhance_step, append.
    now rewrite <- !List.app_assoc.
Qed.

Lemma last_n_nonempty {A : Type} (n : nat) (l : list A) :
  l <> [] -> 0 < n -> 0 < List.length (last_n n l).
Proof.
  intros Hl Hn. unfold last_n. rewrite length_skipn.
  destruct l; [congruence | cbn [List.length]; lia].
Qed.

(** C7. For a non-empty history the enhanced question is the fixed header,
    the two rendered lines of each of the last exchanges (three at most,
    the most recent ones, in order) and the marker [Current question: ]
    followed by the question, with which it ends; a rendered answer is the
    first 200 characters of the answer followed by three dots. *)
Theorem enhance_query_shape (q : string) (h : list Exchange) :
  h <> [] ->
  let recent := last_n 3 h in
  enhance_query q h =
    "Context from previous conversation:" ++ LF
      ++ join LF (flat_map rendered recent)
      ++ LF ++ LF ++ "Current question: " ++ q
  /\ ends_with (enhance_query q h) ("Current question: " ++ q)
  /\ 1 <= List.length recent <= 3
  /\ (exists older, h = (older ++ recent)%list)
  /\ (forall item, In item recent ->
        rendered item =
          ["Previous question: " ++ get_default (ex_question item) "";
           "Previous answer: "
             ++ take 200 (get_default (ex_answer item) "") ++ "..."]
        /\ String.length (take 200 (get_default (ex_answer item) "")) <= 200
        /\ exists rest,
             get_default (ex_answer item) "" =
               take 200 (get_default (ex_answer item) "") ++ rest).
Proof.
  intros Hh recent.
  assert (Hlen : 1 <= List.length recent <= 3).
  { split; [apply last_n_nonempty; [exact Hh | lia] | apply length_last_n]. }
  assert (Heq : enhance_query q h =
    "Context from previous conversation:" ++ LF
      ++ join LF (flat_map rendered recent)
      ++ LF ++ LF ++ "Current question: " ++ q).
  { unfold enhance_query. destruct h as [|x h]; [congruence|].
    fold recent. rewrite fold_enhance_step. simpl app.
    destruct recent as [|item rest]; [simpl in Hlen; lia|].
    cbn [flat_map rendered app].
    now rewrite !str_app_assoc. }
  split; [exact Heq|]. split.
  - rewrite Heq.
    exists ("Context from previous conversation:" ++ LF
              ++ join LF (flat_map rendered recent) ++ LF ++ LF).
    now rewrite !str_app_assoc.
  - split; [exact Hlen|]. split.
    + eexists. apply last_n_suffix.
    + intros item _. split; [reflexivity|]. split.
      * apply length_take.
      * apply take_prefix.
Qed.

(** C7 on a history of five exchanges: only the last three are rendered,
    and the answer of the last one, longer than 200 characters, is cut. *)
Lemma enhance_query_shape_witness :
  Scenario.five_exchanges <> []
  /\ enhance_query "What next?" Scenario.five_exchanges =
       "Context from previous conversation:" ++ LF
       ++ "Previous question: q3" ++ LF
       ++ "Previous answer: a3..." ++ LF
       ++ "Previous question: q4" ++ LF
       ++ "Previous answer: ..." ++ LF
       ++ "Previous question: q5" ++ LF
       ++ "Previous answer: " ++ take 200 Scenario.long_answer ++ "..."
       ++ LF ++ LF
       ++ "Current question: What next?".
Proof.
  split; [discriminate|].
  assert (Hh : Scenario.five_exchanges <> []) by discriminate.
  destruct (enhance_query_shape "What next?" Scenario.five_exchanges Hh)
    as (Heq & _).
  rewrite Heq. reflexivity.
Defined.

End PromptEngineSpec.

(** ** Identifier resolution and the alternative identifiers *)

Module ResolverSpec.
Import PyStr PromptEngine Bedrock PyStrFacts Spec.

(** C5, as the specification words it, fails on a foundation-model
    resource name: it has no inference-profile marker and is kept as it
    is, not wrapped into a second resource name. *)
Lemma get_model_arn_keeps_foundation_arn :
  ~ resolution_as_specified "us-east-1"
      "arn:aws:bedrock:us-east-1::foundation-model/amazon.titan-text-express-v1".
Proof.
  intros [_ H].
  assert (Hn : ~ (startswith "arn:aws:bedrock:"
                    "arn:aws:bedrock:us-east-1::foundation-model/amazon.titan-text-express-v1"
                  = true
                  /\ contains ":inference-profile/"
                       "arn:aws:bedrock:us-east-1::foundation-model/amazon.titan-text-express-v1"
                     = true)).
  { intros [_ Hc]. vm_compute in Hc. discriminate. }
  specialize (H Hn). vm_compute in H. discriminate.
Qed.

(** C5, amended. A configured id that starts with [arn:aws:bedrock:] is
    returned as it is, with or without the inference-profile marker; every
    other id is placed verbatim, version suffix included, after
    [arn:aws:bedrock:<region>::foundation-model/]. *)
Theorem get_model_arn_resolution (rgn model : string) :
  (startswith "arn:aws:bedrock:" model = true ->
   get_model_arn rgn model = model)
  /\ (startswith "arn:aws:bedrock:" model = false ->
      get_model_arn rgn model =
        "arn:aws:bedrock:" ++ rgn ++ "::foundation-model/" ++ model).
Proof.
  unfold get_model_arn, foundation_model_arn. split; intros H; rewrite H.
  - now destruct (contains ":inference-profile/" model).
  - reflexivity.
Qed.

(** C5, amended, at an inference-profile name, at a foundation-model name
    and at a raw model id with a version suffix. *)
Lemma get_model_arn_resolution_witness :
  get_model_arn "us-east-1"
    "arn:aws:bedrock:us-east-1:123456789012:inference-profile/us.anthropic.claude-3-5-sonnet-20241022-v2:0"
  = "arn:aws:bedrock:us-east-1:123456789012:inference-profile/us.anthropic.claude-3-5-sonnet-20241022-v2:0"
  /\ get_model_arn "us-east-1"
       "arn:aws:bedrock:us-east-1::foundation-model/amazon.titan-text-express-v1"
     = "arn:aws:bedrock:us-east-1::foundation-model/amazon.titan-text-express-v1"
  /\ get_model_arn "us-east-1" "openai.gpt-oss-120b-1:0"
     = "arn:aws:bedrock:us-east-1::foundation-model/openai.gpt-oss-120b-1:0".
Proof.
  split; [|split].
  - apply (get_model_arn_resolution "us-east-1"
      "arn:aws:bedrock:us-east-1:123456789012:inference-profile/us.anthropic.claude-3-5-sonnet-20241022-v2:0").
    reflexivity.
  - apply (get_model_arn_resolution "us-east-1"
      "arn:aws:bedrock:us-east-1::foundation-model/amazon.titan-text-express-v1").
    reflexivity.
  - apply (get_model_arn_resolution "us-east-1" "openai.gpt-oss-120b-1:0").
    reflexivity.
Defined.

Local Ltac close_flags :=
  split; [reflexivity | split; intros; congruence].

Local Ltac pick_flags :=
  first [ exists true, true, true; close_flags
        | exists true, true, false; close_flags
        | exists true, false, true; close_flags
        | exists true, false, false; close_flags
        | exists false, true, true; close_flags
        | exists false, true, false; close_flags
        | exists false, false, true; close_flags
        | exists false, false, false; close_flags ].

Local Ltac settle_attempts :=
  repeat match goal with
         | |- _ /\ _ => split
         | |- NoDup _ => constructor
         | |- ~ In _ _ => simpl; intuition congruence
         | |- exists _ : bool, _ => pick_flags
         | |- _ -> _ => intros
         | |- In _ _ => simpl; intuition congruence
         end;
  try congruence.

Lemma model_arn_attempts_facts (rgn model current : string) :
  let fa := foundation_model_arn rgn model in
  let alt := foundation_model_arn rgn alt_model in
  let base := foundation_model_arn rgn (split_head ":" model) in
  let l := model_arn_attempts rgn model current in
  NoDup (current :: l)
  /\ (exists ka kb kc : bool,
        l = ((if ka then [fa] else []) ++ (if kb then [alt] else [])
             ++ (if kc then [base] else []))%list
        /\ (kb = true -> contains "claude-3-5-sonnet" (lower model) = true)
        /\ (kc = true -> contains ":" model = true))
  /\ (fa <> current -> In fa l)
  /\ (contains "claude-3-5-sonnet" (lower model) = true ->
      alt <> current -> In alt l)
  /\ (contains ":" model = true -> base <> current -> In base l).
Proof.
  intros fa alt base l. subst l. unfold model_arn_attempts, append, in_list.
  fold fa alt base. cbn [app].
  destruct (String.eqb_spec fa current) as [Hfc|Hfc];
    destruct (contains "claude-3-5-sonnet" (lower model)) eqn:Hfam;
    destruct (String.eqb_spec alt_model model) as [Ham|Ham];
    destruct (String.eqb_spec alt current) as [Hac|Hac];
    destruct (contains ":" model) eqn:Hcol;
    destruct (String.eqb_spec base current) as [Hbc|Hbc];
    cbn [negb andb existsb orb app];
    try (assert (alt = fa) by (subst alt fa; now rewrite Ham));
    repeat match goal with
           | |- context [String.eqb ?x ?y] =>
               destruct (String.eqb_spec x y);
               cbn [negb andb existsb orb app]
           end;
    settle_attempts.
Qed.

Lemma attempts_are_foundation (rgn model current a : string) :
  In a (model_arn_attempts rgn model current) ->
  a <> current
  /\ (a = foundation_model_arn rgn model
      \/ a = foundation_model_arn rgn alt_model
      \/ (a = foundation_model_arn rgn (split_head ":" model)
          /\ contains ":" model = true)).
Proof.
  intros Hin.
  destruct (model_arn_attempts_facts rgn model current)
    as (Hnd & (ka & kb & kc & Hl & _ & Hkc) & _).
  cbv zeta in Hl, Hnd. split.
  - intros ->. inversion Hnd; contradiction.
  - rewrite Hl in Hin. destruct ka, kb, kc; simpl in Hin;
      intuition (subst; auto).
Qed.

Lemma str_app_inv_l (a b c : string) : a ++ b = a ++ c -> b = c.
Proof.
  induction a as [|x a IH]; cbn; intros H; [exact H|].
  injection H as H. now apply IH.
Qed.

Lemma foundation_model_arn_inj (rgn a b : string) :
  foundation_model_arn rgn a = foundation_model_arn rgn b -> a = b.
Proof.
  unfold foundation_model_arn. intros H.
  repeat apply str_app_inv_l in H. exact H.
Qed.

(** For a configured id that is a resource name, the cut at the first
    colon leaves [arn], and the id without its version suffix is no
    candidate. *)
Lemma resource_name_attempts (rgn model current : string) :
  startswith "arn:aws:bedrock:" model = true ->
  split_head ":" model = "arn"
  /\ forall b suffix : string,
       model = b ++ ":" ++ suffix -> contains ":" suffix = false ->
       ~ In (foundation_model_arn rgn b) (model_arn_attempts rgn model current).
Proof.
  intros Hsw. apply startswith_inv in Hsw as [t Ht].
  split; [now rewrite Ht|].
  intros b suffix Hm Hsuffix Hin.
  apply attempts_are_foundation in Hin as [_ Hshape].
  destruct Hshape as [H | [H | [H _]]];
    apply foundation_model_arn_inj in H.
  - apply (f_equal String.length) in Hm. rewrite H in Hm.
    rewrite !str_length_app in Hm. cbn in Hm. lia.
  - rewrite H, Ht in Hm. discriminate Hm.
  - rewrite Ht in H. cbn in H. rewrite H, Ht in Hm. cbn in Hm.
    injection Hm as <-. cbn in Hsuffix. discriminate Hsuffix.
Qed.

(** C4. The alternatives built after a rejected model identifier never
    hold the identifier that was just attempted and never hold one
    identifier twice, and they come in a fixed order: the foundation-model
    name of the configured id, the one of the known sibling (only for an
    id of the sibling's family), the one of the configured id cut at its
    first colon (only for an id with a colon); a candidate is left out
    only when it is the attempted identifier or is already listed. The cut
    at the first colon is the id without its version suffix when no colon
    comes before the suffix. It is not for a configured id that is itself
    a resource name, which [get_model_arn] accepts: there the third
    candidate is the foundation-model name of [arn], and the id without
    its version suffix is never proposed. *)
Theorem model_arn_attempts_invariant (rgn model current : string) :
  let fa := foundation_model_arn rgn model in
  let alt := foundation_model_arn rgn alt_model in
  let base := foundation_model_arn rgn (split_head ":" model) in
  let l := model_arn_attempts rgn model current in
  NoDup (current :: l)
  /\ (exists ka kb kc : bool,
        l = ((if ka then [fa] else []) ++ (if kb then [alt] else [])
             ++ (if kc then [base] else []))%list
        /\ (kb = true -> contains "claude-3-5-sonnet" (lower model) = true)
        /\ (kc = true -> contains ":" model = true))
  /\ (fa <> current -> In fa l)
  /\ (contains "claude-3-5-sonnet" (lower model) = true ->
      alt <> current -> In alt l)
  /\ (contains ":" model = true -> base <> current -> In base l)
  /\ (forall b suffix : string,
        model = b ++ ":" ++ suffix -> contains ":" b = false ->
        base = foundation_model_arn rgn b)
  /\ (startswith "arn:aws:bedrock:" model = true ->
      base = foundation_model_arn rgn "arn"
      /\ forall b suffix : string,
           model = b ++ ":" ++ suffix -> contains ":" suffix = false ->
           ~ In (foundation_model_arn rgn b) l).
Proof.
  intros fa alt base l.
  pose proof (model_arn_attempts_facts rgn model current) as H.
  cbv zeta in H. destruct H as (H1 & H2 & H3 & H4 & H5).
  repeat (split; [assumption|]). split.
  - intros b suffix -> Hb. subst base.
    change (b ++ ":" ++ suffix) with (b ++ String ":" suffix).
    now rewrite split_head_app.
  - intros Hsw.
    destruct (resource_name_attempts rgn model current Hsw) as [Hhead Hno].
    split; [subst base; now rewrite Hhead | exact Hno].
Qed.

(** C4 at the configured id [anthropic.claude-3-5-sonnet-20241022-v2:0],
    whose foundation-model name was just attempted: the sibling, then the
    id without its version suffix. And at a configured id that is the
    resource name of an inference profile, attempted as it is: the third
    candidate is the foundation-model name of [arn], one [query] whose
    every call is rejected sends these candidates in that order, and the
    name without the version suffix [:0] is not among the candidates. *)
Lemma model_arn_attempts_invariant_witness :
  (model_arn_attempts "us-east-1" "anthropic.claude-3-5-sonnet-20241022-v2:0"
     Scenario.sonnet_arn
   = [Scenario.sibling_arn; Scenario.unversioned_arn]
   /\ NoDup [Scenario.sonnet_arn; Scenario.sibling_arn;
             Scenario.unversioned_arn])
  /\ model_arn_attempts "us-east-1" Scenario.profile_arn Scenario.profile_arn
     = ["arn:aws:bedrock:us-east-1::foundation-model/arn:aws:bedrock:us-east-1:123456789012:inference-profile/us.anthropic.claude-3-5-sonnet-20241022-v2:0";
        Scenario.sibling_arn;
        "arn:aws:bedrock:us-east-1::foundation-model/arn"]
  /\ snd (run_query Scenario.rejecting_models Scenario.profile_config
            "What is X?" None [] None true)
     = [Scenario.request_x Scenario.profile_arn None;
        Scenario.request_x
          "arn:aws:bedrock:us-east-1::foundation-model/arn:aws:bedrock:us-east-1:123456789012:inference-profile/us.anthropic.claude-3-5-sonnet-20241022-v2:0"
          None;
        Scenario.request_x Scenario.sibling_arn None;
        Scenario.request_x "arn:aws:bedrock:us-east-1::foundation-model/arn"
          None]
  /\ ~ In (foundation_model_arn "us-east-1"
             "arn:aws:bedrock:us-east-1:123456789012:inference-profile/us.anthropic.claude-3-5-sonnet-20241022-v2")
          (model_arn_attempts "us-east-1" Scenario.profile_arn
             Scenario.profile_arn).
Proof.
  split; [split; [reflexivity|]|].
  - exact (proj1 (model_arn_attempts_invariant "us-east-1"
                    "anthropic.claude-3-5-sonnet-20241022-v2:0"
                    Scenario.sonnet_arn)).
  - split; [reflexivity|]. split; [vm_compute; reflexivity|].
    destruct (model_arn_attempts_invariant "us-east-1" Scenario.profile_arn
                Scenario.profile_arn)
      as (_ & _ & _ & _ & _ & _ & Hname).
    destruct (Hname eq_refl) as [_ Hno].
    exact (Hno
             "arn:aws:bedrock:us-east-1:123456789012:inference-profile/us.anthropic.claude-3-5-sonnet-20241022-v2"
             "0" eq_refl eq_refl).
Defined.

Lemma foundation_model_arn_cons (rgn x : string) :
  exists r, foundation_model_arn rgn x = String "a" r.
Proof. eexists. reflexivity. Qed.

Lemma strip_get_model_arn_nonempty (rgn model : string) :
  usable model = true -> strip (get_model_arn rgn model) <> "".
Proof.
  intros Hu. unfold get_model_arn.
  destruct (startswith "arn:aws:bedrock:" model).
  - unfold usable in Hu. apply andb_true_iff in Hu as [_ Hs].
    apply truthy_iff in Hs.
    now destruct (contains ":inference-profile/" model).
  - destruct (foundation_model_arn_cons rgn model) as [r ->].
    destruct (strip_cons_nonspace "a" r eq_refl) as [r' ->]. discriminate.
Qed.


(** No alternative is the configured model id itself. *)
Lemma alternatives_differ (self : Config) (model a : string) :
  In a (alternatives self model) -> a <> model.
Proof.
  unfold alternatives. intros Hin Heq.
  apply attempts_are_foundation in Hin as [Hcur Hshape].
  assert (Hsw : startswith "arn:aws:bedrock:" model = true).
  { rewrite <- Heq.
    destruct Hshape as [-> | [-> | [-> _]]]; apply startswith_app. }
  assert (Hget : get_model_arn (region self) model = model).
  { unfold get_model_arn. rewrite Hsw.
    now destruct (contains ":inference-profile/" model). }
  rewrite Hget in Hcur. subst a. apply Hcur. clear Hcur Hget.
  destruct Hshape as [H | [H | [H _]]].
  - exfalso. apply (f_equal String.length) in H.
    unfold foundation_model_arn in H. rewrite !str_length_app in H.
    simpl in H. lia.
  - rewrite H. symmetry.
    apply (strip_id "a" "0" _
             ("arn:aws:bedrock:" ++ region self
                ++ "::foundation-model/anthropic.claude-3-5-sonnet-20240620-v1:"));
      try reflexivity.
    unfold foundation_model_arn, alt_model. simpl.
    now rewrite !str_app_assoc.
  - apply startswith_inv in Hsw as [t Ht].
    assert (Hhead : split_head ":" model = "arn") by (now rewrite Ht).
    rewrite Hhead in H. rewrite H. symmetry.
    apply (strip_id "a" "n" _
             ("arn:aws:bedrock:" ++ region self ++ "::foundation-model/ar"));
      try reflexivity.
    unfold foundation_model_arn. simpl. now rewrite !str_app_assoc.
Qed.

End ResolverSpec.

(** ** The orchestration of [query] *)

Module QuerySpec.
Import PyStr PromptEngine Bedrock PyStrFacts Spec ResolverSpec.

Lemma query_handler_raises {A : Type} (e : exn) (provider : Provider)
    (calls : list Params) :
  exists msg,
    @query_handler A e provider calls = (Raise (PyException msg), calls).
Proof.
  destruct e as [msg|ce|msg|msg]; try (eexists; reflexivity).
  unfold query_handler.
  destruct (in_list (get_default (ce_code ce) "Unknown") auth_codes);
    eexists; reflexivity.
Qed.

(** The retry loop sends the alternatives in order, each in the request
    of the first call with only the model identifier replaced, and stops
    at the first response. *)
Lemma retry_loop_spec (attempts : list string) :
  forall (params : Params) (cfg : RetrieveAndGenerateConfiguration)
         (provider : Provider) (calls : list Params),
  exists k,
    k <= List.length attempts
    /\ snd (retry_loop params cfg attempts provider calls) =
         (calls ++ map (set_model_arn params cfg) (firstn k attempts))%list
    /\ (forall i, i + 1 < k ->
          exists e,
            provider (List.length calls + i)
                     (set_model_arn params cfg (nth i attempts ""))
            = Fails e)
    /\ ((exists resp,
           fst (retry_loop params cfg attempts provider calls)
             = Return (Some resp)
           /\ 0 < k
           /\ provider (List.length calls + (k - 1))
                       (set_model_arn params cfg (nth (k - 1) attempts ""))
              = Responds resp)
        \/ (fst (retry_loop params cfg attempts provider calls) = Return None
            /\ k = List.length attempts
            /\ forall i, i < k ->
                 exists e,
                   provider (List.length calls + i)
                            (set_model_arn params cfg (nth i attempts ""))
                   = Fails e)).
Proof.
  induction attempts as [|a rest IH]; intros params cfg provider calls.
  - exists 0. simpl. rewrite List.app_nil_r.
    repeat split; try lia. right. repeat split; intros; lia.
  - cbn [retry_loop]. unfold try_except, bind, retrieve_and_generate.
    destruct (provider (List.length calls) (set_model_arn params cfg a))
      as [resp|e] eqn:Hcall.
    + exists 1. cbn [fst snd firstn map List.length]. unfold append.
      split; [lia|]. split; [reflexivity|]. split; [intros; lia|].
      left. exists resp. split; [reflexivity|]. split; [lia|].
      cbn [nth Nat.sub]. now rewrite Nat.add_0_r.
    + destruct (IH (set_model_arn params cfg a) cfg provider
                   (append calls (set_model_arn params cfg a)))
        as (k & Hk & Hcalls & Hfail & Hres).
      change (set_model_arn (set_model_arn params cfg a) cfg)
        with (set_model_arn params cfg) in *.
      unfold append in *. rewrite length_app in *. cbn [List.length] in *.
      exists (S k). cbn [List.length firstn map].
      split; [lia|]. split.
      { rewrite Hcalls. now rewrite <- List.app_assoc. }
      split.
      { intros [|i] Hi.
        - exists e. cbn [nth]. now rewrite Nat.add_0_r.
        - destruct (Hfail i ltac:(lia)) as [e' He']. exists e'.
          cbn [nth]. now replace (List.length calls + S i)
                         with (List.length calls + 1 + i) by lia. }
      destruct Hres as [(resp & Hr & Hpos & Hp) | (Hr & Hlen & Hall)].
      * left. exists resp. split; [exact Hr|]. split; [lia|].
        destruct k as [|k]; [lia|]. cbn [Nat.sub nth] in *.
        rewrite Nat.sub_0_r in *.
        now replace (List.length calls + S k)
              with (List.length calls + 1 + k) by lia.
      * right. split; [exact Hr|]. split; [lia|].
        intros [|i] Hi.
        -- exists e. cbn [nth]. now rewrite Nat.add_0_r.
        -- destruct (Hall i ltac:(lia)) as [e' He']. exists e'.
           cbn [nth]. now replace (List.length calls + S i)
                          with (List.length calls + 1 + i) by lia.
Qed.

Lemma build_params_config (self : Config) (kb model enhanced : string)
    (sid : option string) :
  retrieveAndGenerateConfiguration (build_params self kb model enhanced sid)
  = Some (first_config self kb model).
Proof.
  unfold build_params, first_config.
  destruct sid as [s|]; [destruct (truthy s)|]; reflexivity.
Qed.

Lemma build_params_session (self : Config) (kb model enhanced : string)
    (sid : option string) :
  sessionId (build_params self kb model enhanced (checked_session_id sid))
  = sent_session_id sid.
Proof.
  unfold build_params, sent_session_id.
  destruct (checked_session_id sid) as [s|]; [destruct (truthy s)|];
    reflexivity.
Qed.

(** Once the checks pass, [query] is the first provider call under its
    handlers, followed by the normalisation of the response or by the
    outer handlers. *)
Lemma query_reaches (provider : Provider) (self : Config)
    (question kb model : string) (sid : option string)
    (history : list Exchange) (qtype : option string) (adv : bool) :
  reaches_provider self question kb model ->
  run_query provider self question sid history qtype adv =
    match try_except
            (retrieve_and_generate
               (first_request self kb model question sid history adv))
            (provider_call_handler (region self) model
               (first_request self kb model question sid history adv))
            provider [] with
    | (Return resp, calls) =>
        (Return
           (normalize kb model (strip question)
              (enhanced_question_of self (strip question) history adv)
              (query_type_of self (strip question) qtype adv)
              (first_request self kb model question sid history adv) resp),
         calls)
    | (Raise e, calls) => query_handler e provider calls
    end.
Proof.
  intros (Hkb & Hukb & Hmodel & Humodel & Hq & Hqs).
  unfold run_query, query, query_body.
  assert (Hot : otruthy (kb_id self) = true).
  { rewrite Hkb. simpl. unfold usable in Hukb.
    now apply andb_true_iff in Hukb as [-> _]. }
  rewrite Hot, Hkb, Hmodel, Hq, Hqs, Hukb, Humodel. cbn [negb].
  unfold query_checked. fold (first_request self kb model question sid history adv).
  unfold first_request at 1. rewrite build_params_config.
  fold (first_request self kb model question sid history adv).
  unfold try_except at 1, bind.
  destruct (try_except _ _ provider []) as [[resp|e] calls]; reflexivity.
Qed.

(** When a check fails, [query] raises without calling the provider. *)
Lemma query_validation (provider : Provider) (self : Config)
    (question : string) (sid : option string) (history : list Exchange)
    (qtype : option string) (adv : bool) :
  (exists kb model, reaches_provider self question kb model)
  \/ (exists e,
        run_query provider self question sid history qtype adv
        = (Raise e, [])).
Proof.
  unfold reaches_provider, run_query, query, query_body.
  destruct (kb_id self) as [kb|] eqn:Hkb; cbn [otruthy negb];
    [|right; eexists; reflexivity].
  destruct (truthy kb) eqn:Htk; cbn [negb];
    [|right; eexists; reflexivity].
  destruct (truthy question) eqn:Hq; cbn [negb];
    [|right; eexists; reflexivity].
  destruct (truthy (strip question)) eqn:Hqs; cbn [negb];
    [|right; eexists; reflexivity].
  destruct (usable kb) eqn:Hukb; [|right; eexists; reflexivity].
  destruct (model_id self) as [model|] eqn:Hmodel;
    [|right; eexists; reflexivity].
  destruct (usable model) eqn:Humodel; [|right; eexists; reflexivity].
  left. exists kb, model. tauto.
Qed.

(** The first provider call under its handlers: the requests sent are the
    first request and then alternatives in order; a response returned is
    the provider's answer to the last request sent. *)
Lemma first_call_spec (rgn model : string) (params : Params)
    (cfg : RetrieveAndGenerateConfiguration) (provider : Provider) :
  retrieveAndGenerateConfiguration params = Some cfg ->
  exists k,
    k <= List.length
           (model_arn_attempts rgn model
              (modelArn (knowledgeBaseConfiguration cfg)))
    /\ snd (try_except (retrieve_and_generate params)
              (provider_call_handler rgn model params) provider [])
       = params
           :: map (set_model_arn params cfg)
                (firstn k
                   (model_arn_attempts rgn model
                      (modelArn (knowledgeBaseConfiguration cfg))))
    /\ (forall resp,
          fst (try_except (retrieve_and_generate params)
                 (provider_call_handler rgn model params) provider [])
          = Return resp ->
          (k = 0 /\ provider 0 params = Responds resp)
          \/ (0 < k
              /\ provider k
                   (set_model_arn params cfg
                      (nth (k - 1)
                         (model_arn_attempts rgn model
                            (modelArn (knowledgeBaseConfiguration cfg)))
                         ""))
                 = Responds resp)).
Proof.
  intros Hcfg. unfold try_except at 1 2, retrieve_and_generate.
  cbn [List.length]. unfold append. cbn [app].
  destruct (provider 0 params) as [r|e] eqn:Hcall.
  - exists 0. split; [lia|]. split; [reflexivity|].
    intros resp H. left. cbn in H. injection H as ->. now split.
  - destruct e as [msg|ce|msg|msg];
      try (exists 0; split; [lia|]; split; [reflexivity|];
           intros resp H; discriminate H).
    unfold provider_call_handler. rewrite Hcfg.
    set (code := get_default (ce_code ce) "Unknown").
    set (emsg := get_default (ce_message ce) (ce_str ce)).
    destruct (code =? "ValidationException")%string;
      [|exists 0; split; [lia|]; split; [reflexivity|];
        intros resp H; discriminate H].
    destruct (is_model_error emsg);
      [|exists 0; split; [lia|]; split; [reflexivity|];
        intros resp H; discriminate H].
    set (attempts := model_arn_attempts rgn model
                       (modelArn (knowledgeBaseConfiguration cfg))).
    destruct (retry_loop_spec attempts params cfg provider [params])
      as (k & Hk & Hcalls & _ & Hres).
    unfold bind.
    destruct (retry_loop params cfg attempts provider [params])
      as [[[resp|]|e] calls] eqn:Hloop; cbn [fst snd] in *;
      exists k; (split; [exact Hk|]); (split; [exact Hcalls|]);
      intros resp' H; try discriminate H.
    injection H as <-. right.
    destruct Hres as [(resp0 & Hr & Hpos & Hp) | (Hr & _)];
      [|discriminate Hr].
    injection Hr as <-. split; [exact Hpos|].
    now replace k with (1 + (k - 1)) at 1 by lia.
Qed.

Lemma first_config_populated (self : Config) (kb model : string) :
  usable kb = true -> usable model = true ->
  strip kb <> ""
  /\ strip (get_model_arn (region self) model) <> ""
  /\ first_config self kb model =
       {| rag_type := "KNOWLEDGE_BASE";
          knowledgeBaseConfiguration :=
            {| knowledgeBaseId := strip kb;
               modelArn := strip (get_model_arn (region self) model);
               numberOfResults := 5%Z;
               orchestrationPromptTemplate := orchestration_template;
               generationPromptTemplate := generation_template |} |}.
Proof.
  intros Hkb Hmodel. split; [|split].
  - unfold usable in Hkb. apply andb_true_iff in Hkb as [_ H].
    now apply truthy_iff.
  - now apply strip_get_model_arn_nonempty.
  - reflexivity.
Qed.

(** The requests of one [query]: the first request, then alternatives of
    the configured identifier in the same request. *)
Lemma query_calls (provider : Provider) (self : Config)
    (question kb model : string) (sid : option string)
    (history : list Exchange) (qtype : option string) (adv : bool) :
  reaches_provider self question kb model ->
  exists k,
    k <= List.length (alternatives self model)
    /\ snd (run_query provider self question sid history qtype adv)
       = first_request self kb model question sid history adv
           :: map (set_model_arn
                     (first_request self kb model question sid history adv)
                     (first_config self kb model))
                (firstn k (alternatives self model))
    /\ (forall r,
          fst (run_query provider self question sid history qtype adv)
          = Return r ->
          exists resp,
            r = normalize kb model (strip question)
                  (enhanced_question_of self (strip question) history adv)
                  (query_type_of self (strip question) qtype adv)
                  (first_request self kb model question sid history adv)
                  resp
            /\ ((k = 0
                 /\ provider 0
                      (first_request self kb model question sid history adv)
                    = Responds resp)
                \/ (0 < k
                    /\ provider k
                         (set_model_arn
                            (first_request self kb model question sid
                               history adv)
                            (first_config self kb model)
                            (nth (k - 1) (alternatives self model) ""))
                       = Responds resp))).
Proof.
  intros Hreach. rewrite (query_reaches _ _ _ _ _ _ _ _ _ Hreach).
  set (params := first_request self kb model question sid history adv).
  assert (Hcfg : retrieveAndGenerateConfiguration params
                 = Some (first_config self kb model))
    by apply build_params_config.
  destruct (first_call_spec (region self) model params _ provider Hcfg)
    as (k & Hk & Hcalls & Hret).
  change (model_arn_attempts (region self) model
            (modelArn (knowledgeBaseConfiguration (first_config self kb model))))
    with (alternatives self model) in *.
  exists k. split; [exact Hk|].
  destruct (try_except (retrieve_and_generate params)
              (provider_call_handler (region self) model params) provider [])
    as [[resp|e] calls]; cbn [fst snd] in *.
  - split; [exact Hcalls|]. intros r Hr. injection Hr as <-.
    exists resp. split; [reflexivity|]. now apply Hret.
  - destruct (@query_handler_raises QueryResult e provider calls)
      as [msg ->]. cbn [fst snd]. split; [exact Hcalls|].
    intros r Hr. discriminate Hr.
Qed.

(** C8. Every request that one [query] sends to the provider, the first
    one and each retry, with or without a session id, carries the
    retrieval and generation block: the knowledge-base id, a non-empty
    model identifier, five results and the two prompt templates; and every
    one carries the same session id, the caller's when it is valid. *)
Theorem query_requests_populated (provider : Provider) (self : Config)
    (question : string) (sid : option string) (history : list Exchange)
    (qtype : option string) (adv : bool) (req : Params) :
  In req (snd (run_query provider self question sid history qtype adv)) ->
  exists kb arn,
    kb_id self = Some kb
    /\ populated req kb arn
    /\ sessionId req = sent_session_id sid.
Proof.
  intros Hin.
  destruct (query_validation provider self question sid history qtype adv)
    as [(kb & model & Hreach) | (e & He)];
    [|rewrite He in Hin; contradiction].
  destruct (query_calls provider self question kb model sid history qtype adv
              Hreach) as (k & _ & Hcalls & _).
  rewrite Hcalls in Hin.
  destruct Hreach as (Hkb & Hukb & _ & Humodel & _).
  destruct (first_config_populated self kb model Hukb Humodel)
    as (Hskb & Harn & Hcfg).
  exists kb. destruct Hin as [<- | Hin].
  - exists (strip (get_model_arn (region self) model)).
    split; [exact Hkb|]. split.
    + split; [exact Hskb|]. split; [exact Harn|].
      unfold first_request. rewrite build_params_config. now rewrite Hcfg.
    + apply build_params_session.
  - apply in_map_iff in Hin as (a & <- & Ha).
    apply in_firstn in Ha.
    exists a. split; [exact Hkb|]. split.
    + split; [exact Hskb|]. split.
      * apply attempts_are_foundation in Ha as [_ Ha].
        destruct Ha as [-> | [-> | [-> _]]]; discriminate.
      * reflexivity.
    + apply build_params_session.
Qed.

(** C8 on a call that continues the session [sess-1] and is retried once:
    the retry request carries the block and the session id. *)
Lemma query_requests_populated_witness :
  In (Scenario.request_x Scenario.sibling_arn (Some "sess-1"))
     (snd (run_query Scenario.accepting_second Scenario.sonnet_config
             "What is X?" (Some "sess-1") [] None true))
  /\ exists kb arn,
       kb_id Scenario.sonnet_config = Some kb
       /\ populated (Scenario.request_x Scenario.sibling_arn (Some "sess-1"))
            kb arn
       /\ sessionId (Scenario.request_x Scenario.sibling_arn (Some "sess-1"))
          = sent_session_id (Some "sess-1").
Proof.
  assert (H : In (Scenario.request_x Scenario.sibling_arn (Some "sess-1"))
                (snd (run_query Scenario.accepting_second
                        Scenario.sonnet_config
                        "What is X?" (Some "sess-1") [] None true))).
  { vm_compute. right. left. reflexivity. }
  split; [exact H|].
  exact (query_requests_populated Scenario.accepting_second
           Scenario.sonnet_config "What is X?" (Some "sess-1") [] None true
           _ H).
Defined.

(** A result returned by [query] is the normalisation of the response to
    the last request sent: the first request, or a retry with one of the
    alternatives. *)
Lemma query_answered (provider : Provider) (self : Config)
    (question : string) (sid : option string) (history : list Exchange)
    (qtype : option string) (adv : bool) (r : QueryResult)
    (calls : list Params) :
  run_query provider self question sid history qtype adv = (Return r, calls) ->
  exists kb model req resp,
    reaches_provider self question kb model
    /\ r = normalize kb model (strip question)
             (enhanced_question_of self (strip question) history adv)
             (query_type_of self (strip question) qtype adv)
             (first_request self kb model question sid history adv) resp
    /\ answered_by provider calls req resp
    /\ sessionId req = sent_session_id sid
    /\ sessionId (first_request self kb model question sid history adv)
       = sent_session_id sid
    /\ ((calls = [req]
         /\ req = first_request self kb model question sid history adv)
        \/ (1 < List.length calls
            /\ exists a,
                 In a (alternatives self model)
                 /\ model_arn_of req = Some a)).
Proof.
  intros Hrun.
  destruct (query_validation provider self question sid history qtype adv)
    as [(kb & model & Hreach) | (e & He)]; [|congruence].
  destruct (query_calls provider self question kb model sid history qtype adv
              Hreach) as (k & Hk & Hcalls & Hret).
  rewrite Hrun in Hcalls, Hret. cbn [fst snd] in *.
  destruct (Hret r eq_refl) as (resp & Hr & Hlast).
  set (params := first_request self kb model question sid history adv) in *.
  set (cfg := first_config self kb model) in *.
  assert (Hsid : sessionId params = sent_session_id sid)
    by apply build_params_session.
  exists kb, model.
  destruct Hlast as [[-> Hp] | [Hpos Hp]].
  - exists params, resp. repeat (split; [assumption|]). split.
    + exists []. now split.
    + split; [exact Hsid|]. split; [exact Hsid|]. left. now split.
  - exists (set_model_arn params cfg (nth (k - 1) (alternatives self model) "")),
           resp.
    repeat (split; [assumption|]).
    assert (Hk' : k - 1 < List.length (alternatives self model)) by lia.
    assert (Hfirst : firstn k (alternatives self model)
                     = (firstn (k - 1) (alternatives self model)
                        ++ [nth (k - 1) (alternatives self model) ""])%list).
    { rewrite <- (firstn_succ_nth _ _ "" Hk'). f_equal. lia. }
    split.
    + exists (params :: map (set_model_arn params cfg)
                          (firstn (k - 1) (alternatives self model))).
      split.
      * rewrite Hcalls, Hfirst, map_app. reflexivity.
      * cbn [List.length]. rewrite length_map, length_firstn.
        now replace (S (Nat.min (k - 1) (List.length (alternatives self model))))
              with k by lia.
    + split; [exact Hsid|]. split; [exact Hsid|]. right. split.
      * rewrite Hcalls. cbn [List.length].
        rewrite length_map, length_firstn. lia.
      * exists (nth (k - 1) (alternatives self model) "").
        split; [now apply nth_In | reflexivity].
Qed.

(** C9. A call that returns, made without input session id and with
    empty history (and any other call that returns), has a non-empty
    session id in its result, the one the provider assigned, given that
    the provider keeps its contract of answering with a session id. In
    general the session id of a result is the one in the provider's
    response when that one is present and not empty, and otherwise the
    session id sent in the request. *)
Theorem query_session_id (provider : Provider) (self : Config)
    (question : string) (sid : option string) (history : list Exchange)
    (qtype : option string) (adv : bool) (r : QueryResult)
    (calls : list Params) :
  run_query provider self question sid history qtype adv = (Return r, calls) ->
  exists req resp,
    answered_by provider calls req resp
    /\ sessionId req = sent_session_id sid
    /\ session_id r = por (resp_sessionId resp) (sessionId req)
    /\ (assigns_session provider ->
        exists s,
          resp_sessionId resp = Some s /\ session_id r = Some s /\ s <> "")
    /\ (forall s, resp_sessionId resp = Some s -> s <> "" ->
        session_id r = Some s)
    /\ (otruthy (resp_sessionId resp) = false ->
        session_id r = sent_session_id sid).
Proof.
  intros Hrun.
  destruct (query_answered _ _ _ _ _ _ _ _ _ Hrun)
    as (kb & model & req & resp & _ & -> & Hans & Hsid & Hsid0 & _).
  exists req, resp. split; [exact Hans|]. split; [exact Hsid|].
  cbn [normalize session_id]. rewrite Hsid, Hsid0.
  split; [reflexivity|]. unfold por.
  assert (Hsome : forall s, resp_sessionId resp = Some s -> s <> "" ->
                  (if otruthy (resp_sessionId resp)
                   then resp_sessionId resp else sent_session_id sid)
                  = Some s).
  { intros s Hs Hne. rewrite Hs. cbn [otruthy].
    apply truthy_iff in Hne. now rewrite Hne. }
  split; [|split].
  - intros Hcontract. destruct Hans as (earlier & _ & Hresp).
    destruct (Hcontract _ _ _ Hresp) as (s & Hs & Hne).
    exists s. split; [exact Hs|]. split; [now apply Hsome | exact Hne].
  - exact Hsome.
  - intros H. now rewrite H.
Qed.

(** C9 on a call without session id and with empty history, answered by a
    provider that assigns the session [sess-1]. *)
Lemma query_session_id_witness :
  exists r calls,
    run_query (fun _ _ => Responds Scenario.answer_x) Scenario.sonnet_config
      "What is X?" None [] None true = (Return r, calls)
    /\ session_id r = Some "sess-1".
Proof.
  eexists. eexists. split; [reflexivity|].
  destruct (query_session_id (fun _ _ => Responds Scenario.answer_x)
              Scenario.sonnet_config "What is X?" None [] None true _ _
              eq_refl)
    as (req & resp & Hans & _ & _ & Hassigned & _).
  destruct Hassigned as (s & Hs & Hr & _).
  - intros n p resp' H. injection H as <-. exists "sess-1".
    split; [reflexivity | discriminate].
  - destruct Hans as (earlier & Hcalls & Hresp).
    injection Hresp as <-. rewrite Hr. symmetry. exact Hs.
Defined.

(** C2, as stated, fails: the first call is rejected with
    [model identifier invalid], the retry with the sibling identifier is
    answered, and the metadata of the result names the configured model
    id, not the identifier that was accepted. *)
Lemma query_metadata_keeps_configured_model :
  exists r,
    run_query Scenario.accepting_second Scenario.sonnet_config
      "What is X?" None [] None true
    = (Return r,
       [Scenario.request_x Scenario.sonnet_arn None;
        Scenario.request_x Scenario.sibling_arn None])
    /\ md_model (metadata r) = "anthropic.claude-3-5-sonnet-20241022-v2:0"
    /\ md_model (metadata r) <> Scenario.sibling_arn.
Proof.
  eexists. split; [reflexivity|]. split; [reflexivity | discriminate].
Qed.

(** C2, amended. The metadata of every result names the configured model
    id; when the result comes from a retry, the identifier of the request
    that was answered is one of the alternatives and differs from the
    model named in the metadata. *)
Theorem query_metadata_model (provider : Provider) (self : Config)
    (question : string) (sid : option string) (history : list Exchange)
    (qtype : option string) (adv : bool) (r : QueryResult)
    (calls : list Params) :
  run_query provider self question sid history qtype adv = (Return r, calls) ->
  model_id self = Some (md_model (metadata r))
  /\ exists req resp,
       answered_by provider calls req resp
       /\ (1 < List.length calls ->
           exists a,
             model_arn_of req = Some a
             /\ In a (alternatives self (md_model (metadata r)))
             /\ a <> md_model (metadata r)).
Proof.
  intros Hrun.
  destruct (query_answered _ _ _ _ _ _ _ _ _ Hrun)
    as (kb & model & req & resp & Hreach & -> & Hans & _ & _ & Hlast).
  cbn [normalize metadata md_model].
  destruct Hreach as (_ & _ & Hmodel & _).
  split; [exact Hmodel|]. exists req, resp. split; [exact Hans|].
  intros Hlen. destruct Hlast as [[-> _] | (_ & a & Ha & Hreq)].
  - simpl in Hlen. lia.
  - exists a. split; [exact Hreq|]. split; [exact Ha|].
    now apply (alternatives_differ self).
Qed.

(** C2, amended, on the call whose retry with the sibling identifier is
    answered. *)
Lemma query_metadata_model_witness :
  exists r calls,
    run_query Scenario.accepting_second Scenario.sonnet_config
      "What is X?" None [] None true = (Return r, calls)
    /\ model_id Scenario.sonnet_config = Some (md_model (metadata r)).
Proof.
  eexists. eexists. split; [reflexivity|].
  apply (query_metadata_model Scenario.accepting_second
           Scenario.sonnet_config "What is X?" None [] None true _ _ eq_refl).
Defined.

(** C1: what the code does. A credential error code on the first provider
    call ends [query] after that one call, with no retry; the exception
    raised is the generic wrapped [AWS Error] message and not the message
    with the credential hint, which the handler at lines 386-402 would
    build: the [ClientError] is already turned into a plain exception by
    the handler of the inner [try]. *)
Theorem query_auth_error_not_hinted (provider : Provider) (self : Config)
    (question kb model : string) (sid : option string)
    (history : list Exchange) (qtype : option string) (adv : bool)
    (ce : ClientErrorData) (code : string) :
  reaches_provider self question kb model ->
  provider 0 (first_request self kb model question sid history adv)
    = Fails (ClientError ce) ->
  ce_code ce = Some code ->
  In code auth_codes ->
  run_query provider self question sid history qtype adv
    = (Raise (PyException
                ("Failed to query knowledge base: "
                   ++ aws_error code
                        (get_default (ce_message ce) (ce_str ce)))),
       [first_request self kb model question sid history adv])
  /\ "Failed to query knowledge base: "
       ++ aws_error code (get_default (ce_message ce) (ce_str ce))
     <> helpful_msg code (get_default (ce_message ce) (ce_str ce)).
Proof.
  intros Hreach Hcall Hcode Hauth. split; [|discriminate].
  rewrite (query_reaches _ _ _ _ _ _ _ _ _ Hreach).
  unfold try_except, retrieve_and_generate. cbn [List.length].
  rewrite Hcall. unfold provider_call_handler. rewrite Hcode.
  cbn [get_default].
  assert (Hne : (code =? "ValidationException")%string = false).
  { simpl in Hauth. destruct Hauth as [<- | [<- | [<- | []]]]; reflexivity. }
  rewrite Hne. reflexivity.
Qed.

(** C1 at the provider that answers [UnrecognizedClientException]: one
    call, and an error message without the hint. *)
Lemma query_auth_error_not_hinted_witness :
  run_query Scenario.rejecting_credentials Scenario.sonnet_config
    "What is X?" None [] None true
  = (Raise (PyException
              "Failed to query knowledge base: AWS Error (UnrecognizedClientException): The security token included in the request is invalid."),
     [Scenario.request_x Scenario.sonnet_arn None])
  /\ contains "Please configure AWS credentials"
       "Failed to query knowledge base: AWS Error (UnrecognizedClientException): The security token included in the request is invalid."
     = false.
Proof.
  split; [|reflexivity].
  refine (proj1 (query_auth_error_not_hinted Scenario.rejecting_credentials
                   Scenario.sonnet_config "What is X?"
                   "R6TD9J5RHA" "anthropic.claude-3-5-sonnet-20241022-v2:0"
                   None [] None true _ "UnrecognizedClientException"
                   _ eq_refl eq_refl _)).
  - repeat split; reflexivity.
  - simpl. auto.
Defined.

(** C3, as stated, fails: when every alternative is rejected, the error
    message names none of the identifiers that were tried. *)
Lemma exhausted_error_names_no_identifier :
  exists msg,
    run_query Scenario.rejecting_models Scenario.sonnet_config
      "What is X?" None [] None true
    = (Raise (PyException msg),
       [Scenario.request_x Scenario.sonnet_arn None;
        Scenario.request_x Scenario.sibling_arn None;
        Scenario.request_x Scenario.unversioned_arn None])
    /\ contains Scenario.sibling_arn msg = false
    /\ contains Scenario.unversioned_arn msg = false.
Proof.
  eexists. split; [reflexivity|]. split; reflexivity.
Qed.

(** C3, amended. When the first call is rejected with a
    [ValidationException] whose message points at the model identifier and
    every later call fails, each alternative is tried once, in order, and
    the error raised is the provider's code and message followed by the
    number of alternatives that were tried. *)
Theorem query_alternatives_exhausted (provider : Provider) (self : Config)
    (question kb model : string) (sid : option string)
    (history : list Exchange) (qtype : option string) (adv : bool)
    (ce : ClientErrorData) :
  reaches_provider self question kb model ->
  provider 0 (first_request self kb model question sid history adv)
    = Fails (ClientError ce) ->
  ce_code ce = Some "ValidationException" ->
  is_model_error (get_default (ce_message ce) (ce_str ce)) = true ->
  (forall n req, 0 < n -> exists e, provider n req = Fails e) ->
  run_query provider self question sid history qtype adv
    = (Raise (PyException
                ("Failed to query knowledge base: "
                   ++ "AWS Error (ValidationException): "
                   ++ get_default (ce_message ce) (ce_str ce)
                   ++ ". Tried "
                   ++ str_of_nat (List.length (alternatives self model))
                   ++ " alternative model formats, all failed.")),
       first_request self kb model question sid history adv
         :: map (set_model_arn
                   (first_request self kb model question sid history adv)
                   (first_config self kb model))
              (alternatives self model)).
Proof.
  intros Hreach Hcall Hcode Hmodel Hfail.
  rewrite (query_reaches _ _ _ _ _ _ _ _ _ Hreach).
  set (params := first_request self kb model question sid history adv) in *.
  unfold try_except, retrieve_and_generate. cbn [List.length].
  rewrite Hcall. unfold provider_call_handler. rewrite Hcode.
  cbn [get_default].
  assert (Hcfg : retrieveAndGenerateConfiguration params
                 = Some (first_config self kb model))
    by apply build_params_config.
  rewrite Hcfg, String.eqb_refl, Hmodel.
  change (model_arn_attempts (region self) model
            (modelArn (knowledgeBaseConfiguration (first_config self kb model))))
    with (alternatives self model).
  destruct (retry_loop_spec (alternatives self model) params
              (first_config self kb model) provider (append [] params))
    as (k & Hk & Hcalls & _ & Hres).
  unfold bind.
  destruct (retry_loop params (first_config self kb model)
              (alternatives self model) provider (append [] params))
    as [res calls]. cbn [fst snd] in *.
  destruct Hres as [(resp & _ & Hpos & Hp) | (-> & -> & _)].
  - exfalso. cbn [append app List.length] in Hp.
    destruct (Hfail (1 + (k - 1))
                (set_model_arn params (first_config self kb model)
                   (nth (k - 1) (alternatives self model) ""))
                ltac:(lia)) as [e He].
    congruence.
  - rewrite firstn_all in Hcalls. subst calls.
    unfold raise, query_handler, aws_error. cbn [exn_str append app].
    f_equal. f_equal. f_equal. simpl. reflexivity.
Qed.

(** C3, amended, on the provider that rejects every model identifier: the
    two alternatives are tried and the message ends with their number. *)
Lemma query_alternatives_exhausted_witness :
  run_query Scenario.rejecting_models Scenario.sonnet_config
    "What is X?" None [] None true
  = (Raise (PyException
              "Failed to query knowledge base: AWS Error (ValidationException): model identifier invalid. Tried 2 alternative model formats, all failed."),
     [Scenario.request_x Scenario.sonnet_arn None;
      Scenario.request_x Scenario.sibling_arn None;
      Scenario.request_x Scenario.unversioned_arn None]).
Proof.
  refine (query_alternatives_exhausted Scenario.rejecting_models
            Scenario.sonnet_config "What is X?"
            "R6TD9J5RHA" "anthropic.claude-3-5-sonnet-20241022-v2:0"
            None [] None true _ _ eq_refl eq_refl eq_refl _).
  - repeat split; reflexivity.
  - intros n req _. eexists. reflexivity.
Defined.

End QuerySpec.

(** ** Further behaviour of [query]: validation, errors, retries *)

Module QueryBehaviour.
Import PyStr PromptEngine Bedrock PyStrFacts Spec ResolverSpec QuerySpec.
Import QueryVocabulary.

(** A question that is empty, or blank once stripped, is refused inside
    the outer [try]: [query] raises the wrapped validation message and the
    provider is never called. *)
Theorem query_blank_question (provider : Provider) (self : Config)
    (question : string) (sid : option string) (history : list Exchange)
    (qtype : option string) (adv : bool) :
  otruthy (kb_id self) = true ->
  strip question = "" ->
  run_query provider self question sid history qtype adv
  = (Raise (PyException
              ("Failed to query knowledge base: "
                 ++ (if truthy question
                     then "Question cannot be empty or whitespace only"
                     else "Question must be a non-empty string"))),
     []).
Proof.
  intros Hkb Hblank. unfold run_query, query, query_body.
  rewrite Hkb, Hblank. cbn [negb truthy].
  destruct (truthy question); reflexivity.
Qed.

(** A question of three spaces and the empty question. *)
Lemma query_blank_question_witness :
  run_query Scenario.accepting_second Scenario.sonnet_config "   " None []
    None true
  = (Raise (PyException
              "Failed to query knowledge base: Question cannot be empty or whitespace only"),
     [])
  /\ run_query Scenario.accepting_second Scenario.sonnet_config "" None []
       None true
     = (Raise (PyException
                 "Failed to query knowledge base: Question must be a non-empty string"),
        []).
Proof.
  split.
  - exact (query_blank_question Scenario.accepting_second
             Scenario.sonnet_config "   " None [] None true
             eq_refl eq_refl).
  - exact (query_blank_question Scenario.accepting_second
             Scenario.sonnet_config "" None [] None true eq_refl eq_refl).
Defined.

(** Missing configuration is refused before any provider call. An unset
    or empty knowledge-base id raises a bare [ValueError] (the check
    stands before the outer [try]); a knowledge-base id of white space
    only, and a model id that is unset, empty or of white space only, raise
    the wrapped message, and only for a question that is itself valid. *)
Theorem query_unconfigured (provider : Provider) (self : Config)
    (question : string) (sid : option string) (history : list Exchange)
    (qtype : option string) (adv : bool) :
  (otruthy (kb_id self) = false ->
   run_query provider self question sid history qtype adv
   = (Raise (ValueError "Knowledge Base ID not configured"), []))
  /\ (forall kb,
        kb_id self = Some kb -> kb <> "" -> strip kb = "" ->
        strip question <> "" ->
        run_query provider self question sid history qtype adv
        = (Raise (PyException
                    "Failed to query knowledge base: Knowledge Base ID is not configured or invalid"),
           []))
  /\ (forall kb,
        kb_id self = Some kb -> strip kb <> "" ->
        strip question <> "" ->
        match model_id self with
        | Some model => strip model = ""
        | None => True
        end ->
        run_query provider self question sid history qtype adv
        = (Raise (PyException
                    "Failed to query knowledge base: Model ID is not configured or invalid"),
           [])).
Proof.
  assert (Hq : strip question <> "" ->
               truthy question = true /\ truthy (strip question) = true).
  { intros H. split; [|now apply truthy_iff].
    apply truthy_iff. intros ->. now apply H. }
  unfold run_query, query, query_body. split; [|split].
  - intros H. now rewrite H.
  - intros kb Hkb Hne Hblank Hquestion.
    destruct (Hq Hquestion) as [Hq1 Hq2].
    apply truthy_iff in Hne.
    rewrite Hkb. cbn [otruthy]. rewrite Hne, Hq1, Hq2. cbn [negb].
    unfold usable. rewrite Hne, Hblank. reflexivity.
  - intros kb Hkb Hskb Hquestion Hmodel.
    destruct (Hq Hquestion) as [Hq1 Hq2].
    assert (Hne : truthy kb = true).
    { apply truthy_iff. intros ->. now apply Hskb. }
    apply truthy_iff in Hskb.
    rewrite Hkb. cbn [otruthy]. rewrite Hne, Hq1, Hq2. cbn [negb].
    unfold usable at 1. rewrite Hne, Hskb. cbn [andb].
    destruct (model_id self) as [model|]; [|reflexivity].
    unfold usable. rewrite Hmodel. cbn [truthy].
    now rewrite andb_false_r.
Qed.

(** The three cases of a missing configuration. *)
Lemma query_unconfigured_witness :
  run_query Scenario.accepting_second
    {| region := "us-east-1"; kb_id := None;
       model_id := Some "openai.gpt-oss-120b-1:0";
       has_prompt_engine := true |}
    "What is X?" None [] None true
  = (Raise (ValueError "Knowledge Base ID not configured"), [])
  /\ run_query Scenario.accepting_second
       {| region := "us-east-1"; kb_id := Some "  ";
          model_id := Some "openai.gpt-oss-120b-1:0";
          has_prompt_engine := true |}
       "What is X?" None [] None true
     = (Raise (PyException
                 "Failed to query knowledge base: Knowledge Base ID is not configured or invalid"),
        [])
  /\ run_query Scenario.accepting_second
       {| region := "us-east-1"; kb_id := Some "R6TD9J5RHA";
          model_id := Some " ";
          has_prompt_engine := true |}
       "What is X?" None [] None true
     = (Raise (PyException
                 "Failed to query knowledge base: Model ID is not configured or invalid"),
        []).
Proof.
  split; [|split].
  - apply (query_unconfigured Scenario.accepting_second
             {| region := "us-east-1"; kb_id := None;
                model_id := Some "openai.gpt-oss-120b-1:0";
                has_prompt_engine := true |}
             "What is X?" None [] None true). reflexivity.
  - apply (proj1 (proj2 (query_unconfigured Scenario.accepting_second
             {| region := "us-east-1"; kb_id := Some "  ";
                model_id := Some "openai.gpt-oss-120b-1:0";
                has_prompt_engine := true |}
             "What is X?" None [] None true)) "  ");
      try reflexivity; discriminate.
  - apply (proj2 (proj2 (query_unconfigured Scenario.accepting_second
             {| region := "us-east-1"; kb_id := Some "R6TD9J5RHA";
                model_id := Some " ";
                has_prompt_engine := true |}
             "What is X?" None [] None true)) "R6TD9J5RHA");
      try reflexivity; discriminate.
Defined.

(** What the first provider call and its handlers do, by the outcome of
    that call. *)
Lemma first_call_outcome (rgn model : string) (params : Params)
    (cfg : RetrieveAndGenerateConfiguration) (provider : Provider) :
  retrieveAndGenerateConfiguration params = Some cfg ->
  match provider 0 params with
  | Responds r =>
      try_except (retrieve_and_generate params)
        (provider_call_handler rgn model params) provider []
      = (Return r, [params])
  | Fails e =>
      if starts_retry e then
        exists k,
          k <= List.length
                 (model_arn_attempts rgn model
                    (modelArn (knowledgeBaseConfiguration cfg)))
          /\ snd (try_except (retrieve_and_generate params)
                    (provider_call_handler rgn model params) provider [])
             = params
                 :: map (set_model_arn params cfg)
                      (firstn k
                         (model_arn_attempts rgn model
                            (modelArn (knowledgeBaseConfiguration cfg))))
          /\ (forall i, i + 1 < k ->
                exists e',
                  provider (1 + i)
                    (set_model_arn params cfg
                       (nth i
                          (model_arn_attempts rgn model
                             (modelArn (knowledgeBaseConfiguration cfg)))
                          ""))
                  = Fails e')
          /\ ((exists resp,
                 fst (try_except (retrieve_and_generate params)
                        (provider_call_handler rgn model params) provider [])
                 = Return resp
                 /\ 0 < k)
              \/ (exists msg,
                    fst (try_except (retrieve_and_generate params)
                           (provider_call_handler rgn model params)
                           provider [])
                    = Raise (PyException msg)))
      else
        try_except (retrieve_and_generate params)
          (provider_call_handler rgn model params) provider []
        = (Raise (match e with
                  | ClientError _ => PyException (reported e)
                  | _ => e
                  end),
           [params])
  end.
Proof.
  intros Hcfg. unfold try_except at 1 2 3 4 5, retrieve_and_generate.
  cbn [List.length]. unfold append. cbn [app].
  destruct (provider 0 params) as [r|e] eqn:Hcall; [reflexivity|].
  destruct e as [msg|ce|msg|msg]; try reflexivity.
  unfold starts_retry, reported, error_code_of, error_message_of,
    provider_call_handler.
  rewrite Hcfg.
  destruct (get_default (ce_code ce) "Unknown" =? "ValidationException")%string;
    [|reflexivity].
  destruct (is_model_error (get_default (ce_message ce) (ce_str ce)));
    [|reflexivity].
  cbn [andb].
  set (attempts := model_arn_attempts rgn model
                     (modelArn (knowledgeBaseConfiguration cfg))).
  destruct (retry_loop_spec attempts params cfg provider [params])
    as (k & Hk & Hcalls & Hfail & Hres).
  cbn [List.length] in Hfail.
  exists k. unfold bind.
  destruct (retry_loop params cfg attempts provider [params])
    as [[[resp|]|e] calls] eqn:Hloop; cbn [fst snd] in *;
    (split; [exact Hk|]); (split; [exact Hcalls|]);
    (split; [exact Hfail|]).
  - left. exists resp. split; [reflexivity|].
    destruct Hres as [(resp0 & _ & Hpos & _) | (Hr & _)];
      [exact Hpos | discriminate Hr].
  - right. eexists. reflexivity.
  - exfalso. destruct Hres as [(resp0 & Hr & _) | (Hr & _)]; discriminate Hr.
Qed.

(** When a check fails, what [query] raises. *)
Lemma query_refusal (provider : Provider) (self : Config)
    (question : string) (sid : option string) (history : list Exchange)
    (qtype : option string) (adv : bool) :
  (exists kb model, reaches_provider self question kb model)
  \/ run_query provider self question sid history qtype adv
     = (Raise (ValueError "Knowledge Base ID not configured"), [])
  \/ (exists msg,
        run_query provider self question sid history qtype adv
        = (Raise (PyException ("Failed to query knowledge base: " ++ msg)),
           [])).
Proof.
  unfold reaches_provider, run_query, query, query_body.
  destruct (kb_id self) as [kb|] eqn:Hkb; cbn [otruthy negb];
    [|right; left; reflexivity].
  destruct (truthy kb) eqn:Htk; cbn [negb];
    [|right; left; reflexivity].
  destruct (truthy question) eqn:Hq; cbn [negb];
    [|right; right; eexists; reflexivity].
  destruct (truthy (strip question)) eqn:Hqs; cbn [negb];
    [|right; right; eexists; reflexivity].
  destruct (usable kb) eqn:Hukb; [|right; right; eexists; reflexivity].
  destruct (model_id self) as [model|] eqn:Hmodel;
    [|right; right; eexists; reflexivity].
  destruct (usable model) eqn:Humodel;
    [|right; right; eexists; reflexivity].
  left. exists kb, model. tauto.
Qed.

Lemma alternatives_bound (self : Config) (model : string) :
  List.length (alternatives self model) <= 3.
Proof.
  unfold alternatives.
  pose proof (model_arn_attempts_facts (region self) model
                (strip (get_model_arn (region self) model))) as H.
  cbv zeta in H. destruct H as (_ & (ka & kb & kc & -> & _) & _).
  destruct ka, kb, kc; simpl; lia.
Qed.

(** A failure of the first provider call that is not a rejection of the
    model identifier is never retried: [query] ends after that one call
    and raises the wrapped report of the failure. This holds for a
    [ValidationException] whose message has none of [invalid], [model],
    [identifier], for every other error code, and for an exception that is
    not a [ClientError]. *)
Theorem query_no_retry (provider : Provider) (self : Config)
    (question kb model : string) (sid : option string)
    (history : list Exchange) (qtype : option string) (adv : bool)
    (e : exn) :
  reaches_provider self question kb model ->
  provider 0 (first_request self kb model question sid history adv)
    = Fails e ->
  starts_retry e = false ->
  run_query provider self question sid history qtype adv
  = (Raise (PyException ("Failed to query knowledge base: " ++ reported e)),
     [first_request self kb model question sid history adv]).
Proof.
  intros Hreach Hcall Hno.
  rewrite (query_reaches _ _ _ _ _ _ _ _ _ Hreach).
  pose proof (first_call_outcome (region self) model
                (first_request self kb model question sid history adv)
                (first_config self kb model) provider
                (build_params_config _ _ _ _ _)) as H.
  rewrite Hcall, Hno in H. rewrite H.
  destruct e; reflexivity.
Qed.

(** A [ValidationException] about a missing field, and a timeout that is
    not a [ClientError]: one call each. *)
Lemma query_no_retry_witness :
  run_query
    (fun _ _ =>
       Fails (ClientError
                {| ce_code := Some "ValidationException";
                   ce_message := Some "1 validation error detected: input.text is too long";
                   ce_str := "" |}))
    Scenario.sonnet_config "What is X?" None [] None true
  = (Raise (PyException
              "Failed to query knowledge base: AWS Error (ValidationException): 1 validation error detected: input.text is too long"),
     [Scenario.request_x Scenario.sonnet_arn None])
  /\ run_query (fun _ _ => Fails (OtherError "Read timeout on endpoint URL"))
       Scenario.sonnet_config "What is X?" None [] None true
     = (Raise (PyException
                 "Failed to query knowledge base: Read timeout on endpoint URL"),
        [Scenario.request_x Scenario.sonnet_arn None]).
Proof.
  assert (Hreach : reaches_provider Scenario.sonnet_config "What is X?"
                     "R6TD9J5RHA" "anthropic.claude-3-5-sonnet-20241022-v2:0")
    by (repeat split; reflexivity).
  split.
  - exact (query_no_retry _ Scenario.sonnet_config "What is X?" _ _
             None [] None true
             (ClientError
                {| ce_code := Some "ValidationException";
                   ce_message := Some "1 validation error detected: input.text is too long";
                   ce_str := "" |})
             Hreach eq_refl eq_refl).
  - exact (query_no_retry _ Scenario.sonnet_config "What is X?" _ _
             None [] None true
             (OtherError "Read timeout on endpoint URL")
             Hreach eq_refl eq_refl).
Defined.

(** The whole of [query] once the checks pass, by the outcome of the
    first provider call. *)
Lemma query_outcome (provider : Provider) (self : Config)
    (question kb model : string) (sid : option string)
    (history : list Exchange) (qtype : option string) (adv : bool) :
  reaches_provider self question kb model ->
  match provider 0 (first_request self kb model question sid history adv) with
  | Responds resp =>
      run_query provider self question sid history qtype adv
      = (Return
           (normalize kb model (strip question)
              (enhanced_question_of self (strip question) history adv)
              (query_type_of self (strip question) qtype adv)
              (first_request self kb model question sid history adv) resp),
         [first_request self kb model question sid history adv])
  | Fails e =>
      if starts_retry e then
        exists k,
          k <= List.length (alternatives self model)
          /\ snd (run_query provider self question sid history qtype adv)
             = first_request self kb model question sid history adv
                 :: map (set_model_arn
                           (first_request self kb model question sid
                              history adv)
                           (first_config self kb model))
                      (firstn k (alternatives self model))
          /\ (forall i, i + 1 < k ->
                exists e',
                  provider (1 + i)
                    (set_model_arn
                       (first_request self kb model question sid history adv)
                       (first_config self kb model)
                       (nth i (alternatives self model) ""))
                  = Fails e')
          /\ ((exists r,
                 fst (run_query provider self question sid history qtype adv)
                 = Return r
                 /\ 0 < k)
              \/ (exists msg,
                    fst (run_query provider self question sid history qtype
                           adv)
                    = Raise (PyException
                               ("Failed to query knowledge base: " ++ msg))))
      else
        run_query provider self question sid history qtype adv
        = (Raise (PyException
                    ("Failed to query knowledge base: " ++ reported e)),
           [first_request self kb model question sid history adv])
  end.
Proof.
  intros Hreach.
  rewrite (query_reaches _ _ _ _ _ _ _ _ _ Hreach).
  set (params := first_request self kb model question sid history adv).
  pose proof (first_call_outcome (region self) model params
                (first_config self kb model) provider
                (build_params_config _ _ _ _ _)) as H.
  fold params in H.
  change (model_arn_attempts (region self) model
            (modelArn (knowledgeBaseConfiguration (first_config self kb model))))
    with (alternatives self model) in H.
  destruct (provider 0 params) as [resp|e].
  - now rewrite H.
  - destruct (starts_retry e).
    + destruct H as (k & Hk & Hcalls & Hfail & Hres). exists k.
      destruct (try_except (retrieve_and_generate params)
                  (provider_call_handler (region self) model params)
                  provider []) as [[resp|e'] calls]; cbn [fst snd] in *.
      * repeat (split; [assumption|]). left. eexists. split; [reflexivity|].
        destruct Hres as [(? & _ & Hpos) | (? & Hr)];
          [exact Hpos | discriminate Hr].
      * destruct Hres as [(? & Hr & _) | (msg & Hr)]; [discriminate Hr|].
        injection Hr as ->. cbn [query_handler exn_str raise fst snd].
        repeat (split; [assumption|]). right. eexists. reflexivity.
    + rewrite H. destruct e; reflexivity.
Qed.

(** Whatever the inputs and the provider, an exception raised by [query]
    is either the bare [ValueError] for an unset knowledge-base id or a
    plain exception whose message starts with
    [Failed to query knowledge base: ]; no [ClientError] and no message of
    the credential-hint form ever leaves [query]. *)
Theorem query_raises_wrapped (provider : Provider) (self : Config)
    (question : string) (sid : option string) (history : list Exchange)
    (qtype : option string) (adv : bool) (e : exn) :
  fst (run_query provider self question sid history qtype adv) = Raise e ->
  e = ValueError "Knowledge Base ID not configured"
  \/ exists msg,
       e = PyException ("Failed to query knowledge base: " ++ msg).
Proof.
  intros Hraise.
  destruct (query_refusal provider self question sid history qtype adv)
    as [(kb & model & Hreach) | [H | (msg & H)]].
  - pose proof (query_outcome provider self question kb model sid history
                  qtype adv Hreach) as H.
    destruct (provider 0 (first_request self kb model question sid history adv))
      as [resp|e0].
    + rewrite H in Hraise. discriminate Hraise.
    + destruct (starts_retry e0).
      * destruct H as (k & _ & _ & _ & [(r & Hr & _) | (msg & Hr)]);
          rewrite Hr in Hraise; [discriminate Hraise|].
        injection Hraise as <-. right. now exists msg.
      * rewrite H in Hraise. injection Hraise as <-. right. now eexists.
  - rewrite H in Hraise. injection Hraise as <-. now left.
  - rewrite H in Hraise. injection Hraise as <-. right. now exists msg.
Qed.

(** On the provider that rejects the credentials. *)
Lemma query_raises_wrapped_witness :
  exists msg,
    fst (run_query Scenario.rejecting_credentials Scenario.sonnet_config
           "What is X?" None [] None true)
    = Raise (PyException ("Failed to query knowledge base: " ++ msg)).
Proof.
  destruct (query_raises_wrapped Scenario.rejecting_credentials
              Scenario.sonnet_config "What is X?" None [] None true
              (PyException
                 "Failed to query knowledge base: AWS Error (UnrecognizedClientException): The security token included in the request is invalid.")
              eq_refl) as [H | (msg & H)].
  - discriminate H.
  - exists "AWS Error (UnrecognizedClientException): The security token included in the request is invalid.".
    reflexivity.
Defined.

(** One [query] calls the provider at most four times: once, and once
    more for each of the at most three alternative identifiers. *)
Theorem query_call_bound (provider : Provider) (self : Config)
    (question : string) (sid : option string) (history : list Exchange)
    (qtype : option string) (adv : bool) :
  List.length (snd (run_query provider self question sid history qtype adv))
  <= 4.
Proof.
  destruct (query_validation provider self question sid history qtype adv)
    as [(kb & model & Hreach) | (e & He)]; [|rewrite He; simpl; lia].
  destruct (query_calls provider self question kb model sid history qtype adv
              Hreach) as (k & Hk & -> & _).
  pose proof (alternatives_bound self model).
  cbn [List.length]. rewrite length_map, length_firstn. lia.
Qed.

(** When [query] returns a result, every provider call before the last
    one failed: the retry loop stops at the first response. *)
Theorem query_stops_at_first_response (provider : Provider) (self : Config)
    (question : string) (sid : option string) (history : list Exchange)
    (qtype : option string) (adv : bool) (r : QueryResult)
    (calls : list Params) (i : nat) (req : Params) :
  run_query provider self question sid history qtype adv = (Return r, calls) ->
  nth_error calls i = Some req ->
  i + 1 < List.length calls ->
  exists e, provider i req = Fails e.
Proof.
  intros Hrun Hnth Hi.
  destruct (query_validation provider self question sid history qtype adv)
    as [(kb & model & Hreach) | (e & He)]; [|congruence].
  pose proof (query_outcome provider self question kb model sid history
                qtype adv Hreach) as H.
  set (params := first_request self kb model question sid history adv) in *.
  destruct (provider 0 params) as [resp|e0] eqn:Hcall.
  - rewrite Hrun in H. injection H as _ ->. simpl in Hi. lia.
  - destruct (starts_retry e0).
    + destruct H as (k & Hk & Hcalls & Hfail & _).
      rewrite Hrun in Hcalls. cbn [snd] in Hcalls. subst calls.
      cbn [List.length] in Hi. rewrite length_map, length_firstn in Hi.
      destruct i as [|j].
      * cbn in Hnth. injection Hnth as <-. now exists e0.
      * cbn [nth_error] in Hnth.
        rewrite nth_error_map, nth_error_firstn in Hnth.
        assert (Hjk : Nat.ltb j k = true) by (apply Nat.ltb_lt; lia).
        rewrite Hjk in Hnth.
        destruct (nth_error (alternatives self model) j) as [a|] eqn:Ha;
          [|discriminate Hnth].
        injection Hnth as <-.
        destruct (Hfail j ltac:(lia)) as [e' He'].
        rewrite (nth_error_nth _ _ "" Ha) in He'. now exists e'.
    + rewrite Hrun in H. discriminate H.
Qed.

(** On the call that is answered at its retry: the first call failed. *)
Lemma query_stops_at_first_response_witness :
  exists e,
    Scenario.accepting_second 0 (Scenario.request_x Scenario.sonnet_arn None)
    = Fails e.
Proof.
  exact (query_stops_at_first_response Scenario.accepting_second
           Scenario.sonnet_config "What is X?" None [] None true
           _ _ 0 (Scenario.request_x Scenario.sonnet_arn None)
           eq_refl eq_refl ltac:(cbn; lia)).
Defined.

Lemma build_params_invalid_session (self : Config)
    (kb model enhanced s : string) :
  session_id_matches s = false ->
  build_params self kb model enhanced (checked_session_id (Some s))
  = build_params self kb model enhanced (checked_session_id None).
Proof.
  intros H. unfold checked_session_id. rewrite H. cbn [negb].
  destruct (truthy s) eqn:Hs; [reflexivity|].
  unfold build_params. now rewrite Hs.
Qed.

(** A session id that does not match the pattern is never rejected and
    never sent: [query] behaves exactly as if no session id had been
    given, in its outcome and in every request. *)
Theorem query_invalid_session_id (provider : Provider) (self : Config)
    (question s : string) (history : list Exchange)
    (qtype : option string) (adv : bool) :
  session_id_matches s = false ->
  run_query provider self question (Some s) history qtype adv
  = run_query provider self question None history qtype adv.
Proof.
  intros H. unfold run_query, query, query_body, query_checked.
  cbv zeta.
  destruct (otruthy (kb_id self)); [|reflexivity]. cbn [negb].
  unfold try_except at 1 3. f_equal.
  destruct (truthy question); [|reflexivity]. cbn [negb].
  destruct (truthy (strip question)); [|reflexivity]. cbn [negb].
  destruct (kb_id self) as [kb|]; [|reflexivity].
  destruct (usable kb); [|reflexivity].
  destruct (model_id self) as [model|]; [|reflexivity].
  destruct (usable model); [|reflexivity].
  now rewrite !(build_params_invalid_session _ _ _ _ _ H).
Qed.

(** A session id with a space in it. *)
Lemma query_invalid_session_id_witness :
  run_query Scenario.accepting_second Scenario.sonnet_config "What is X?"
    (Some "my session") [] None true
  = run_query Scenario.accepting_second Scenario.sonnet_config "What is X?"
      None [] None true.
Proof.
  exact (query_invalid_session_id Scenario.accepting_second
           Scenario.sonnet_config "What is X?" "my session" [] None true
           eq_refl).
Defined.

Lemma session_rest_iff (s : string) :
  session_rest s = true <->
  exists body,
    all_chars session_char body = true /\ (s = body \/ s = body ++ LF).
Proof.
  induction s as [|c s IH].
  - split; [intros _; exists ""; now split; [|left] | reflexivity].
  - destruct s as [|d s].
    + cbn [session_rest]. split.
      * intros H. apply orb_true_iff in H as [H|H].
        -- exists (String c ""). split; [cbn; now rewrite H | now left].
        -- exists "". split; [reflexivity|]. right.
           apply Nat.eqb_eq in H. unfold LF. cbn [String.append].
           now rewrite <- H, ascii_nat_embedding.
      * intros (body & Hall & [Hs | Hs]).
        -- subst body. cbn in Hall. rewrite andb_true_r in Hall.
           now rewrite Hall.
        -- destruct body as [|b body].
           ++ cbn in Hs. injection Hs as ->. apply orb_true_r.
           ++ cbn in Hs. injection Hs as -> Hs.
              destruct body; discriminate Hs.
    + change (session_rest (String c (String d s)))
        with (session_char c && session_rest (String d s)).
      rewrite andb_true_iff, IH. split.
      * intros (Hc & body & Hall & Hs).
        exists (String c body). split; [cbn; now rewrite Hc, Hall|].
        destruct Hs as [-> | ->]; [now left | now right].
      * intros (body & Hall & Hs).
        destruct body as [|b body].
        -- destruct Hs as [Hs | Hs]; discriminate Hs.
        -- cbn in Hall. apply andb_true_iff in Hall as [Hb Hall].
           destruct Hs as [Hs | Hs]; cbn in Hs; injection Hs as -> Hs.
           ++ split; [exact Hb|]. exists body. split; [exact Hall|now left].
           ++ split; [exact Hb|]. exists body.
              split; [exact Hall|now right].
Qed.

(** The session ids that [query] accepts are exactly the non-empty texts
    made of letters, digits and [. _ : -], optionally followed by one
    final line feed (which the pattern's [$] lets through). *)
Theorem session_id_matches_iff (s : string) :
  session_id_matches s = true <->
  exists body,
    body <> "" /\ all_chars session_char body = true
    /\ (s = body \/ s = body ++ LF).
Proof.
  destruct s as [|c s].
  - split; [discriminate|].
    intros (body & Hne & _ & [H | H]); destruct body; try discriminate;
      congruence.
  - cbn [session_id_matches]. rewrite andb_true_iff, session_rest_iff. split.
    + intros (Hc & body & Hall & Hs). exists (String c body).
      split; [discriminate|]. split; [cbn; now rewrite Hc, Hall|].
      destruct Hs as [-> | ->]; [now left | now right].
    + intros (body & Hne & Hall & Hs).
      destruct body as [|b body]; [congruence|].
      cbn in Hall. apply andb_true_iff in Hall as [Hb Hall].
      destruct Hs as [Hs | Hs]; cbn in Hs; injection Hs as -> Hs;
        (split; [exact Hb|]); exists body; (split; [exact Hall|]);
        [now left | now right].
Qed.

(** A session id with a final line feed passes. *)
Lemma session_id_matches_iff_witness :
  session_id_matches ("sess-1" ++ LF) = true.
Proof.
  apply (session_id_matches_iff ("sess-1" ++ LF)).
  exists "sess-1". split; [discriminate|]. split; [reflexivity|]. now right.
Defined.

Lemma format_sources_fold (cits : list (list RetrievedReference))
    (acc : list Source) :
  fold_left
    (fun srcs retrieved_references =>
       fold_left (fun srcs' ref => append srcs' (source_info ref))
                 retrieved_references srcs)
    cits acc
  = (acc ++ map source_info (concat cits))%list.
Proof.
  revert acc; induction cits as [|refs cits IH]; intros acc; cbn [fold_left].
  - cbn. now rewrite List.app_nil_r.
  - rewrite IH. cbn [concat]. rewrite map_app, List.app_assoc. f_equal.
    clear IH. revert acc; induction refs as [|ref refs IHr]; intros acc.
    + cbn. now rewrite List.app_nil_r.
    + cbn [fold_left map]. rewrite IHr. unfold append.
      now rewrite <- List.app_assoc.
Qed.

(** The sources of a result are the retrieved references of the response
    that was used, one source for each, citation after citation in the
    provider's order; their number is the metadata's count; the answer is
    the provider's text, or the placeholder when there is none. *)
Theorem query_sources_flattened (provider : Provider) (self : Config)
    (question : string) (sid : option string) (history : list Exchange)
    (qtype : option string) (adv : bool) (r : QueryResult)
    (calls : list Params) :
  run_query provider self question sid history qtype adv = (Return r, calls) ->
  exists req resp,
    answered_by provider calls req resp
    /\ sources r = map source_info (concat (citations resp))
    /\ sources_count (metadata r) = List.length (concat (citations resp))
    /\ answer r = get_default (output_text resp) "No answer found".
Proof.
  intros Hrun.
  destruct (query_answered _ _ _ _ _ _ _ _ _ Hrun)
    as (kb & model & req & resp & _ & -> & Hans & _).
  exists req, resp. split; [exact Hans|].
  cbn [normalize sources metadata sources_count answer].
  unfold format_sources. rewrite format_sources_fold. cbn [app].
  split; [reflexivity|]. split; [apply length_map | reflexivity].
Qed.

(** On the response with one citation of one reference. *)
Lemma query_sources_flattened_witness :
  exists r calls,
    run_query (fun _ _ => Responds Scenario.answer_x) Scenario.sonnet_config
      "What is X?" None [] None true = (Return r, calls)
    /\ List.length (sources r) = 1.
Proof.
  eexists. eexists. split; [reflexivity|].
  destruct (query_sources_flattened (fun _ _ => Responds Scenario.answer_x)
              Scenario.sonnet_config "What is X?" None [] None true _ _
              eq_refl)
    as (req & resp & Hans & Hsrc & _).
  destruct Hans as (earlier & _ & Hresp). injection Hresp as <-.
  rewrite Hsrc. reflexivity.
Defined.

Lemma contains_sep_cons_false (sep c : ascii) (s : string) :
  Ascii.eqb c sep = false -> contains (String sep "") s = false ->
  contains (String sep "") (String c s) = false.
Proof.
  intros Hc Hs. cbn [contains startswith]. rewrite Hs, orb_false_r.
  rewrite Ascii.eqb_sym, Hc. reflexivity.
Qed.

(** [s.split(sep)[-1]] is the text after the last [sep]. *)
Lemma split_last_spec (sep : ascii) (s : string) :
  exists dir,
    s = dir ++ split_last sep s
    /\ contains (String sep "") (split_last sep s) = false
    /\ (dir = "" \/ exists d, dir = d ++ String sep "").
Proof.
  induction s as [|c s IH].
  - exists "". repeat split; auto.
  - cbn [split_last].
    destruct (contains (String sep "") s) eqn:Hs.
    + destruct IH as (dir & Heq & Hno & Hdir).
      exists (String c dir). split; [cbn; now rewrite <- Heq|].
      split; [exact Hno|]. right.
      destruct Hdir as [-> | (d & ->)].
      * cbn in Heq. rewrite <- Heq in Hno. congruence.
      * now exists (String c d).
    + destruct (Ascii.eqb c sep) eqn:Hc.
      * apply Ascii.eqb_eq in Hc. subst c.
        exists (String sep ""). split; [reflexivity|]. split; [exact Hs|].
        right. now exists "".
      * exists "". split; [reflexivity|].
        split; [now apply contains_sep_cons_false | now left].
Qed.

(** The key of a source is the part of its storage URI after the last
    slash: the URI is a directory part, empty or ending in a slash,
    followed by the key, and the key has no slash. A reference without a
    URI, or with an empty one, has the empty key. *)
Theorem source_key_is_last_segment (ref : RetrievedReference) :
  (forall uri,
     ref_s3_uri ref = Some uri -> uri <> "" ->
     s3_uri (source_info ref) = uri
     /\ exists dir,
          uri = dir ++ s3_key (source_info ref)
          /\ contains "/" (s3_key (source_info ref)) = false
          /\ (dir = "" \/ ends_with dir "/"))
  /\ (otruthy (ref_s3_uri ref) = false -> s3_key (source_info ref) = "").
Proof.
  split.
  - intros uri Huri Hne. unfold source_info. cbn [s3_uri s3_key].
    rewrite Huri. cbn [otruthy get_default].
    apply truthy_iff in Hne. rewrite Hne. split; [reflexivity|].
    destruct (split_last_spec "/" uri) as (dir & Heq & Hno & Hdir).
    exists dir. split; [exact Heq|]. split; [exact Hno|].
    destruct Hdir as [-> | (d & ->)]; [now left | right; now exists d].
  - intros H. unfold source_info. cbn [s3_key]. now rewrite H.
Qed.

(** On the URI [s3://bucket/documents/x.pdf]. *)
Lemma source_key_is_last_segment_witness :
  s3_key (source_info
            {| ref_content_text := None; ref_content_type := None;
               ref_s3_uri := Some "s3://bucket/documents/x.pdf";
               ref_score := None |})
  = "x.pdf"
  /\ exists dir,
       "s3://bucket/documents/x.pdf"
       = dir ++ s3_key (source_info
                          {| ref_content_text := None;
                             ref_content_type := None;
                             ref_s3_uri := Some "s3://bucket/documents/x.pdf";
                             ref_score := None |}).
Proof.
  split; [reflexivity|].
  destruct (proj1 (source_key_is_last_segment
                     {| ref_content_text := None; ref_content_type := None;
                        ref_s3_uri := Some "s3://bucket/documents/x.pdf";
                        ref_score := None |})
              "s3://bucket/documents/x.pdf" eq_refl ltac:(discriminate))
    as (_ & dir & Hdir & _).
  now exists dir.
Defined.

End QueryBehaviour.

(** ** More facts about [strip], [take] and lengths *)

Module StripFacts.
Import PyStr PyStrFacts QueryVocabulary.

Lemma rstrip_cons (c : ascii) (s : string) :
  rstrip (String c s)
  = match rstrip s with
    | EmptyString => if is_space c then EmptyString else String c EmptyString
    | String d r => String c (String d r)
    end.
Proof. reflexivity. Qed.

Lemma rstrip_idem (s : string) : rstrip (rstrip s) = rstrip s.
Proof.
  induction s as [|c s IH]; [reflexivity|].
  rewrite rstrip_cons. destruct (rstrip s) as [|d r] eqn:Hr.
  - destruct (is_space c) eqn:Hc; [reflexivity|].
    rewrite rstrip_cons. cbn [rstrip]. now rewrite Hc.
  - rewrite rstrip_cons, IH. reflexivity.
Qed.

Lemma lstrip_nonspace (c : ascii) (s : string) :
  is_space c = false -> lstrip (String c s) = String c s.
Proof. intros H. cbn [lstrip]. now rewrite H. Qed.

Lemma rstrip_app_r (x q : string) :
  q <> "" -> rstrip q = q -> rstrip (x ++ q) = x ++ q.
Proof.
  intros Hne Hq. induction x as [|c x IH]; [exact Hq|].
  cbn [String.append]. rewrite rstrip_cons, IH.
  destruct (x ++ q) eqn:E; [|reflexivity].
  destruct x; cbn in E; [congruence | discriminate].
Qed.

Lemma rstrip_strip (s : string) : rstrip (strip s) = strip s.
Proof. unfold strip. apply rstrip_idem. Qed.

(** A text that starts with a character which is not white space and
    ends with a stripped, non-empty text is left alone by [strip]. *)
Lemma strip_app_stripped (c : ascii) (x q : string) :
  is_space c = false -> strip q <> "" ->
  strip (String c (x ++ strip q)) = String c (x ++ strip q).
Proof.
  intros Hc Hq. unfold strip at 1. rewrite (lstrip_nonspace _ _ Hc).
  change (String c (x ++ strip q)) with (String c x ++ strip q).
  apply rstrip_app_r; [exact Hq | apply rstrip_strip].
Qed.

End StripFacts.

(** ** The text and the query type that [query] sends and reports *)

Module QueryRequests.
Import PyStr PromptEngine Bedrock PyStrFacts Spec PromptEngineSpec QuerySpec.
Import QueryVocabulary StripFacts.

(** For a non-empty history the enhanced question starts with the header
    and ends with the question. *)
Lemma enhance_query_frame (q : string) (h : list Exchange) :
  h <> [] -> exists x, enhance_query q h = String "C" (x ++ q).
Proof.
  intros Hh. unfold enhance_query. destruct h as [|e h]; [congruence|].
  rewrite fold_enhance_step. cbn [app].
  pose proof (last_n_nonempty 3 (e :: h) Hh ltac:(lia)) as Hlen.
  destruct (last_n 3 (e :: h)) as [|item rest]; [simpl in Hlen; lia|].
  cbn [flat_map rendered app].
  set (rc := (_ :: _ :: flat_map rendered rest)%list).
  exists ("ontext from previous conversation:" ++ LF ++ join LF rc
          ++ LF ++ LF ++ "Current question: ").
  rewrite !str_app_assoc. reflexivity.
Qed.

(** The question sent to the provider: with advanced prompts, a prompt
    engine and a non-empty history it is the enhanced question, otherwise
    the stripped question. *)
Lemma enhanced_question_of_value (self : Config) (question : string)
    (history : list Exchange) (adv : bool) :
  strip question <> "" ->
  enhanced_question_of self (strip question) history adv
  = if adv && has_prompt_engine self
       && negb (Nat.eqb (List.length history) 0)
    then enhance_query (strip question) history
    else strip question.
Proof.
  intros Hq. unfold enhanced_question_of.
  destruct (adv && has_prompt_engine self
            && negb (Nat.eqb (List.length history) 0)) eqn:Hc; [|reflexivity].
  assert (Hh : history <> []).
  { intros ->. cbn in Hc. now rewrite andb_false_r in Hc. }
  destruct (enhance_query_frame (strip question) history Hh) as [x ->].
  cbn [truthy negb].
  rewrite (strip_app_stripped "C" x question eq_refl Hq). reflexivity.
Qed.

Lemma build_params_input (self : Config) (kb model enhanced : string)
    (sid : option string) :
  input_text (build_params self kb model enhanced sid) = enhanced.
Proof.
  unfold build_params.
  destruct sid as [s|]; [destruct (truthy s)|]; reflexivity.
Qed.

(** [query] sends the same input text in every request of one call, first
    call and retries: the enhanced question when advanced prompts are on,
    a prompt engine is present and the history is not empty, and the
    stripped question otherwise. The text is never empty, the fallback to
    the plain question after enhancement is never taken, and the result
    reports the enhanced question exactly when one was sent. *)
Theorem query_input_text (provider : Provider) (self : Config)
    (question kb model : string) (sid : option string)
    (history : list Exchange) (qtype : option string) (adv : bool) :
  reaches_provider self question kb model ->
  (if adv && has_prompt_engine self
      && negb (Nat.eqb (List.length history) 0)
   then enhance_query (strip question) history
   else strip question) <> ""
  /\ (forall req,
        In req (snd (run_query provider self question sid history qtype adv)) ->
        input_text req
        = if adv && has_prompt_engine self
             && negb (Nat.eqb (List.length history) 0)
          then enhance_query (strip question) history
          else strip question)
  /\ (forall r,
        fst (run_query provider self question sid history qtype adv)
        = Return r ->
        enhanced_question r
        = if adv && has_prompt_engine self
             && negb (Nat.eqb (List.length history) 0)
          then Some (enhance_query (strip question) history)
          else None).
Proof.
  intros Hreach.
  assert (Hq : strip question <> "").
  { destruct Hreach as (_ & _ & _ & _ & _ & H). now apply truthy_iff. }
  pose proof (enhanced_question_of_value self question history adv Hq) as Hv.
  destruct (query_calls provider self question kb model sid history qtype adv
              Hreach) as (k & _ & Hcalls & Hret).
  split; [|split].
  - destruct (adv && has_prompt_engine self
              && negb (Nat.eqb (List.length history) 0)) eqn:Hc; [|exact Hq].
    assert (Hh : history <> []).
    { intros ->. cbn in Hc. now rewrite andb_false_r in Hc. }
    destruct (enhance_query_frame (strip question) history Hh) as [x ->].
    discriminate.
  - intros req Hin. rewrite Hcalls in Hin. rewrite <- Hv.
    destruct Hin as [<- | Hin]; [apply build_params_input|].
    apply in_map_iff in Hin as (a & <- & _). apply build_params_input.
  - intros r Hr. destruct (Hret r Hr) as (resp & -> & _).
    cbn [normalize enhanced_question]. rewrite Hv.
    destruct (adv && has_prompt_engine self
              && negb (Nat.eqb (List.length history) 0)) eqn:Hc.
    + assert (Hh : history <> []).
      { intros ->. cbn in Hc. now rewrite andb_false_r in Hc. }
      destruct (enhance_query_frame (strip question) history Hh) as [x Hx].
      assert (Hne : (enhance_query (strip question) history
                     =? strip question)%string = false).
      { apply String.eqb_neq. intros Heq. rewrite Hx in Heq.
        apply (f_equal String.length) in Heq.
        cbn [String.length] in Heq. rewrite str_length_app in Heq. lia. }
      now rewrite Hne.
    + now rewrite String.eqb_refl.
Qed.

(** With one earlier exchange the enhanced question is sent and
    reported. *)
Lemma query_input_text_witness :
  exists r,
    fst (run_query (fun _ _ => Responds Scenario.answer_x)
           Scenario.sonnet_config "  And Y?  " None
           [{| ex_question := Some "What is X?";
               ex_answer := Some "X is a thing." |}] None true)
    = Return r
    /\ enhanced_question r
       = Some ("Context from previous conversation:" ++ LF
               ++ "Previous question: What is X?" ++ LF
               ++ "Previous answer: X is a thing...." ++ LF ++ LF
               ++ "Current question: And Y?").
Proof.
  eexists. split; [reflexivity|].
  assert (Hreach : reaches_provider Scenario.sonnet_config "  And Y?  "
                     "R6TD9J5RHA" "anthropic.claude-3-5-sonnet-20241022-v2:0")
    by (repeat split; reflexivity).
  destruct (query_input_text (fun _ _ => Responds Scenario.answer_x)
              Scenario.sonnet_config "  And Y?  " _ _ None
              [{| ex_question := Some "What is X?";
                  ex_answer := Some "X is a thing." |}] None true Hreach)
    as (_ & _ & H).
  rewrite (H _ eq_refl). reflexivity.
Defined.

Lemma detect_query_type_truthy (q : string) :
  truthy (detect_query_type q) = true.
Proof.
  unfold detect_query_type.
  destruct (any_in technical_keywords (lower q)); [reflexivity|].
  destruct (any_in summary_keywords (lower q)); [reflexivity|].
  destruct (any_in comparison_keywords (lower q)); reflexivity.
Qed.

(** The query type of a result: a non-empty type given by the caller is
    reported as it is, whether or not it is one of the four known names;
    otherwise the type detected on the stripped question when advanced
    prompts are on and a prompt engine is present; otherwise [general]. *)
Theorem query_type_reported (provider : Provider) (self : Config)
    (question : string) (sid : option string) (history : list Exchange)
    (qtype : option string) (adv : bool) (r : QueryResult)
    (calls : list Params) :
  run_query provider self question sid history qtype adv = (Return r, calls) ->
  query_type r
  = if otruthy qtype then get_default qtype ""
    else if adv && has_prompt_engine self
         then detect_query_type (strip question)
         else "general".
Proof.
  intros Hrun.
  destruct (query_answered _ _ _ _ _ _ _ _ _ Hrun)
    as (kb & model & req & resp & _ & -> & _).
  cbn [normalize query_type]. unfold query_type_of, por.
  destruct (otruthy qtype) eqn:Hq; cbn [negb andb].
  - rewrite Hq. now destruct qtype.
  - destruct (adv && has_prompt_engine self) eqn:Hc.
    + cbn [otruthy]. now rewrite detect_query_type_truthy.
    + rewrite Hq. reflexivity.
Qed.

(** A caller's type outside the four names is reported unchanged. *)
Lemma query_type_reported_witness :
  exists r calls,
    run_query (fun _ _ => Responds Scenario.answer_x) Scenario.sonnet_config
      "How does X work?" None [] (Some "poetry") true = (Return r, calls)
    /\ query_type r = "poetry".
Proof.
  eexists. eexists. split; [reflexivity|].
  exact (query_type_reported (fun _ _ => Responds Scenario.answer_x)
           Scenario.sonnet_config "How does X work?" None []
           (Some "poetry") true _ _ eq_refl).
Defined.

End QueryRequests.

(** ** Stripping a text of any code points *)

Module TextFacts.
Import PyText.

Lemma text_rstrip_cons (c : N) (s : Text) :
  rstrip (c :: s)
  = match rstrip s with
    | [] => if is_space c then [] else [c]
    | d :: r => c :: d :: r
    end.
Proof. reflexivity. Qed.

Lemma text_rstrip_idem (s : Text) : rstrip (rstrip s) = rstrip s.
Proof.
  induction s as [|c s IH]; [reflexivity|].
  rewrite text_rstrip_cons. destruct (rstrip s) as [|d r] eqn:Hr.
  - destruct (is_space c) eqn:Hc; [reflexivity|].
    rewrite text_rstrip_cons. cbn [rstrip]. now rewrite Hc.
  - rewrite text_rstrip_cons, IH. reflexivity.
Qed.

Lemma lstrip_head (s : Text) :
  lstrip s = [] \/ exists c r, lstrip s = c :: r /\ is_space c = false.
Proof.
  induction s as [|c s IH]; [now left|].
  cbn [lstrip]. destruct (is_space c) eqn:Hc; [exact IH|].
  right. now exists c, s.
Qed.

Lemma text_rstrip_cons_nonspace (c : N) (s : Text) :
  is_space c = false -> exists r, rstrip (c :: s) = c :: r.
Proof.
  intros Hc. rewrite text_rstrip_cons, Hc.
  destruct (rstrip s) as [|d r]; eexists; reflexivity.
Qed.

(** [strip] is idempotent. *)
Lemma strip_idem (s : Text) : strip (strip s) = strip s.
Proof.
  unfold strip. destruct (lstrip_head s) as [-> | (c & r & -> & Hc)];
    [reflexivity|].
  destruct (text_rstrip_cons_nonspace c r Hc) as [r' Hr'].
  rewrite Hr'. cbn [lstrip]. rewrite Hc, <- Hr'. apply text_rstrip_idem.
Qed.

Lemma length_lstrip (s : Text) : List.length (lstrip s) <= List.length s.
Proof.
  induction s as [|c s IH]; cbn [lstrip List.length]; [lia|].
  destruct (is_space c); cbn [List.length]; lia.
Qed.

Lemma length_rstrip (s : Text) : List.length (rstrip s) <= List.length s.
Proof.
  induction s as [|c s IH]; [cbn; lia|].
  rewrite text_rstrip_cons.
  destruct (rstrip s); [destruct (is_space c)|]; cbn [List.length] in *; lia.
Qed.

Lemma length_strip (s : Text) : List.length (strip s) <= List.length s.
Proof.
  unfold strip. pose proof (length_rstrip (lstrip s)).
  pose proof (length_lstrip s). lia.
Qed.

Lemma forallb_lstrip (p : N -> bool) (s : Text) :
  forallb p s = true -> forallb p (lstrip s) = true.
Proof.
  induction s as [|c s IH]; [trivial|]. cbn [forallb lstrip]. intros H.
  apply andb_true_iff in H as [Hc Hs].
  destruct (is_space c); [now apply IH|]. cbn [forallb]. now rewrite Hc, Hs.
Qed.

Lemma forallb_rstrip (p : N -> bool) (s : Text) :
  forallb p s = true -> forallb p (rstrip s) = true.
Proof.
  induction s as [|c s IH]; [trivial|]. cbn [forallb]. intros H.
  apply andb_true_iff in H as [Hc Hs]. specialize (IH Hs).
  rewrite text_rstrip_cons.
  destruct (rstrip s); [destruct (is_space c)|]; cbn [forallb] in *;
    try reflexivity; now rewrite Hc, ?IH.
Qed.

Lemma forallb_strip (p : N -> bool) (s : Text) :
  forallb p s = true -> forallb p (strip s) = true.
Proof.
  intros H. unfold strip. now apply forallb_rstrip, forallb_lstrip.
Qed.

Lemma forallb_firstn (p : N -> bool) (n : nat) (s : Text) :
  forallb p s = true -> forallb p (firstn n s) = true.
Proof.
  revert s; induction n as [|n IH]; intros [|c s]; cbn [firstn forallb];
    trivial.
  intros H. apply andb_true_iff in H as [Hc Hs]. now rewrite Hc, IH.
Qed.

(** On the code points below 256 the white space is that of [PyStr], and
    stripping commutes with [of_string]. *)
Lemma is_space_of_ascii (c : ascii) :
  is_space (N_of_ascii c) = PyStr.is_space c.
Proof. destruct c as [[] [] [] [] [] [] [] []]; reflexivity. Qed.

Lemma lstrip_of_string (s : string) :
  lstrip (of_string s) = of_string (PyStr.lstrip s).
Proof.
  induction s as [|c s IH]; [reflexivity|].
  change (of_string (String c s)) with (N_of_ascii c :: of_string s).
  cbn [lstrip PyStr.lstrip]. rewrite is_space_of_ascii.
  destruct (PyStr.is_space c); [exact IH | reflexivity].
Qed.

Lemma rstrip_of_string (s : string) :
  rstrip (of_string s) = of_string (PyStr.rstrip s).
Proof.
  induction s as [|c s IH]; [reflexivity|].
  change (of_string (String c s)) with (N_of_ascii c :: of_string s).
  rewrite text_rstrip_cons, IH, is_space_of_ascii. cbn [PyStr.rstrip].
  destruct (PyStr.rstrip s); [destruct (PyStr.is_space c)|]; reflexivity.
Qed.

Lemma strip_of_string (s : string) :
  strip (of_string s) = of_string (PyStr.strip s).
Proof.
  unfold strip, PyStr.strip. now rewrite lstrip_of_string, rstrip_of_string.
Qed.

Lemma truthy_of_string (s : string) :
  truthy (of_string s) = PyStr.truthy s.
Proof. now destruct s. Qed.

End TextFacts.

(** ** The input checks of [src/api/utils.py] *)

Module ApiUtilsSpec.
Import PyStr PromptEngine Bedrock PyStrFacts Spec PromptEngineSpec.
Import QueryVocabulary ApiUtils ApiVocabulary.

Lemma forallb_remove_nul (s : PyText.Text) :
  forallb not_nul (remove_nul s) = true.
Proof.
  apply forallb_forall. intros x Hx. unfold remove_nul in Hx.
  apply filter_In in Hx as [_ Hx]. exact Hx.
Qed.

Lemma remove_nul_id (s : PyText.Text) :
  forallb not_nul s = true -> remove_nul s = s.
Proof.
  induction s as [|c s IH]; [reflexivity|]. cbn [forallb]. intros H.
  apply andb_true_iff in H as [Hc Hs]. unfold remove_nul in *.
  cbn [filter]. unfold not_nul in Hc. now rewrite Hc, IH.
Qed.

Lemma length_remove_nul (s : PyText.Text) :
  List.length (remove_nul s) <= List.length s.
Proof.
  induction s as [|c s IH]; [cbn; lia|]. unfold remove_nul in *.
  cbn [filter]. destruct (negb (c =? 0)%N); cbn [List.length]; lia.
Qed.

Lemma length_slice_to (stop : Z) (s : PyText.Text) :
  (Z.of_nat (List.length (PyText.slice_to stop s))
   <= Z.max 0 (if stop <? 0 then Z.of_nat (List.length s) + stop else stop))%Z.
Proof.
  unfold PyText.slice_to. rewrite length_firstn.
  destruct (stop <? 0)%Z; lia.
Qed.

Lemma sanitize_input_facts (text : PyText.Text) (max_length : Z) :
  forallb not_nul (sanitize_input text max_length) = true
  /\ trimmed (sanitize_input text max_length)
  /\ ((0 <= max_length)%Z ->
      (Z.of_nat (List.length (sanitize_input text max_length))
       <= max_length)%Z)
  /\ ((max_length < 0)%Z ->
      (Z.of_nat (List.length (sanitize_input text max_length))
       <= Z.max 0 (Z.of_nat (List.length text) + max_length))%Z).
Proof.
  unfold sanitize_input, trimmed. destruct (PyText.truthy text); cbn [negb];
    [|repeat split; cbn [List.length]; lia].
  pose proof (length_remove_nul text) as Hnul.
  pose proof (length_slice_to max_length (remove_nul text)) as Hslice.
  set (t := remove_nul text) in *.
  set (cut := if (max_length <? Z.of_nat (List.length t))%Z
              then PyText.slice_to max_length t else t).
  pose proof (TextFacts.length_strip cut) as Hstrip.
  split; [|split; [|split]].
  - apply TextFacts.forallb_strip. subst cut.
    destruct (max_length <? Z.of_nat (List.length t))%Z;
      [apply TextFacts.forallb_firstn|]; apply forallb_remove_nul.
  - apply TextFacts.strip_idem.
  - intros Hn. subst cut.
    destruct (max_length <? Z.of_nat (List.length t))%Z eqn:Hl.
    + destruct (max_length <? 0)%Z eqn:Hneg; lia.
    + apply Z.ltb_ge in Hl. lia.
  - intros Hn. subst cut.
    assert (Hl : (max_length <? Z.of_nat (List.length t))%Z = true)
      by (apply Z.ltb_lt; lia).
    rewrite Hl in *.
    assert (Hneg : (max_length <? 0)%Z = true) by (apply Z.ltb_lt; lia).
    rewrite Hneg in Hslice. lia.
Qed.

(** Whatever the text and whatever the integer [max_length], the text
    returned by [sanitize_input] has no NUL character and no white space
    at either end. It has at most [max_length] code points when
    [max_length] is not negative; a negative [max_length] makes the slice
    drop that many code points from the end instead, so that the result
    is shorter than the input by at least that many. *)
Theorem sanitize_input_clean (text : PyText.Text) (max_length : Z) :
  forallb not_nul (sanitize_input text max_length) = true
  /\ trimmed (sanitize_input text max_length)
  /\ ((0 <= max_length)%Z ->
      (Z.of_nat (List.length (sanitize_input text max_length))
       <= max_length)%Z)
  /\ ((max_length < 0)%Z ->
      (Z.of_nat (List.length (sanitize_input text max_length))
       <= Z.max 0 (Z.of_nat (List.length text) + max_length))%Z).
Proof. exact (sanitize_input_facts text max_length). Qed.

(** The text [ a b c d ] with a NUL after [b], cut at 3 and cut at -3:
    [a b] in both cases. *)
Lemma sanitize_input_clean_witness :
  sanitize_input [32; 97; 98; 0; 32; 99; 100; 32]%N 3 = [97; 98]%N
  /\ (Z.of_nat (List.length (sanitize_input [32; 97; 98; 0; 32; 99; 100; 32]%N 3))
      <= 3)%Z
  /\ sanitize_input [32; 97; 98; 0; 32; 99; 100; 32]%N (-3) = [97; 98]%N.
Proof.
  split; [reflexivity|]. split; [|reflexivity].
  destruct (sanitize_input_clean [32; 97; 98; 0; 32; 99; 100; 32]%N 3)
    as (_ & _ & Hlen & _).
  apply Hlen. lia.
Defined.

(** With a [max_length] that is not negative, as with the default of 5000,
    [sanitize_input] is idempotent: sanitising a sanitised text changes
    nothing. With a negative [max_length] it is not: each pass cuts code
    points off the end again, so sanitising a sanitised text that is not
    empty gives a strictly shorter text. *)
Theorem sanitize_input_idempotent (text : PyText.Text) (max_length : Z) :
  ((0 <= max_length)%Z ->
   sanitize_input (sanitize_input text max_length) max_length
   = sanitize_input text max_length)
  /\ ((max_length < 0)%Z ->
      sanitize_input text max_length <> [] ->
      List.length (sanitize_input (sanitize_input text max_length) max_length)
      < List.length (sanitize_input text max_length)).
Proof.
  destruct (sanitize_input_facts text max_length)
    as (Hnul & Hstrip & Hlen & _).
  set (out := sanitize_input text max_length) in *.
  split.
  - intros Hn. specialize (Hlen Hn).
    unfold sanitize_input at 1. destruct (PyText.truthy out) eqn:Ht;
      cbn [negb].
    + rewrite (remove_nul_id _ Hnul).
      assert (Hl : (max_length <? Z.of_nat (List.length out))%Z = false)
        by (apply Z.ltb_ge; lia).
      rewrite Hl. exact Hstrip.
    + destruct out; [reflexivity | discriminate Ht].
  - intros Hn Hne.
    destruct (sanitize_input_facts out max_length) as (_ & _ & _ & Hshort).
    specialize (Hshort Hn).
    assert (0 < List.length out) by (destruct out; [congruence | cbn; lia]).
    lia.
Qed.

(** A second pass at the default limit changes nothing; at the limit -1
    the first pass turns [abcdef] into [abcde] and the second one into
    [abcd]. *)
Lemma sanitize_input_idempotent_witness :
  sanitize_input (sanitize_input [32; 97; 98; 0; 32; 99; 100; 32]%N 5000) 5000
  = sanitize_input [32; 97; 98; 0; 32; 99; 100; 32]%N 5000
  /\ sanitize_input [97; 98; 99; 100; 101; 102]%N (-1)
     = [97; 98; 99; 100; 101]%N
  /\ List.length
       (sanitize_input (sanitize_input [97; 98; 99; 100; 101; 102]%N (-1))
          (-1))
     < List.length (sanitize_input [97; 98; 99; 100; 101; 102]%N (-1)).
Proof.
  split; [|split; [reflexivity|]].
  - apply (proj1 (sanitize_input_idempotent
                    [32; 97; 98; 0; 32; 99; 100; 32]%N 5000)).
    lia.
  - apply (proj2 (sanitize_input_idempotent
                    [97; 98; 99; 100; 101; 102]%N (-1)));
      [lia | discriminate].
Defined.

(** On the route of [/api/ask] the question is sanitised before it is
    validated, so the length limit of [validate_question] can never be the
    reason of a refusal there: whatever the raw text, the answer is never
    [Question is too long]. *)
Theorem validate_after_sanitize_never_too_long (text : PyText.Text) :
  snd (validate_question (sanitize_input text 5000))
  <> "Question is too long (max 5000 characters)".
Proof.
  destruct (sanitize_input_facts text 5000) as (_ & Hstrip & Hlen & _).
  specialize (Hlen ltac:(lia)).
  set (q := sanitize_input text 5000) in *.
  unfold validate_question.
  destruct (negb (PyText.truthy q) || negb (PyText.truthy (PyText.strip q)));
    [discriminate|].
  assert (Hl : Nat.ltb 5000 (List.length (PyText.strip q)) = false).
  { apply Nat.ltb_ge. rewrite Hstrip. lia. }
  rewrite Hl.
  destruct (Nat.ltb (List.length (PyText.strip q)) 3); [discriminate|].
  destruct (existsb _ suspicious_patterns); discriminate.
Qed.

Lemma match_literal_iff (pattern : string) (s : PyText.Text) :
  match_literal pattern s = true <->
  exists u b, s = (u ++ b)%list /\ matches_ignorecase pattern u.
Proof.
  unfold matches_ignorecase. revert s.
  induction pattern as [|p pattern IH]; intros s.
  - split; [intros _ | reflexivity]. exists [], s. split; [reflexivity|].
    constructor.
  - cbn [list_ascii_of_string]. destruct s as [|c s].
    + split; [discriminate|]. intros (u & b & Hs & Hu).
      inversion Hu; subst. discriminate Hs.
    + cbn [match_literal]. rewrite andb_true_iff, IH. split.
      * intros (Hc & u & b & -> & Hu). exists (c :: u), b.
        split; [reflexivity | now constructor].
      * intros (u & b & Hs & Hu). inversion Hu as [|p' c' l u' Hc Hu']; subst.
        cbn in Hs. injection Hs as -> ->. split; [exact Hc|].
        now exists u', b.
Qed.

(** The search for a literal succeeds exactly on the texts in which the
    literal occurs up to letter case. *)
Lemma search_literal_iff (pattern : string) (s : PyText.Text) :
  search_literal pattern s = true <-> occurs_ignorecase pattern s.
Proof.
  unfold occurs_ignorecase. induction s as [|c s IH].
  - cbn [search_literal]. rewrite orb_false_r, match_literal_iff. split.
    + intros (u & b & Hs & Hu). now exists [], u, b.
    + intros (a & u & b & Hs & Hu). destruct a; [|discriminate Hs].
      now exists u, b.
  - cbn [search_literal]. rewrite orb_true_iff, match_literal_iff, IH. split.
    + intros [(u & b & Hs & Hu) | (a & u & b & -> & Hu)].
      * now exists [], u, b.
      * now exists (c :: a), u, b.
    + intros (a & u & b & Hs & Hu). destruct a as [|c' a].
      * left. now exists u, b.
      * right. cbn in Hs. injection Hs as -> ->. now exists a, u, b.
Qed.

Lemma skip_while_split (p : N -> bool) (s : PyText.Text) :
  exists pre, s = (pre ++ skip_while p s)%list /\ forallb p pre = true.
Proof.
  induction s as [|c s IH].
  - now exists [].
  - cbn [skip_while]. destruct (p c) eqn:Hc.
    + destruct IH as (pre & Heq & Hall). exists (c :: pre).
      split; [cbn; now rewrite <- Heq | cbn; now rewrite Hc, Hall].
    + now exists [].
Qed.

Lemma skip_while_app (p : N -> bool) (pre rest : PyText.Text) :
  forallb p pre = true ->
  (rest = [] \/ exists c r, rest = c :: r /\ p c = false) ->
  skip_while p (pre ++ rest)%list = rest.
Proof.
  intros Hall Hrest. induction pre as [|c pre IH].
  - destruct Hrest as [-> | (c & r & -> & Hc)]; [reflexivity|].
    cbn. now rewrite Hc.
  - cbn in Hall. apply andb_true_iff in Hall as [Hc Hall].
    cbn. rewrite Hc. now apply IH.
Qed.

Lemma space_not_word (c : N) :
  PyText.is_space c = true -> PyText.is_word c = false.
Proof.
  unfold PyText.is_space. intros H.
  apply existsb_exists in H as (x & Hin & Heq).
  apply N.eqb_eq in Heq. subst x. unfold PyText.space_chars in Hin.
  cbn [In] in Hin.
  repeat (destruct Hin as [<- | Hin]; [vm_compute; reflexivity|]).
  contradiction.
Qed.

Lemma ignorecase_eq_equals (c : N) :
  PyText.ignorecase_eq "=" c = true <-> c = 61%N.
Proof.
  unfold PyText.ignorecase_eq.
  change (N_of_ascii "=") with 61%N. cbv iota beta zeta.
  change ((65 <=? 61)%N && (61 <=? 90)%N) with false. cbv iota.
  change ((97 <=? 61)%N && (61 <=? 122)%N) with false.
  change (61 =? 115)%N with false. change (61 =? 105)%N with false.
  change (61 =? 107)%N with false. cbn [andb].
  rewrite !orb_false_r. apply N.eqb_eq.
Qed.

(** The anchored match, as a shape of the text. *)
Lemma on_handler_here_iff (s : PyText.Text) :
  on_handler_here s = true <->
  exists o n w sp b,
    s = (o :: n :: w ++ sp ++ 61%N :: b)%list
    /\ PyText.ignorecase_eq "o" o = true
    /\ PyText.ignorecase_eq "n" n = true
    /\ w <> [] /\ forallb PyText.is_word w = true
    /\ forallb PyText.is_space sp = true.
Proof.
  split.
  - destruct s as [|o [|n [|w0 rest]]]; try discriminate.
    cbn [on_handler_here]. intros H.
    apply andb_true_iff in H as [H Heq].
    apply andb_true_iff in H as [H Hw].
    apply andb_true_iff in H as [Ho Hn].
    destruct (skip_while_split PyText.is_word rest) as (w' & Hrest & Hw').
    destruct (skip_while_split PyText.is_space
                (skip_while PyText.is_word rest)) as (sp & Hr1 & Hsp).
    destruct (skip_while PyText.is_space (skip_while PyText.is_word rest))
      as [|c b] eqn:Hskip; [discriminate Heq|].
    apply ignorecase_eq_equals in Heq. subst c.
    exists o, n, (w0 :: w'), sp, b. split.
    + rewrite Hrest at 1. rewrite Hr1 at 1. reflexivity.
    + repeat split; try assumption; try discriminate.
      cbn [forallb]. now rewrite Hw, Hw'.
  - intros (o & n & w & sp & b & -> & Ho & Hn & Hne & Hw & Hsp).
    destruct w as [|w0 w']; [congruence|].
    cbn [forallb] in Hw. apply andb_true_iff in Hw as [Hw0 Hw'].
    cbn [app on_handler_here].
    rewrite Ho, Hn, Hw0. cbn [andb].
    assert (Heq : PyText.is_word 61 = false) by (vm_compute; reflexivity).
    assert (Heqs : PyText.is_space 61 = false) by (vm_compute; reflexivity).
    assert (Hword : skip_while PyText.is_word (w' ++ sp ++ 61%N :: b)%list
                    = (sp ++ 61%N :: b)%list).
    { apply skip_while_app; [exact Hw'|].
      destruct sp as [|s0 sp'].
      - right. now exists 61%N, b.
      - right. exists s0, (sp' ++ 61%N :: b)%list. split; [reflexivity|].
        cbn [forallb] in Hsp. apply andb_true_iff in Hsp as [Hs0 _].
        now apply space_not_word. }
    rewrite Hword.
    rewrite (skip_while_app PyText.is_space sp (61%N :: b) Hsp).
    + now apply ignorecase_eq_equals.
    + right. now exists 61%N, b.
Qed.

(** The search for [on\w+\s*=] succeeds exactly on the texts that hold
    such a run somewhere. *)
Lemma search_on_handler_iff (s : PyText.Text) :
  search_on_handler s = true <-> has_on_handler s.
Proof.
  unfold has_on_handler. induction s as [|c s IH].
  - split; [discriminate|].
    intros (a & o & n & w & sp & b & H & _). destruct a; discriminate H.
  - change (search_on_handler (c :: s))
      with (on_handler_here (c :: s) || search_on_handler s).
    rewrite orb_true_iff, on_handler_here_iff, IH. split.
    + intros [(o & n & w & sp & b & H) | (a & o & n & w & sp & b & -> & H)].
      * now exists [], o, n, w, sp, b.
      * now exists (c :: a), o, n, w, sp, b.
    + intros (a & o & n & w & sp & b & Heq & H).
      destruct a as [|c' a].
      * left. now exists o, n, w, sp, b.
      * right. cbn in Heq. injection Heq as -> ->.
        now exists a, o, n, w, sp, b.
Qed.

(** [validate_question] accepts a question exactly when, once stripped,
    it has between 3 and 5000 code points and holds neither [<script] nor
    [javascript:] nor a run of [on], word characters, optional white space
    and [=], each up to the letter case of [re.IGNORECASE]. That letter
    case reaches beyond ASCII: [<script] is also found when it is written
    with a long s. And a harmless question with a word such as
    [condition] before an equals sign is refused. *)
Theorem validate_question_accepts_iff (question : PyText.Text) :
  validate_question question = (true, "") <->
  3 <= List.length (PyText.strip question) <= 5000
  /\ ~ occurs_ignorecase "<script" (PyText.strip question)
  /\ ~ occurs_ignorecase "javascript:" (PyText.strip question)
  /\ ~ has_on_handler (PyText.strip question).
Proof.
  unfold validate_question.
  destruct (PyText.truthy question) eqn:Hq; cbn [negb orb].
  2:{ split; [discriminate|]. intros ((H & _) & _).
      destruct question; [cbn in H; lia | discriminate Hq]. }
  destruct (PyText.truthy (PyText.strip question)) eqn:Hs; cbn [negb].
  2:{ split; [discriminate|]. intros ((H & _) & _).
      destruct (PyText.strip question); [cbn in H; lia | discriminate Hs]. }
  destruct (Nat.ltb 5000 (List.length (PyText.strip question))) eqn:Hlong.
  { split; [discriminate|]. intros ((_ & H) & _).
    apply Nat.ltb_lt in Hlong. lia. }
  destruct (Nat.ltb (List.length (PyText.strip question)) 3) eqn:Hshort.
  { split; [discriminate|]. intros ((H & _) & _).
    apply Nat.ltb_lt in Hshort. lia. }
  apply Nat.ltb_ge in Hlong, Hshort.
  cbn [existsb suspicious_patterns]. rewrite orb_false_r.
  destruct (search_literal "<script" (PyText.strip question)) eqn:H1.
  { split; [discriminate|]. intros (_ & H & _).
    now apply search_literal_iff in H1. }
  destruct (search_literal "javascript:" (PyText.strip question)) eqn:H2.
  { split; [discriminate|]. intros (_ & _ & H & _).
    now apply search_literal_iff in H2. }
  destruct (search_on_handler (PyText.strip question)) eqn:H3.
  { split; [discriminate|]. intros (_ & _ & _ & H).
    now apply search_on_handler_iff in H3. }
  cbn [orb]. split; [intros _ | reflexivity].
  split; [lia|]. split; [|split]; intros H.
  - apply search_literal_iff in H. congruence.
  - apply search_literal_iff in H. congruence.
  - apply search_on_handler_iff in H. congruence.
Qed.

(** [What is X?] passes. [condition = true] is refused although it is
    harmless. [<script>] written with a long s (code point 383) is
    refused. *)
Lemma validate_question_accepts_iff_witness :
  validate_question (PyText.of_string "What is X?") = (true, "")
  /\ validate_question (PyText.of_string "condition = true")
     = (false, "Question contains invalid content")
  /\ has_on_handler (PyText.of_string "condition = true")
  /\ validate_question [60; 383; 99; 114; 105; 112; 116; 62]%N
     = (false, "Question contains invalid content")
  /\ occurs_ignorecase "<script" [60; 383; 99; 114; 105; 112; 116; 62]%N.
Proof.
  split; [|split; [|split; [|split]]].
  - apply (validate_question_accepts_iff (PyText.of_string "What is X?")).
    assert (Hlen : List.length (PyText.strip (PyText.of_string "What is X?"))
                   = 10) by reflexivity.
    split; [rewrite Hlen; lia|].
    split; [|split]; intros H;
      [apply search_literal_iff in H | apply search_literal_iff in H
       | apply search_on_handler_iff in H];
      vm_compute in H; discriminate H.
  - vm_compute. reflexivity.
  - exists (PyText.of_string "c"), 111%N, 110%N, (PyText.of_string "dition"),
      [32%N], (PyText.of_string " true").
    repeat split; try (vm_compute; reflexivity). discriminate.
  - vm_compute. reflexivity.
  - exists [], [60; 383; 99; 114; 105; 112; 116]%N, [62%N].
    split; [reflexivity|]. unfold matches_ignorecase.
    cbn [list_ascii_of_string].
    repeat (constructor; [vm_compute; reflexivity|]). constructor.
Defined.

(** A question that [validate_question] accepts passes the question
    checks of [query] as well: with a knowledge-base id and a model id
    configured, [query] gets as far as the provider and sends it the first
    request. *)
Theorem validated_question_reaches_provider (provider : Provider)
    (self : Config) (question kb model : string) (sid : option string)
    (history : list Exchange) (qtype : option string) (adv : bool) :
  validate_question (PyText.of_string question) = (true, "") ->
  kb_id self = Some kb -> usable kb = true ->
  model_id self = Some model -> usable model = true ->
  exists later,
    snd (run_query provider self question sid history qtype adv)
    = first_request self kb model question sid history adv :: later.
Proof.
  intros Hv Hkb Hukb Hmodel Humodel. unfold validate_question in Hv.
  rewrite TextFacts.strip_of_string, !TextFacts.truthy_of_string in Hv.
  destruct (truthy question) eqn:Hq; cbn [negb orb] in Hv;
    [|discriminate Hv].
  destruct (truthy (strip question)) eqn:Hs; cbn [negb] in Hv;
    [|discriminate Hv].
  assert (Hreach : reaches_provider self question kb model)
    by (repeat split; assumption).
  destruct (QuerySpec.query_calls provider self question kb model sid history
              qtype adv Hreach) as (k & _ & Hcalls & _).
  eexists. exact Hcalls.
Qed.

(** With the configuration of the scenarios, whatever the provider then
    answers: here it rejects the credentials. *)
Lemma validated_question_reaches_provider_witness :
  exists later,
    snd (run_query Scenario.rejecting_credentials Scenario.sonnet_config
           "What is X?" None [] None true)
    = Scenario.request_x Scenario.sonnet_arn None :: later.
Proof.
  exact (validated_question_reaches_provider Scenario.rejecting_credentials
           Scenario.sonnet_config "What is X?" "R6TD9J5RHA"
           "anthropic.claude-3-5-sonnet-20241022-v2:0" None [] None true
           eq_refl eq_refl eq_refl eq_refl eq_refl).
Defined.

Lemma in_list_In (x : string) (l : list string) :
  in_list x l = true <-> In x l.
Proof.
  unfold in_list. rewrite existsb_exists. split.
  - intros (y & Hin & H). apply String.eqb_eq in H. now subst.
  - intros H. exists x. split; [exact H | apply String.eqb_refl].
Qed.

Lemma split_last_app (sep : ascii) (stem ext : string) :
  contains (String sep "") ext = false ->
  split_last sep (stem ++ String sep ext) = ext.
Proof.
  intros Hext. induction stem as [|c stem IH].
  - cbn [String.append split_last]. rewrite Hext.
    now rewrite Ascii.eqb_refl.
  - cbn [String.append split_last].
    assert (H : contains (String sep "") (stem ++ String sep ext) = true)
      by apply (contains_app stem (String sep "") ext).
    now rewrite H.
Qed.

(** A file name is allowed exactly when it is some stem, a dot, and an
    extension without dot that is, in lower case, one of the allowed
    extensions. Only the text after the last dot counts, in any letter
    case, and the stem may be empty. *)
Theorem allowed_file_iff (filename : string) (exts : option (list string)) :
  allowed_file filename exts = true <->
  exists stem ext,
    filename = stem ++ "." ++ ext
    /\ contains "." ext = false
    /\ In (lower ext)
          (match exts with
           | None => default_allowed_extensions
           | Some l => l
           end).
Proof.
  unfold allowed_file. split.
  - destruct (truthy filename); cbn [negb orb]; [|discriminate].
    destruct (contains "." filename) eqn:Hdot; cbn [negb]; [|discriminate].
    intros H. apply in_list_In in H.
    destruct (QueryBehaviour.split_last_spec "." filename)
      as (dir & Heq & Hno & Hdir).
    destruct Hdir as [-> | (stem & ->)].
    + cbn in Heq. rewrite <- Heq in Hno. congruence.
    + exists stem, (split_last "." filename).
      split; [|split; assumption].
      rewrite Heq at 1. now rewrite str_app_assoc.
  - intros (stem & ext & -> & Hext & Hin).
    change (stem ++ "." ++ ext) with (stem ++ String "." ext).
    assert (Ht : truthy (stem ++ String "." ext) = true)
      by (destruct stem; reflexivity).
    assert (Hdot : contains "." (stem ++ String "." ext) = true)
      by apply (contains_app stem "." ext).
    rewrite Ht, Hdot. cbn [negb orb].
    rewrite (split_last_app "." stem ext Hext). now apply in_list_In.
Qed.

(** An upper-case extension passes, only the last extension counts, a
    name that is an extension alone passes, a name without dot does not. *)
Lemma allowed_file_iff_witness :
  allowed_file "report.PDF" None = true
  /\ allowed_file "archive.tar.gz" None = false
  /\ allowed_file ".pdf" None = true
  /\ allowed_file "pdf" None = false.
Proof.
  split; [|split; [|split]].
  - apply (allowed_file_iff "report.PDF" None).
    exists "report", "PDF". repeat split; try reflexivity. simpl. auto.
  - reflexivity.
  - apply (allowed_file_iff ".pdf" None).
    exists "", "pdf". repeat split; try reflexivity. simpl. auto.
  - reflexivity.
Defined.

End ApiUtilsSpec.

(** ** The pass-through operations of [src/kb/bedrock.py] *)

Module KnowledgeBaseOpsSpec.
Import PyStr PromptEngine Bedrock PyStrFacts Spec.
Import QueryVocabulary KnowledgeBaseOps.

Lemma in_list_true_iff (x : string) (l : list string) :
  in_list x l = true <-> In x l.
Proof.
  unfold in_list. rewrite existsb_exists. split.
  - intros (y & Hin & H). apply String.eqb_eq in H. now subst.
  - intros H. exists x. split; [exact H | apply String.eqb_refl].
Qed.

Lemma in_list_false_iff (x : string) (l : list string) :
  in_list x l = false <-> ~ In x l.
Proof.
  rewrite <- in_list_true_iff. destruct (in_list x l); split; congruence.
Qed.

(** How [upload_to_s3], [start_ingestion_job] and [get_status] report a
    failure of their client call. A [ClientError] with a credential code
    raises the credential message (the two-line one, and for [get_status]
    the full list of methods); any other [ClientError] raises
    [Failed to ...: <message>], without the error code; an exception that
    is not a [ClientError] is not caught and leaves unchanged. *)
Theorem passthrough_failures (self : Config)
    (ds_response : result (option (list string))) (listing : Listing)
    (e : exn) :
  (forall ce,
     e = ClientError ce -> In (error_code_of ce) auth_codes ->
     upload_to_s3 (Raise e)
     = Raise (PyException
                (short_hint (error_code_of ce) (error_message_of ce)))
     /\ start_ingestion_job (Raise e)
        = Raise (PyException
                   (short_hint (error_code_of ce) (error_message_of ce)))
     /\ get_status self (Raise e) ds_response listing
        = Raise (PyException
                   (helpful_msg (error_code_of ce) (error_message_of ce))))
  /\ (forall ce,
        e = ClientError ce -> ~ In (error_code_of ce) auth_codes ->
        upload_to_s3 (Raise e)
        = Raise (PyException
                   ("Failed to upload to S3: " ++ error_message_of ce))
        /\ start_ingestion_job (Raise e)
           = Raise (PyException
                      ("Failed to start ingestion job: "
                         ++ error_message_of ce))
        /\ get_status self (Raise e) ds_response listing
           = Raise (PyException
                      ("Failed to get KB status: " ++ error_message_of ce)))
  /\ ((forall ce, e <> ClientError ce) ->
      upload_to_s3 (Raise e) = Raise e
      /\ start_ingestion_job (Raise e) = Raise e
      /\ get_status self (Raise e) ds_response listing = Raise e).
Proof.
  split; [|split].
  - intros ce -> Hin. apply in_list_true_iff in Hin.
    unfold upload_to_s3, start_ingestion_job, get_status.
    now rewrite Hin.
  - intros ce -> Hin. apply in_list_false_iff in Hin.
    unfold upload_to_s3, start_ingestion_job, get_status.
    now rewrite Hin.
  - intros Hne. destruct e as [msg|ce|msg|msg];
      try (repeat split; reflexivity).
    now destruct (Hne ce).
Qed.

(** An expired signature on the status call, and a timeout on the
    upload. *)
Lemma passthrough_failures_witness :
  get_status Scenario.sonnet_config
    (Raise (ClientError
              {| ce_code := Some "SignatureDoesNotMatch";
                 ce_message := Some "Signature expired";
                 ce_str := "" |}))
    (Return None) {| pages := []; failure := None |}
  = Raise (PyException (helpful_msg "SignatureDoesNotMatch" "Signature expired"))
  /\ upload_to_s3 (Raise (OtherError "Connect timeout"))
     = Raise (OtherError "Connect timeout").
Proof.
  split.
  - apply (proj1 (passthrough_failures Scenario.sonnet_config (Return None)
                    {| pages := []; failure := None |}
                    (ClientError
                       {| ce_code := Some "SignatureDoesNotMatch";
                          ce_message := Some "Signature expired";
                          ce_str := "" |}))
             _ eq_refl).
    simpl. auto.
  - apply (proj2 (proj2 (passthrough_failures Scenario.sonnet_config
                           (Return None) {| pages := []; failure := None |}
                           (OtherError "Connect timeout")))).
    intros ce H. discriminate H.
Defined.

Lemma collect_documents_fold (pgs : list (option (list S3Object)))
    (acc : list Document) :
  fold_left
    (fun documents page =>
       fold_left (fun documents' obj => append documents' (document_of obj))
                 (contents page) documents)
    pgs acc
  = (acc ++ map document_of (concat (map contents pgs)))%list.
Proof.
  revert acc; induction pgs as [|page pgs IH]; intros acc; cbn [fold_left].
  - cbn. now rewrite List.app_nil_r.
  - rewrite IH. cbn [map concat]. rewrite map_app, List.app_assoc. f_equal.
    clear IH. generalize (contents page) as objs. intros objs.
    revert acc; induction objs as [|obj objs IHo]; intros acc.
    + cbn. now rewrite List.app_nil_r.
    + cbn [fold_left map]. rewrite IHo. unfold append.
      now rewrite <- List.app_assoc.
Qed.

(** [list_documents] is all or nothing. When the listing ends without
    exception it returns one document for each object of each page, in
    the order received (a page without contents gives none); when the
    listing raises, on whatever page, no document is returned and a plain
    exception starting with [Failed to list documents: ] is raised. *)
Theorem list_documents_all_or_nothing (listing : Listing) :
  (failure listing = None ->
   list_documents listing
   = Return (map document_of (concat (map contents (pages listing)))))
  /\ (forall e,
        failure listing = Some e ->
        exists msg,
          list_documents listing
          = Raise (PyException ("Failed to list documents: " ++ msg))).
Proof.
  unfold list_documents. split.
  - intros ->. unfold collect_documents. now rewrite collect_documents_fold.
  - intros e ->. destruct e; eexists; reflexivity.
Qed.

(** Two pages, the second without contents; and a listing that fails
    after its first page. *)
Lemma list_documents_all_or_nothing_witness :
  list_documents
    {| pages := [Some [ {| obj_key := Some "documents/a.pdf";
                           obj_size := Some 10%Z |};
                        {| obj_key := Some "other/b.txt";
                           obj_size := None |} ];
                 None];
       failure := None |}
  = Return [ {| doc_name := "a.pdf"; doc_size := 10%Z |};
             {| doc_name := "b.txt"; doc_size := 0%Z |} ]
  /\ exists msg,
       list_documents
         {| pages := [Some [ {| obj_key := Some "documents/a.pdf";
                                obj_size := Some 10%Z |} ]];
            failure := Some (OtherError "Connection reset") |}
       = Raise (PyException ("Failed to list documents: " ++ msg)).
Proof.
  split.
  - apply (proj1 (list_documents_all_or_nothing
                    {| pages := [Some [ {| obj_key := Some "documents/a.pdf";
                                           obj_size := Some 10%Z |};
                                        {| obj_key := Some "other/b.txt";
                                           obj_size := None |} ];
                                 None];
                       failure := None |})).
    reflexivity.
  - apply (proj2 (list_documents_all_or_nothing
                    {| pages := [Some [ {| obj_key := Some "documents/a.pdf";
                                           obj_size := Some 10%Z |} ]];
                       failure := Some (OtherError "Connection reset") |})
             (OtherError "Connection reset")).
    reflexivity.
Defined.

Lemma drop_app (a b : string) : drop (String.length a) (a ++ b) = b.
Proof. induction a as [|c a IH]; [reflexivity | exact IH]. Qed.

(** Replacing the first occurrence of a prefix by nothing removes the
    prefix. *)
Lemma replace_first_prefix (old rest : string) :
  replace_first old "" (old ++ rest) = rest.
Proof.
  destruct (old ++ rest) as [|c s] eqn:E.
  - destruct old; [cbn in E; subst; reflexivity | discriminate E].
  - cbn [replace_first]. rewrite <- E, startswith_app.
    cbn [String.append]. apply drop_app.
Qed.

(** The name of a listed document. For a key under [documents/] it is the
    key without that prefix (sub-directories stay in the name); for any
    other key it is the part of the key after its last slash. *)
Theorem document_name_of_key (obj : S3Object) (key : string) :
  obj_key obj = Some key ->
  (startswith "documents/" key = true ->
   key = "documents/" ++ doc_name (document_of obj))
  /\ (startswith "documents/" key = false ->
      contains "/" (doc_name (document_of obj)) = false
      /\ exists dir,
           key = dir ++ doc_name (document_of obj)
           /\ (dir = "" \/ ends_with dir "/")).
Proof.
  intros Hkey. unfold document_of. rewrite Hkey. cbn [get_default doc_name].
  split; intros Hpre; rewrite Hpre.
  - apply startswith_inv in Hpre as [rest ->].
    now rewrite replace_first_prefix.
  - destruct (QueryBehaviour.split_last_spec "/" key)
      as (dir & Heq & Hno & Hdir).
    split; [exact Hno|]. exists dir. split; [exact Heq|].
    destruct Hdir as [-> | (d & ->)]; [now left | right; now exists d].
Qed.

(** A key in a sub-directory of [documents/], and a key elsewhere. *)
Lemma document_name_of_key_witness :
  doc_name (document_of {| obj_key := Some "documents/2024/a.pdf";
                           obj_size := None |})
  = "2024/a.pdf"
  /\ "documents/2024/a.pdf"
     = "documents/"
         ++ doc_name (document_of {| obj_key := Some "documents/2024/a.pdf";
                                     obj_size := None |}).
Proof.
  split; [reflexivity|].
  apply (proj1 (document_name_of_key
                  {| obj_key := Some "documents/2024/a.pdf";
                     obj_size := None |}
                  "documents/2024/a.pdf" eq_refl)).
  reflexivity.
Defined.

Lemma count_objects_fold (pgs : list (option (list S3Object))) (n : nat) :
  fold_left (fun s3_count page => s3_count + List.length (contents page))
            pgs n
  = n + List.length (concat (map contents pgs)).
Proof.
  revert n; induction pgs as [|page pgs IH]; intros n; cbn [fold_left].
  - cbn. lia.
  - rewrite IH. cbn [map concat]. rewrite length_app. lia.
Qed.

(** Once [get_knowledge_base] has answered, [get_status] returns a status
    whatever the two other calls do: a failed [list_data_sources] counts
    as no data source, and a failed S3 listing leaves the count at the
    objects of the pages received before the failure. Missing details
    give the status [UNKNOWN]. *)
Theorem get_status_survives_partial_failures (self : Config)
    (response : option KnowledgeBaseDetails)
    (ds_response : result (option (list string))) (listing : Listing) :
  exists st,
    get_status self (Return response) ds_response listing = Return st
    /\ st_knowledge_base_id st = kb_id self
    /\ st_data_sources st
       = match ds_response with
         | Return (Some summaries) => List.length summaries
         | _ => 0
         end
    /\ st_s3_documents st
       = List.length (concat (map contents (pages listing)))
    /\ (response = None -> st_status st = "UNKNOWN").
Proof.
  eexists. split; [reflexivity|]. cbn.
  split; [reflexivity|]. split.
  - destruct ds_response as [[l|]|e]; reflexivity.
  - split.
    + unfold count_objects. now rewrite count_objects_fold.
    + intros ->. reflexivity.
Qed.

End KnowledgeBaseOpsSpec.

(** ** The prompt builder and the history window *)

Module PromptBuilderSpec.
Import PyStr PromptEngine PyStrFacts Spec PromptEngineSpec.
Import PromptBuilder Chatbot.

Lemma dict_get_unknown (query_type : string) :
  ~ In query_type ["general"; "technical"; "summary"; "comparison"] ->
  dict_get prompt_templates query_type general_template = general_template.
Proof.
  intros Hnot. unfold prompt_templates. cbn [dict_get].
  repeat match goal with
         | |- context [String.eqb ?k query_type] =>
             destruct (String.eqb_spec k query_type) as [Heq|_];
             [exfalso; apply Hnot; rewrite <- Heq; simpl; tauto|]
         end.
  reflexivity.
Qed.

(** A query type that is none of the four known names gets the general
    template: the prompt is the one built for [general]. *)
Theorem build_prompt_unknown_type (self : Engine) (question : string)
    (context : list ContextItem) (query_type : string)
    (include_system_prompt include_examples : bool) :
  ~ In query_type ["general"; "technical"; "summary"; "comparison"] ->
  build_prompt self question context query_type include_system_prompt
    include_examples
  = build_prompt self question context "general" include_system_prompt
      include_examples.
Proof.
  intros Hnot. unfold build_prompt.
  now rewrite (dict_get_unknown _ Hnot).
Qed.

(** The type [poetry]. *)
Lemma build_prompt_unknown_type_witness :
  build_prompt {| system_prompt := "Be brief."; few_shot_examples := [] |}
    "What is X?" [] "poetry" false false
  = "Context:" ++ LF ++ "No context available." ++ LF ++ LF
    ++ "Question: What is X?" ++ LF ++ LF
    ++ "Please provide a comprehensive answer based on the context above.".
Proof.
  rewrite (build_prompt_unknown_type
             {| system_prompt := "Be brief."; few_shot_examples := [] |}
             "What is X?" [] "poetry" false false).
  - reflexivity.
  - simpl. intros [H | [H | [H | [H | []]]]]; discriminate H.
Defined.

(** Whatever the flags, the prompt ends with the main prompt, the
    template filled with the formatted context and the question; with
    both flags off it is the main prompt alone; and few-shot examples
    after the second never change the prompt. *)
Theorem build_prompt_main_prompt_last (self : Engine) (question : string)
    (context : list ContextItem) (query_type : string)
    (include_system_prompt include_examples : bool) :
  ends_with
    (build_prompt self question context query_type include_system_prompt
       include_examples)
    (format (dict_get prompt_templates query_type general_template)
       (format_context context) question)
  /\ build_prompt self question context query_type false false
     = format (dict_get prompt_templates query_type general_template)
         (format_context context) question
  /\ build_prompt self question context query_type include_system_prompt
       include_examples
     = build_prompt
         {| system_prompt := system_prompt self;
            few_shot_examples := firstn 2 (few_shot_examples self) |}
         question context query_type include_system_prompt include_examples.
Proof.
  split; [|split].
  - unfold build_prompt, ends_with.
    destruct include_system_prompt;
      destruct (include_examples
                && negb (Nat.eqb (List.length (few_shot_examples self)) 0));
      cbn [append app join String.concat].
    + eexists. rewrite <- !str_app_assoc. reflexivity.
    + eexists. rewrite <- !str_app_assoc. reflexivity.
    + eexists. rewrite <- !str_app_assoc. reflexivity.
    + now exists "".
  - reflexivity.
  - unfold build_prompt. cbn [system_prompt few_shot_examples].
    rewrite firstn_firstn. cbn [Nat.min].
    assert (Hlen : Nat.eqb (List.length (firstn 2 (few_shot_examples self))) 0
                   = Nat.eqb (List.length (few_shot_examples self)) 0).
    { destruct (few_shot_examples self) as [|a [|b l]]; reflexivity. }
    now rewrite Hlen.
Qed.

Lemma format_context_from_spec (context : list ContextItem) :
  forall (i : nat) (formatted : list string),
  exists blocks,
    format_context_from i context formatted = (formatted ++ blocks)%list
    /\ List.length blocks = List.length context
    /\ forall k item,
         nth_error context k = Some item ->
         nth_error blocks k = Some (context_item (i + k) item).
Proof.
  induction context as [|item rest IH]; intros i formatted.
  - exists []. cbn. rewrite List.app_nil_r. repeat split.
    intros [|k] it H; discriminate H.
  - destruct (IH (S i) (append formatted (context_item i item)))
      as (blocks & Heq & Hlen & Hnth).
    exists (context_item i item :: blocks). cbn [format_context_from].
    split; [|split].
    + rewrite Heq. unfold append. now rewrite <- List.app_assoc.
    + cbn. now rewrite Hlen.
    + intros [|k] it H.
      * cbn in H. injection H as <-. cbn. now rewrite Nat.add_0_r.
      * cbn in H. cbn [nth_error]. rewrite (Hnth k it H).
        f_equal. f_equal. lia.
Qed.

(** An empty context is rendered as [No context available.]; otherwise
    there is one block for each item, in order, joined by lines of three
    dashes, and the block of the item at position [k] (from 0) is the one
    labelled [[Source k+1]]. *)
Theorem format_context_blocks (context : list ContextItem) :
  (context = [] -> format_context context = "No context available.")
  /\ (context <> [] ->
      exists blocks,
        format_context context = join (LF ++ "---" ++ LF) blocks
        /\ List.length blocks = List.length context
        /\ forall k item,
             nth_error context k = Some item ->
             nth_error blocks k = Some (context_item (S k) item)).
Proof.
  split; [intros ->; reflexivity|]. intros Hne.
  destruct (format_context_from_spec context 1 [])
    as (blocks & Heq & Hlen & Hnth).
  exists blocks. unfold format_context.
  destruct context as [|item rest]; [congruence|].
  rewrite Heq. cbn [app]. repeat split; assumption.
Qed.

(** Two items, the first with a storage URI. *)
Lemma format_context_blocks_witness :
  format_context
    [ {| ci_content := Some "alpha"; ci_uri := Some "s3://bucket/a.pdf" |};
      {| ci_content := Some "beta"; ci_uri := None |} ]
  = "[Source 1] (from s3://bucket/a.pdf)" ++ LF ++ "alpha" ++ LF
    ++ LF ++ "---" ++ LF
    ++ "[Source 2]" ++ LF ++ "beta" ++ LF.
Proof.
  destruct (proj2 (format_context_blocks
                     [ {| ci_content := Some "alpha";
                          ci_uri := Some "s3://bucket/a.pdf" |};
                       {| ci_content := Some "beta"; ci_uri := None |} ])
              ltac:(discriminate))
    as (blocks & Heq & Hlen & Hnth).
  pose proof (Hnth 0 _ eq_refl) as H0. pose proof (Hnth 1 _ eq_refl) as H1.
  destruct blocks as [|b0 [|b1 [|b2 blocks]]]; try discriminate Hlen.
  cbn in H0, H1. injection H0 as ->. injection H1 as ->.
  rewrite Heq. reflexivity.
Defined.

Lemma last_n_map {A B : Type} (f : A -> B) (n : nat) (l : list A) :
  last_n n (map f l) = map f (last_n n l).
Proof.
  unfold last_n. now rewrite length_map, skipn_map.
Qed.

Lemma last_n_last_n {A : Type} (n m : nat) (l : list A) :
  n <= m -> last_n n (last_n m l) = last_n n l.
Proof.
  intros Hnm. unfold last_n. rewrite length_skipn, skipn_skipn.
  f_equal. lia.
Qed.

Lemma enhance_query_same_recent (q : string) (h h' : list Exchange) :
  (h = [] <-> h' = []) -> last_n 3 h = last_n 3 h' ->
  enhance_query q h = enhance_query q h'.
Proof.
  intros Hempty Hrecent. unfold enhance_query.
  destruct h as [|x h], h' as [|x' h']; try reflexivity.
  - destruct Hempty as [H _]. now specialize (H eq_refl).
  - destruct Hempty as [_ H]. now specialize (H eq_refl).
  - now rewrite Hrecent.
Qed.

(** The route hands [query] only the last five rows of the session
    history, and the enhancer reads only the last three exchanges it is
    given: the window of five never changes the enhanced question, which
    is the one the whole history would give. *)
Theorem history_window_is_invisible (question : string)
    (history : list HistoryRow) :
  enhance_query question (conversation_history history)
  = enhance_query question
      (map (fun h => {| ex_question := Some (row_question h);
                        ex_answer := Some (row_answer h) |})
           history).
Proof.
  unfold conversation_history. apply enhance_query_same_recent.
  - split; intros H.
    + apply map_eq_nil in H.
      destruct history as [|r history]; [reflexivity|].
      apply (f_equal (@List.length _)) in H. unfold last_n in H.
      rewrite length_skipn in H. cbn [List.length] in H. lia.
    + apply map_eq_nil in H. now subst.
  - rewrite !last_n_map, (last_n_last_n 3 5) by lia. reflexivity.
Qed.

End PromptBuilderSpec.

(** ** Validation of the configuration *)

Module ConfigManagerSpec.
Import PyStr PromptEngine Bedrock PyStrFacts ConfigManager.

Lemma temperature_passes_iff (t : PyFloat) :
  float_lt t 0 || float_gt t 2 = false <-> temperature_passes t.
Proof.
  destruct t as [q| | |]; cbn [float_lt float_gt temperature_passes orb].
  - rewrite orb_false_iff, !negb_false_iff, !Qle_bool_iff. tauto.
  - split; [discriminate | tauto].
  - split; [discriminate | tauto].
  - tauto.
Qed.

(** [validate] accepts a configuration exactly when the knowledge-base id
    and the bucket name are present and not empty, the region is missing,
    empty or matches the pattern, the token limit (1000 when missing) is
    between 1 and 100000, and the temperature (0.7 when missing) is
    between 0 and 2 or is not-a-number. In particular an empty region
    passes, and so does a temperature that is not a number. *)
Theorem validate_accepts_iff (float_str : PyFloat -> string) (c : Settings) :
  validate float_str c = Return true <->
  otruthy (KNOWLEDGE_BASE_ID c) = true
  /\ otruthy (S3_BUCKET_NAME c) = true
  /\ (get_default (AWS_REGION c) "" = ""
      \/ region_matches (get_default (AWS_REGION c) "") = true)
  /\ (1 <= match MAX_TOKENS c with Some n => n | None => 1000 end <= 100000)%Z
  /\ temperature_passes
       (match TEMPERATURE c with Some t => t | None => Finite (7 # 10)%Q end).
Proof.
  unfold validate, missing_keys.
  destruct (otruthy (KNOWLEDGE_BASE_ID c)) eqn:Hkb;
    destruct (otruthy (S3_BUCKET_NAME c)) eqn:Hb; cbn [app];
    try (split; [discriminate | intros (H1 & H2 & _); discriminate]).
  set (rgn := get_default (AWS_REGION c) "").
  set (tokens := match MAX_TOKENS c with Some n => n | None => 1000%Z end).
  set (temp := match TEMPERATURE c with Some t => t | None => Finite (7 # 10)%Q end).
  destruct (truthy rgn && negb (region_matches rgn)) eqn:Hr.
  { split; [discriminate|]. intros (_ & _ & Hrgn & _).
    apply andb_true_iff in Hr as [Ht Hm]. apply negb_true_iff in Hm.
    destruct Hrgn as [Hrgn | Hrgn]; [|congruence].
    rewrite Hrgn in Ht. discriminate Ht. }
  destruct ((tokens <? 1)%Z || (100000 <? tokens)%Z) eqn:Hm.
  { split; [discriminate|]. intros (_ & _ & _ & Htok & _).
    apply orb_true_iff in Hm as [Hm | Hm]; apply Z.ltb_lt in Hm; lia. }
  destruct (float_lt temp 0 || float_gt temp 2) eqn:Ht.
  { split; [discriminate|]. intros (_ & _ & _ & _ & Htemp).
    apply temperature_passes_iff in Htemp. congruence. }
  split; [intros _ | reflexivity].
  repeat split; try reflexivity.
  - apply andb_false_iff in Hr as [Hr | Hr].
    + left. destruct rgn; [reflexivity | discriminate Hr].
    + right. now apply negb_false_iff in Hr.
  - apply orb_false_iff in Hm as [Hm _]. apply Z.ltb_ge in Hm. lia.
  - apply orb_false_iff in Hm as [_ Hm]. apply Z.ltb_ge in Hm. lia.
  - now apply temperature_passes_iff.
Qed.

(** A configuration with an empty region and a temperature that is not a
    number passes. *)
Lemma validate_accepts_iff_witness :
  validate (fun _ => "nan")
    {| KNOWLEDGE_BASE_ID := Some "R6TD9J5RHA";
       S3_BUCKET_NAME := Some "abt-bedrock-kb-store";
       AWS_REGION := Some "";
       MAX_TOKENS := Some 1000%Z;
       TEMPERATURE := Some NaN |}
  = Return true.
Proof.
  apply (validate_accepts_iff (fun _ => "nan")
           {| KNOWLEDGE_BASE_ID := Some "R6TD9J5RHA";
              S3_BUCKET_NAME := Some "abt-bedrock-kb-store";
              AWS_REGION := Some "";
              MAX_TOKENS := Some 1000%Z;
              TEMPERATURE := Some NaN |}).
  repeat split; try reflexivity; try (cbn; lia). now left.
Defined.

End ConfigManagerSpec.
